(** * Excalibur API logger: a shallow embedding of [excalibur_logger.py]

    The development follows the source file top to bottom:

    - [Py]        the Python values the logger handles and the builtins it
                  calls on them ([bool], [len], [int], [in], [dict.get], ...);
    - [Effects]   the connection, the console and the clock as an explicit
                  world threaded through a state-and-exception monad;
    - [Logger]    the five lookup resolvers and [_insert_log];
    - [Builders]  [log_excalibur_request] and [log_excalibur_response];
    - [Lifecycle] the queue, the worker loop and [shutdown] as a labelled
                  transition system over interleaved atomic actions.

    The database driver, [json.loads] and [json.dumps] are not part of the
    repository; they are section variables, so every statement holds for
    every behaviour of those collaborators, including raising at any call.
    [MemDB] and [Json] give one concrete driver and one concrete [json]
    module, and [Samples] a few inputs, to run the model on. *)

From Stdlib Require Import String Ascii ZArith List Bool Lia DecimalString.
Import ListNotations.
Open Scope string_scope.
Open Scope list_scope.
Open Scope Z_scope.
Set Warnings "-register-all".

(* ================================================================== *)
(** * Python values and builtins *)
(* ================================================================== *)

Module Py.

(** Exceptions deriving from [Exception] that the modelled code can meet.
    [DBAPIError] stands for anything the database driver raises. *)
Inductive exn : Type :=
| TypeError
| ValueError
| KeyError
| IndexError
| AttributeError
| JSONDecodeError
| DBAPIError (msg : string).

(** The result of evaluating a Python expression or call. *)
Inductive outcome (A : Type) : Type :=
| Return (a : A)
| Raise (e : exn).
Arguments Return {A} a.
Arguments Raise {A} e.

(** Values.  A [str] is a sequence of characters with codes below 256; a
    [dict] has [str] keys and keeps insertion order; [PDateTime] is a
    [datetime] given by its clock reading.  Floats are not represented. *)
Inductive PyVal : Type :=
| PNone
| PBool (b : bool)
| PInt (z : Z)
| PStr (s : string)
| PList (l : list PyVal)
| PDict (d : list (string * PyVal))
| PDateTime (t : Z).

Definition dict := list (string * PyVal).

(** [bool(v)] *)
Definition truthy (v : PyVal) : bool :=
  match v with
  | PNone => false
  | PBool b => b
  | PInt z => negb (z =? 0)
  | PStr s => negb (String.eqb s "")
  | PList l => match l with [] => false | _ => true end
  | PDict d => match d with [] => false | _ => true end
  | PDateTime _ => true
  end.

(** [a or b] *)
Definition py_or (a b : PyVal) : PyVal := if truthy a then a else b.

(** [v is None] *)
Definition is_none (v : PyVal) : bool :=
  match v with PNone => true | _ => false end.

(** [v == s] for a [str] literal [s] *)
Definition eq_str (v : PyVal) (s : string) : bool :=
  match v with PStr t => String.eqb t s | _ => false end.

(** [v == n] for an [int] literal [n]; [True] and [False] compare as 1 and 0 *)
Definition eq_int (v : PyVal) (n : Z) : bool :=
  match v with
  | PInt z => z =? n
  | PBool b => (if b then 1 else 0) =? n
  | _ => false
  end.

(** ** Dictionaries *)

(** [k in d]; [None] when the key is absent, which is not the same as a key
    bound to [PNone]. *)
Fixpoint dict_find (d : dict) (k : string) : option PyVal :=
  match d with
  | [] => None
  | (k', v) :: d' => if String.eqb k' k then Some v else dict_find d' k
  end.

(** [d.get(k, default)] *)
Definition dict_get_or (d : dict) (k : string) (default : PyVal) : PyVal :=
  match dict_find d k with Some v => v | None => default end.

(** [d.get(k)] *)
Definition dict_get (d : dict) (k : string) : PyVal := dict_get_or d k PNone.

(** [d[k] = v]: an existing key keeps its position *)
Fixpoint dict_set (d : dict) (k : string) (v : PyVal) : dict :=
  match d with
  | [] => [(k, v)]
  | (k', v') :: d' =>
      if String.eqb k' k then (k', v) :: d' else (k', v') :: dict_set d' k v
  end.

(** [d.update(other)] *)
Definition dict_update (d other : dict) : dict :=
  fold_left (fun acc kv => dict_set acc (fst kv) (snd kv)) other d.

(** ** Strings *)

Definition str_len (s : string) : Z := Z.of_nat (String.length s).

(** [s[:n]] for a literal [n >= 0] *)
Definition str_take (n : Z) (s : string) : string :=
  String.substring 0 (Z.to_nat n) s.

(** [needle in hay] on two [str] *)
Fixpoint is_substring (needle hay : string) : bool :=
  String.prefix needle hay ||
  match hay with
  | EmptyString => false
  | String _ hay' => is_substring needle hay'
  end.

(** ** Builtins that can raise *)

(** [len(v)] *)
Definition py_len (v : PyVal) : outcome Z :=
  match v with
  | PStr s => Return (str_len s)
  | PList l => Return (Z.of_nat (List.length l))
  | PDict d => Return (Z.of_nat (List.length d))
  | _ => Raise TypeError
  end.

(** ['key' in v] for a [str] literal: substring test on a [str], element
    test on a [list], key test on a [dict], [TypeError] otherwise. *)
Definition py_contains (key : string) (v : PyVal) : outcome bool :=
  match v with
  | PStr s => Return (is_substring key s)
  | PList l => Return (existsb (fun x => eq_str x key) l)
  | PDict d => Return (match dict_find d key with Some _ => true | None => false end)
  | _ => Raise TypeError
  end.

(** [v['key']] for a [str] literal *)
Definition py_getitem_str (v : PyVal) (key : string) : outcome PyVal :=
  match v with
  | PDict d => match dict_find d key with Some x => Return x | None => Raise KeyError end
  | _ => Raise TypeError
  end.

(** [v[0]]: first element of a [list], first character of a [str]; a
    [dict] has no key [0] because its keys are [str]. *)
Definition py_getitem_0 (v : PyVal) : outcome PyVal :=
  match v with
  | PList (x :: _) => Return x
  | PList [] => Raise IndexError
  | PStr (String c _) => Return (PStr (String c EmptyString))
  | PStr EmptyString => Raise IndexError
  | PDict _ => Raise KeyError
  | _ => Raise TypeError
  end.

(** [v.get('key', default)]: only a [dict] has the method *)
Definition py_dot_get (v : PyVal) (key : string) (default : PyVal) : outcome PyVal :=
  match v with
  | PDict d => Return (dict_get_or d key default)
  | _ => Raise AttributeError
  end.

(** [v[:n]] for a literal [n >= 0] *)
Definition py_slice_to (n : Z) (v : PyVal) : outcome PyVal :=
  match v with
  | PStr s => Return (PStr (str_take n s))
  | PList l => Return (PList (firstn (Z.to_nat n) l))
  | _ => Raise TypeError
  end.

(** [v + s] for a [str] literal [s] *)
Definition py_add_str (v : PyVal) (s : string) : outcome PyVal :=
  match v with
  | PStr t => Return (PStr (t ++ s)%string)
  | _ => Raise TypeError
  end.

(** [not v] and [a and b] *)
Definition py_not (v : PyVal) : PyVal := PBool (negb (truthy v)).
Definition py_and (a b : PyVal) : PyVal := if truthy a then b else a.

(** Sequencing of expressions that may raise. *)
Definition obind {A B} (o : outcome A) (k : A -> outcome B) : outcome B :=
  match o with
  | Return a => k a
  | Raise e => Raise e
  end.

(** ** [int(v)] *)

(** A character of a [str] is one of the first 256 code points.  The
    white space [int] skips around a literal: the six ASCII characters of
    C's [isspace] (tab, line feed, vertical tab, form feed, carriage
    return, space) and, above 126, the code points [str.isspace] accepts,
    which [int] turns into spaces first (133 and 160).  The separators 28
    to 31 are below 127 and stay as they are: [int] rejects them. *)
Definition is_space (c : ascii) : bool :=
  let n := N_of_ascii c in
  ((9 <=? n) && (n <=? 13) || (n =? 32) || (n =? 133) || (n =? 160))%N.

Definition digit_of (c : ascii) : option Z :=
  let n := N_of_ascii c in
  if ((48 <=? n) && (n <=? 57))%N then Some (Z.of_N n - 48) else None.

Fixpoint lstrip (s : string) : string :=
  match s with
  | String c s' => if is_space c then lstrip s' else s
  | EmptyString => s
  end.

(** Trailing white space: [true] when only white space is left. *)
Fixpoint all_space (s : string) : bool :=
  match s with
  | String c s' => is_space c && all_space s'
  | EmptyString => true
  end.

(** Digits after the first one: a digit, or one underscore followed by a
    digit; white space may end the literal. *)
Fixpoint more_digits (acc : Z) (s : string) : option Z :=
  match s with
  | EmptyString => Some acc
  | String c s' =>
      match digit_of c with
      | Some d => more_digits (10 * acc + d) s'
      | None =>
          if Ascii.eqb c "_" then
            match s' with
            | String c' s'' =>
                match digit_of c' with
                | Some d => more_digits (10 * acc + d) s''
                | None => None
                end
            | EmptyString => None
            end
          else if all_space s then Some acc else None
      end
  end.

Definition unsigned_of_str (s : string) : option Z :=
  match s with
  | String c s' =>
      match digit_of c with
      | Some d => more_digits d s'
      | None => None
      end
  | EmptyString => None
  end.

(** [sys.int_info.default_max_str_digits]: [int] raises [ValueError] on a
    literal with more digits. *)
Definition max_str_digits : Z := 4300.

(** The digits of a literal: underscores, sign and white space do not
    count, leading zeros do. *)
Fixpoint count_digits (s : string) : Z :=
  match s with
  | String c s' =>
      match digit_of c with
      | Some _ => 1 + count_digits s'
      | None => count_digits s'
      end
  | EmptyString => 0
  end.

(** [int(s)] for a [str] in base ten: surrounding white space, one optional
    sign, decimal digits with single underscores between them, at most
    [max_str_digits] digits. *)
Definition int_of_str (s : string) : option Z :=
  if max_str_digits <? count_digits s then None
  else
    match lstrip s with
    | String "+" s' => unsigned_of_str s'
    | String "-" s' => option_map Z.opp (unsigned_of_str s')
    | s' => unsigned_of_str s'
    end.

Definition py_int (v : PyVal) : outcome Z :=
  match v with
  | PInt z => Return z
  | PBool b => Return (if b then 1 else 0)
  | PStr s => match int_of_str s with Some z => Return z | None => Raise ValueError end
  | _ => Raise TypeError
  end.

End Py.
Export Py.

(* ================================================================== *)
(** * Effects: connection, console and clock *)
(* ================================================================== *)

Module Effects.

(** The SQL statements of the source, one constructor per [text(...)]. *)
Inductive stmt : Type :=
| SelectHttpMethod              (* WHERE HttpMethodName = :method *)
| SelectErrorSource             (* WHERE ErrorSourceName = :source *)
| InsertErrorSource             (* (ErrorSourceName) VALUES (:source) *)
| SelectEnvironment             (* WHERE EnvironmentName = :name *)
| SelectEnvironmentDevelopment  (* WHERE EnvironmentName = 'Development' *)
| SelectFileType                (* WHERE FileTypeName = :type *)
| InsertFileType                (* (FileTypeName) VALUES (:type) *)
| InsertAPICall.                (* INSERT INTO [Bot].[dbo].[APICall] *)

(** The [print] calls of the source, one constructor per call site, with
    the values its f-string interpolates. *)
Inductive log_line : Type :=
| MsgThreadStarted
| MsgProcessingError (e : exn)
| MsgInsertError (e : exn)
| MsgHttpMethodNotFound (v : PyVal)
| MsgHttpMethodError (v : PyVal) (e : exn)
| MsgStatusCodeError (v : PyVal) (e : exn)
| MsgErrorSourceError (v : PyVal) (e : exn)
| MsgEnvironmentNotFound (v : PyVal)
| MsgEnvironmentError (v : PyVal) (e : exn)
| MsgFileTypeError (v : PyVal) (e : exn)
| MsgShuttingDown
| MsgShutdownComplete.

(** What a run does to the outside, in order.  [fetchone()] on a one-column
    SELECT is [Some id] for a row [(id,)] and [None] for no row. *)
Inductive event : Type :=
| EvConnect (r : outcome unit)
| EvExecute (s : stmt) (params : dict) (r : outcome (option PyVal))
| EvCommit (r : outcome unit)
| EvClose (r : outcome unit)
| EvPrint (l : log_line).

(** A database call that raised. *)
Definition failed (ev : event) : bool :=
  match ev with
  | EvConnect (Raise _) | EvExecute _ _ (Raise _)
  | EvCommit (Raise _) | EvClose (Raise _) => true
  | _ => false
  end.

Definition is_print (ev : event) : bool :=
  match ev with EvPrint _ => true | _ => false end.

(** The database driver: the four calls the source makes on the engine and
    on a connection.  Each may change the database and may raise. *)
Record Driver (DB : Type) : Type := {
  connect : DB -> DB * outcome unit;
  execute : stmt -> dict -> DB -> DB * outcome (option PyVal);
  commit  : DB -> DB * outcome unit;
  close   : DB -> DB * outcome unit
}.
Arguments connect {DB} _ _.
Arguments execute {DB} _ _ _ _.
Arguments commit {DB} _ _.
Arguments close {DB} _ _.

Section Monad.
Context {DB : Type}.

Record World : Type := { db : DB; clock : Z }.

(** A computation: from a world to a world, the events emitted and a
    value or an exception. *)
Definition M (A : Type) : Type := World -> World * list event * outcome A.

Definition ret {A} (a : A) : M A := fun w => (w, [], Return a).

Definition raise {A} (e : exn) : M A := fun w => (w, [], Raise e).

Definition bind {A B} (m : M A) (k : A -> M B) : M B :=
  fun w =>
    let '(w1, t1, r) := m w in
    match r with
    | Return a => let '(w2, t2, r2) := k a w1 in (w2, t1 ++ t2, r2)
    | Raise e => (w1, t1, Raise e)
    end.

(** A pure builtin that may raise. *)
Definition lift {A} (o : outcome A) : M A := fun w => (w, [], o).

(** What a run emits and what it returns. *)
Definition trace_of {A} (m : M A) (w : World) : list event := snd (fst (m w)).
Definition result_of {A} (m : M A) (w : World) : outcome A := snd (m w).

(** [try: body  except Exception as e: handler e] *)
Definition try_except {A} (body : M A) (handler : exn -> M A) : M A :=
  fun w =>
    let '(w1, t1, r) := body w in
    match r with
    | Return a => (w1, t1, Return a)
    | Raise e => let '(w2, t2, r2) := handler e w1 in (w2, t1 ++ t2, r2)
    end.

Definition print (l : log_line) : M unit := fun w => (w, [EvPrint l], Return tt).

(** [datetime.now()] *)
Definition datetime_now : M PyVal := fun w => (w, [], Return (PDateTime (clock w))).

Variable drv : Driver DB.

Definition with_db {A} (f : DB -> DB * outcome A) (ev : outcome A -> event) : M A :=
  fun w => let '(d, r) := f (db w) in ({| db := d; clock := clock w |}, [ev r], r).

(** [conn.execute(text(s), params).fetchone()], or [conn.execute] alone
    when the result is dropped. *)
Definition conn_execute (s : stmt) (params : dict) : M (option PyVal) :=
  with_db (execute drv s params) (EvExecute s params).

Definition conn_commit : M unit := with_db (commit drv) EvCommit.

(** [with self.engine.connect() as conn: body].  The connection is closed
    on the way out whether or not [body] raised; an exception from
    [close] replaces the one from [body]. *)
Definition with_connection {A} (body : M A) : M A :=
  bind (with_db (connect drv) EvConnect) (fun _ w =>
    let '(w1, t1, r) := body w in
    let '(w2, t2, rc) := with_db (close drv) EvClose w1 in
    (w2, t1 ++ t2, match rc with Return _ => r | Raise e => Raise e end)).

End Monad.
Arguments World : clear implicits.
Arguments M : clear implicits.

End Effects.
Export Effects.

Declare Scope py_scope.
Delimit Scope py_scope with py.
Notation "x <- m ;; k" := (bind m (fun x => k))
  (at level 61, m at next level, right associativity) : py_scope.
Notation "m ;;; k" := (bind m (fun _ => k))
  (at level 61, right associativity) : py_scope.

(* ================================================================== *)
(** * ExcaliburAPILogger: lookup resolvers and the record writer *)
(* ================================================================== *)

Module Logger.

Section Logger.
Context {DB : Type}.
Variable drv : Driver DB.
Local Open Scope py_scope.

Local Abbreviation M := (Effects.M DB).

(** [_get_http_method_id(conn, http_method)] *)
Definition _get_http_method_id (http_method : PyVal) : M PyVal :=
  if negb (truthy http_method) then ret PNone
  else
    try_except
      (result <- conn_execute drv SelectHttpMethod [("method", http_method)] ;;
       match result with
       | Some id => ret id
       | None => print (MsgHttpMethodNotFound http_method) ;;; ret PNone
       end)
      (fun e => print (MsgHttpMethodError http_method e) ;;; ret PNone).

(** [_get_http_status_code_id(conn, status_code)] *)
Definition _get_http_status_code_id (status_code : PyVal) : M PyVal :=
  if negb (truthy status_code) then ret PNone
  else
    try_except
      (z <- lift (py_int status_code) ;; ret (PInt z))
      (fun e => print (MsgStatusCodeError status_code e) ;;; ret PNone).

(** [_get_error_source_id(conn, error_source)] *)
Definition _get_error_source_id (error_source : PyVal) : M PyVal :=
  if negb (truthy error_source) then ret PNone
  else
    try_except
      (result <- conn_execute drv SelectErrorSource [("source", error_source)] ;;
       match result with
       | Some id => ret id
       | None =>
           conn_execute drv InsertErrorSource [("source", error_source)] ;;;
           conn_commit drv ;;;
           result <- conn_execute drv SelectErrorSource [("source", error_source)] ;;
           ret (match result with Some id => id | None => PNone end)
       end)
      (fun e => print (MsgErrorSourceError error_source e) ;;; ret PNone).

(** [_get_environment_id(conn, environment)] *)
Definition _get_environment_id (environment : PyVal) : M PyVal :=
  let environment := if negb (truthy environment) then PStr "Dev" else environment in
  try_except
    (result <- conn_execute drv SelectEnvironment [("name", environment)] ;;
     match result with
     | Some id => ret id
     | None =>
         alias <- (if eq_str environment "Dev"
                   then conn_execute drv SelectEnvironmentDevelopment []
                   else ret None) ;;
         match alias with
         | Some id => ret id
         | None => print (MsgEnvironmentNotFound environment) ;;; ret PNone
         end
     end)
    (fun e => print (MsgEnvironmentError environment e) ;;; ret PNone).

(** [_get_file_type_id(conn, file_type)] *)
Definition _get_file_type_id (file_type : PyVal) : M PyVal :=
  if negb (truthy file_type) then ret PNone
  else
    try_except
      (result <- conn_execute drv SelectFileType [("type", file_type)] ;;
       match result with
       | Some id => ret id
       | None =>
           conn_execute drv InsertFileType [("type", file_type)] ;;;
           conn_commit drv ;;;
           result <- conn_execute drv SelectFileType [("type", file_type)] ;;
           ret (match result with Some id => id | None => PNone end)
       end)
      (fun e => print (MsgFileTypeError file_type e) ;;; ret PNone).

(** The five resolvers under one name. *)
Inductive resolver : Type :=
| HttpMethodID | HttpStatusCodeID | ErrorSourceID | EnvironmentID | FileTypeID.

Definition resolve (r : resolver) : PyVal -> M PyVal :=
  match r with
  | HttpMethodID => _get_http_method_id
  | HttpStatusCodeID => _get_http_status_code_id
  | ErrorSourceID => _get_error_source_id
  | EnvironmentID => _get_environment_id
  | FileTypeID => _get_file_type_id
  end.

(** The statements a resolver issues. *)
Definition own_stmt (r : resolver) (s : stmt) : bool :=
  match r, s with
  | HttpMethodID, SelectHttpMethod
  | ErrorSourceID, SelectErrorSource
  | ErrorSourceID, InsertErrorSource
  | EnvironmentID, SelectEnvironment
  | EnvironmentID, SelectEnvironmentDevelopment
  | FileTypeID, SelectFileType
  | FileTypeID, InsertFileType => true
  | _, _ => false
  end.

(** What a resolver may do to the outside: its own statements, commits
    and prints. *)
Definition resolver_event (r : resolver) (ev : event) : bool :=
  match ev with
  | EvExecute s _ _ => own_stmt r s
  | EvCommit _ | EvPrint _ => true
  | _ => false
  end.

(** The [params] dictionary of [_insert_log], given the resolved keys,
    the truncated exception message and the reading of [datetime.now()]. *)
Definition insert_params (log_data : dict)
    (http_method_id http_status_code_id error_source_id environment_id
     file_type_id exception_message now : PyVal) : dict :=
  [ ("endpoint", dict_get log_data "api_endpoint");
    ("http_method_id", http_method_id);
    ("client_phone_number",
       py_or (dict_get log_data "client_id") (dict_get log_data "client_phone_number"));
    ("debtor_phone_number",
       py_or (dict_get log_data "phone_number") (dict_get log_data "debtor_phone_number"));
    ("http_status_code_id", http_status_code_id);
    ("response_time", dict_get log_data "response_time");
    ("is_success", PInt (if truthy (dict_get log_data "is_success") then 1 else 0));
    ("error_source_id", error_source_id);
    ("exception_message", exception_message);
    ("retry_count", dict_get_or log_data "retry_count" (PInt 0));
    ("environment_id", environment_id);
    ("matter_id", dict_get log_data "matter_id");
    ("file_name", dict_get log_data "file_name");
    ("file_type_id", file_type_id);
    ("date_created", dict_get_or log_data "created_at" now) ].

(** [_insert_log(log_data)] *)
Definition _insert_log (log_data : dict) : M unit :=
  try_except
    (with_connection drv
       (http_method_id <-
          _get_http_method_id (dict_get_or log_data "http_method" (PStr "POST")) ;;
        http_status_code_id <-
          _get_http_status_code_id (dict_get log_data "http_status_code") ;;
        error_source_id <- _get_error_source_id (dict_get log_data "error_source") ;;
        environment_id <-
          _get_environment_id (dict_get_or log_data "environment" (PStr "Dev")) ;;
        file_type_id <- _get_file_type_id (dict_get log_data "file_type") ;;
        let error_source_id :=
          if is_none error_source_id then PInt 5 else error_source_id in
        let file_type_id :=
          if is_none file_type_id then PInt 49 else file_type_id in
        exception_message <-
          (if truthy (dict_get log_data "exception_message")
           then lift (py_slice_to 500 (dict_get_or log_data "exception_message" (PStr "")))
           else ret PNone) ;;
        now <- datetime_now ;;
        conn_execute drv InsertAPICall
          (insert_params log_data http_method_id http_status_code_id error_source_id
             environment_id file_type_id exception_message now) ;;;
        conn_commit drv))
    (fun e => print (MsgInsertError e)).

End Logger.

End Logger.
Export Logger.

(* ================================================================== *)
(** * An in-memory driver, to run the logger on concrete inputs *)
(* ================================================================== *)

Module MemDB.

(** Four reference tables (name, key), the event table, and a fault
    schedule: each driver call consumes one flag and raises when it is
    [true]; an exhausted schedule means no more faults. *)
Record Tables : Type := {
  HttpMethod : list (string * Z);
  ErrorSource : list (string * Z);
  Environment : list (string * Z);
  FileType : list (string * Z);
  APICall : list dict;
  faults : list bool
}.

Definition set_faults (t : Tables) (f : list bool) : Tables :=
  {| HttpMethod := HttpMethod t; ErrorSource := ErrorSource t;
     Environment := Environment t; FileType := FileType t;
     APICall := APICall t; faults := f |}.

Definition next_fault (t : Tables) : bool * Tables :=
  match faults t with
  | [] => (false, t)
  | b :: f => (b, set_faults t f)
  end.

Fixpoint lookup (tbl : list (string * Z)) (name : string) : option Z :=
  match tbl with
  | [] => None
  | (n, k) :: tbl' => if String.eqb n name then Some k else lookup tbl' name
  end.

(** The key an identity column gives the next row. *)
Definition next_key (tbl : list (string * Z)) : Z :=
  1 + fold_right (fun nk m => Z.max (snd nk) m) 0 tbl.

Definition select (tbl : list (string * Z)) (v : PyVal)
  : outcome (option PyVal) :=
  match v with
  | PStr name => Return (option_map PInt (lookup tbl name))
  | _ => Raise (DBAPIError "cannot bind parameter")
  end.

Definition run (s : stmt) (p : dict) (t : Tables) : Tables * outcome (option PyVal) :=
  match s with
  | SelectHttpMethod => (t, select (HttpMethod t) (dict_get p "method"))
  | SelectErrorSource => (t, select (ErrorSource t) (dict_get p "source"))
  | SelectEnvironment => (t, select (Environment t) (dict_get p "name"))
  | SelectEnvironmentDevelopment => (t, select (Environment t) (PStr "Development"))
  | SelectFileType => (t, select (FileType t) (dict_get p "type"))
  | InsertErrorSource =>
      match dict_get p "source" with
      | PStr name =>
          ({| HttpMethod := HttpMethod t;
              ErrorSource := ErrorSource t ++ [(name, next_key (ErrorSource t))];
              Environment := Environment t; FileType := FileType t;
              APICall := APICall t; faults := faults t |}, Return None)
      | _ => (t, Raise (DBAPIError "cannot bind parameter"))
      end
  | InsertFileType =>
      match dict_get p "type" with
      | PStr name =>
          ({| HttpMethod := HttpMethod t; ErrorSource := ErrorSource t;
              Environment := Environment t;
              FileType := FileType t ++ [(name, next_key (FileType t))];
              APICall := APICall t; faults := faults t |}, Return None)
      | _ => (t, Raise (DBAPIError "cannot bind parameter"))
      end
  | InsertAPICall =>
      ({| HttpMethod := HttpMethod t; ErrorSource := ErrorSource t;
          Environment := Environment t; FileType := FileType t;
          APICall := APICall t ++ [p]; faults := faults t |}, Return None)
  end.

Definition guarded {A} (f : Tables -> Tables * outcome A) (t : Tables)
  : Tables * outcome A :=
  let '(bad, t') := next_fault t in
  if bad then (t', Raise (DBAPIError "connection lost")) else f t'.

Definition driver : Driver Tables := {|
  connect := guarded (fun t => (t, Return tt));
  execute := fun s p => guarded (run s p);
  commit := guarded (fun t => (t, Return tt));
  close := guarded (fun t => (t, Return tt))
|}.

(** The reference rows the docstrings of the source name. *)
Definition seeded : Tables := {|
  HttpMethod := [("POST", 1); ("GET", 2); ("PUT", 3); ("DELETE", 4)];
  ErrorSource := [("N/A", 5)];
  Environment := [("Development", 1); ("Production", 2)];
  FileType := [("N/A", 49); ("PDF", 50)];
  APICall := [];
  faults := []
|}.

Definition world (t : Tables) (now : Z) : World Tables := {| db := t; clock := now |}.

End MemDB.

(* ================================================================== *)
(** * Helper functions: the request and response record builders *)
(* ================================================================== *)

Module Builders.

(** The arguments of [log_excalibur_request]; [rq_kwargs] is [**kwargs]. *)
Record RequestArgs : Type := {
  rq_api_endpoint : PyVal;
  rq_client_id : PyVal;
  rq_matter_id : PyVal;
  rq_phone_number : PyVal;
  rq_request_payload : PyVal;
  rq_file_name : PyVal;
  rq_file_type : PyVal;
  rq_document_type : PyVal;
  rq_session_id : PyVal;
  rq_kwargs : dict
}.

(** The arguments of [log_excalibur_response]; [rs_kwargs] is [**kwargs]. *)
Record ResponseArgs : Type := {
  rs_api_endpoint : PyVal;
  rs_client_id : PyVal;
  rs_http_status_code : PyVal;
  rs_response_time : PyVal;
  rs_response_payload : PyVal;
  rs_is_success : PyVal;
  rs_exception_thrown : PyVal;
  rs_exception_message : PyVal;
  rs_error_source : PyVal;
  rs_ssl_verified : PyVal;
  rs_retry_count : PyVal;
  rs_kwargs : dict
}.

(** Python binds a keyword that names a parameter to that parameter, so
    [**kwargs] never holds one of these names. *)
Definition request_param_names : list string :=
  [ "api_endpoint"; "client_id"; "matter_id"; "phone_number"; "request_payload";
    "file_name"; "file_type"; "document_type"; "session_id" ].

Definition response_param_names : list string :=
  [ "api_endpoint"; "client_id"; "http_status_code"; "response_time";
    "response_payload"; "is_success"; "exception_thrown"; "exception_message";
    "error_source"; "ssl_verified"; "retry_count" ].

Definition kwargs_ok (names : list string) (kwargs : dict) : bool :=
  forallb (fun kv => negb (existsb (String.eqb (fst kv)) names)) kwargs.

(** The three locals the extraction block of [log_excalibur_response] can
    assign. *)
Record Extracted : Type := {
  response_message : PyVal;
  exception_thrown : PyVal;
  exception_message : PyVal
}.

Section Builders.
(** [json.dumps] on a [dict] and [json.loads] on a [str]. *)
Variable json_dumps : dict -> outcome string.
Variable json_loads : string -> outcome PyVal.

(** [log_excalibur_request], from the [log_data] literal to
    [log_data.update(kwargs)]: the [log_data] handed to
    [logger.log_api_call], or the exception raised while building it.  The
    statement before these, [logger = get_api_logger()], is not part of
    it. *)
Definition log_excalibur_request (now : Z) (a : RequestArgs) : outcome dict :=
  let log_data :=
    [ ("api_endpoint", rq_api_endpoint a);
      ("http_method", dict_get_or (rq_kwargs a) "http_method" (PStr "POST"));
      ("client_id", rq_client_id a);
      ("matter_id", rq_matter_id a);
      ("phone_number", rq_phone_number a);
      ("session_id", rq_session_id a);
      ("request_start_time", PDateTime now);
      ("file_uploaded", PBool (negb (is_none (rq_file_name a))));
      ("file_name", rq_file_name a);
      ("file_type", rq_file_type a);
      ("document_type", rq_document_type a) ] in
  obind
    (if truthy (rq_request_payload a) then
       obind (match rq_request_payload a with
              | PDict d => obind (json_dumps d) (fun s => Return (PStr s))
              | v => Return v
              end) (fun request_payload =>
       obind (py_len request_payload) (fun size =>
       let log_data := dict_set log_data "request_payload_size" (PInt size) in
       if 100000 <? size then
         obind (py_slice_to 100000 request_payload) (fun head =>
         obind (py_add_str head "... [truncated]") (fun stored =>
         Return (dict_set log_data "request_payload" stored)))
       else Return (dict_set log_data "request_payload" request_payload)))
     else Return log_data)
    (fun log_data => Return (dict_update log_data (rq_kwargs a))).

(** [json.loads(response_payload)] for a [str], the payload itself
    otherwise. *)
Definition parse_payload (response_payload : PyVal) : outcome PyVal :=
  match response_payload with
  | PStr s => json_loads s
  | v => Return v
  end.

(** The locals when the extraction block is entered:
    [response_message = None] and the two parameters as passed. *)
Definition locals_before (a : ResponseArgs) : Extracted :=
  {| response_message := PNone;
     exception_thrown := rs_exception_thrown a;
     exception_message := rs_exception_message a |}.

(** The body of the [try] in [log_excalibur_response], statement by
    statement: the locals as they stand when it ends or raises. *)
Definition extract_body (response_payload : PyVal) (st : Extracted)
  : Extracted * outcome unit :=
  match parse_payload response_payload with
  | Raise e => (st, Raise e)
  | Return response_json =>
      match obind (py_contains "EnvelopeBody" response_json) (fun has =>
            if has then
              obind (py_getitem_str response_json "EnvelopeBody") (fun body =>
              obind (py_len body) (fun n => Return (0 <? n)))
            else Return false) with
      | Raise e => (st, Raise e)
      | Return true =>
          match obind (py_getitem_str response_json "EnvelopeBody") (fun body =>
                obind (py_getitem_0 body) (fun first =>
                py_dot_get first "ResultMessage" PNone)) with
          | Raise e => (st, Raise e)
          | Return m =>
              ({| response_message := m; exception_thrown := exception_thrown st;
                  exception_message := exception_message st |}, Return tt)
          end
      | Return false =>
          match py_contains "EnvelopeFooter" response_json with
          | Raise e => (st, Raise e)
          | Return false => (st, Return tt)
          | Return true =>
              match obind (py_getitem_str response_json "EnvelopeFooter") (fun footer =>
                    py_dot_get footer "ResponseMessage" PNone) with
              | Raise e => (st, Raise e)
              | Return m =>
                  let st1 := {| response_message := m;
                                exception_thrown := exception_thrown st;
                                exception_message := exception_message st |} in
                  match obind (py_getitem_str response_json "EnvelopeFooter") (fun footer =>
                        py_dot_get footer "ExceptionThrown" (PBool false)) with
                  | Raise e => (st1, Raise e)
                  | Return t =>
                      let st2 := {| response_message := m; exception_thrown := t;
                                    exception_message := exception_message st |} in
                      match obind (py_getitem_str response_json "EnvelopeFooter") (fun footer =>
                            py_dot_get footer "ExceptionMessage" PNone) with
                      | Raise e => (st2, Raise e)
                      | Return x =>
                          ({| response_message := m; exception_thrown := t;
                              exception_message := x |}, Return tt)
                      end
                  end
              end
          end
      end
  end.

(** Lines 361-378: [response_message = None], then the guarded
    [try: ... except: pass]. *)
Definition extract (a : ResponseArgs) : Extracted :=
  if truthy (rs_response_payload a)
  then fst (extract_body (rs_response_payload a) (locals_before a))
  else locals_before a.

(** [log_excalibur_response], from the extraction block to
    [log_data.update(kwargs)]: the [log_data] handed to
    [logger.log_api_call], or the exception raised while building it.  The
    statement before these, [logger = get_api_logger()], is not part of
    it. *)
Definition log_excalibur_response (now : Z) (a : ResponseArgs) : outcome dict :=
  let st := extract a in
  let is_success :=
    if is_none (rs_is_success a)
    then py_and (PBool (eq_int (rs_http_status_code a) 200)) (py_not (exception_thrown st))
    else rs_is_success a in
  let log_data :=
    [ ("api_endpoint", rs_api_endpoint a);
      ("client_id", rs_client_id a);
      ("http_status_code", rs_http_status_code a);
      ("response_time", rs_response_time a);
      ("response_message", response_message st);
      ("is_success", is_success);
      ("exception_thrown", exception_thrown st);
      ("exception_message", exception_message st);
      ("error_source", rs_error_source a);
      ("ssl_verified", rs_ssl_verified a);
      ("retry_count", rs_retry_count a);
      ("request_end_time", PDateTime now) ] in
  obind
    (if truthy (rs_response_payload a) then
       obind (match rs_response_payload a with
              | PDict d => obind (json_dumps d) (fun s => Return (PStr s))
              | v => Return v
              end) (fun response_payload =>
       Return (dict_set log_data "response_payload" response_payload))
     else Return log_data)
    (fun log_data => Return (dict_update log_data (rs_kwargs a))).

End Builders.

End Builders.
Export Builders.

(* ================================================================== *)
(** * A [json] module, to run the builders on concrete inputs *)
(* ================================================================== *)

Module Json.

Definition hex_digit (n : N) : ascii :=
  ascii_of_N (if (n <? 10)%N then 48 + n else 87 + n).

(** One character of a string literal, as [json.dumps] writes it with
    [ensure_ascii=True]. *)
Definition escape (c : ascii) : string :=
  let n := N_of_ascii c in
  if (n =? 34)%N then String (ascii_of_N 92) (String (ascii_of_N 34) EmptyString)
  else if (n =? 92)%N then "\\"
  else if (n =? 10)%N then "\n"
  else if (n =? 13)%N then "\r"
  else if (n =? 9)%N then "\t"
  else if (n =? 8)%N then "\b"
  else if (n =? 12)%N then "\f"
  else if ((32 <=? n) && (n <=? 126))%N then String c EmptyString
  else ("\u00" ++ String (hex_digit (n / 16))
                     (String (hex_digit (n mod 16)) EmptyString))%string.

Fixpoint escape_all (s : string) : string :=
  match s with
  | EmptyString => EmptyString
  | String c s' => (escape c ++ escape_all s')%string
  end.

Definition quote (s : string) : string :=
  (String (ascii_of_N 34) (escape_all s) ++ String (ascii_of_N 34) EmptyString)%string.

Definition join (sep : string) (l : list string) : string :=
  match l with
  | [] => EmptyString
  | x :: l' => fold_left (fun acc y => (acc ++ sep ++ y)%string) l' x
  end.

(** [json.dumps(v)] with the default separators; a [datetime] is not
    serializable. *)
Fixpoint dumps_value (v : PyVal) : outcome string :=
  match v with
  | PNone => Return "null"
  | PBool true => Return "true"
  | PBool false => Return "false"
  | PInt z => Return (NilZero.string_of_int (Z.to_int z))
  | PStr s => Return (quote s)
  | PList l =>
      obind ((fix each (l : list PyVal) : outcome (list string) :=
                match l with
                | [] => Return []
                | x :: l' =>
                    obind (dumps_value x) (fun s =>
                    obind (each l') (fun ss => Return (s :: ss)))
                end) l)
            (fun ss => Return ("[" ++ join ", " ss ++ "]")%string)
  | PDict d =>
      obind ((fix each (d : list (string * PyVal)) : outcome (list string) :=
                match d with
                | [] => Return []
                | (k, x) :: d' =>
                    obind (dumps_value x) (fun s =>
                    obind (each d') (fun ss => Return ((quote k ++ ": " ++ s)%string :: ss)))
                end) d)
            (fun ss => Return ("{" ++ join ", " ss ++ "}")%string)
  | PDateTime _ => Raise TypeError
  end.

Definition dumps (d : dict) : outcome string := dumps_value (PDict d).

(** [json.loads] cut down to a table of known documents: a text of the
    table parses to its value, any other text is rejected. *)
Fixpoint loads_from (table : list (string * PyVal)) (s : string) : outcome PyVal :=
  match table with
  | [] => Raise JSONDecodeError
  | (doc, v) :: table' => if String.eqb doc s then Return v else loads_from table' s
  end.

End Json.

(* ================================================================== *)
(** * Lifecycle: queue, worker thread and shutdown *)
(* ================================================================== *)

Module Lifecycle.

(** Where the worker thread stands in [_process_logs]. *)
Inductive worker_pc : Type :=
| WLoop                       (* at [while self.is_running] *)
| WGet                        (* in [self.log_queue.get(timeout=1)] *)
| WInsert (log_data : dict)   (* about to call [self._insert_log(log_data)] *)
| WTaskDone (log_data : dict) (* about to call [self.log_queue.task_done()] *)
| WStopped.                   (* the loop has ended, the thread is finished *)

(** Where the thread that calls [shutdown()] stands. *)
Inductive shutdown_pc : Type :=
| SNotCalled
| SQueueJoin                  (* blocked in [self.log_queue.join()] *)
| SClearFlag                  (* about to run [self.is_running = False] *)
| SThreadJoin (timeout : Z)   (* in [self.worker_thread.join(timeout=...)] *)
| SReturned.

(** The atomic steps the threads of the process interleave. *)
Inductive action : Type :=
| Submit (log_data : dict)          (* a producer runs [log_api_call] *)
| WorkerStep                        (* the worker runs to its next point *)
| CallShutdown                      (* [shutdown()] is entered *)
| QueueJoinReturns                  (* [log_queue.join()] returns *)
| ClearFlag                         (* [is_running = False] *)
| ThreadJoinReturns (timed_out : bool)
| Tick (dt : Z).                    (* the clock advances *)

(** The record the worker holds between [get] and [task_done]. *)
Definition in_flight (pc : worker_pc) : list dict :=
  match pc with
  | WInsert r | WTaskDone r => [r]
  | _ => []
  end.

(** [shutdown()] is past [log_queue.join()]. *)
Definition past_queue_join (pc : shutdown_pc) : bool :=
  match pc with
  | SClearFlag | SThreadJoin _ | SReturned => true
  | _ => false
  end.

Section Lifecycle.
Context {DB : Type}.
Variable drv : Driver DB.

(** The logger object with its queue ([items] and the [unfinished_tasks]
    counter of [queue.Queue]) and the two threads.  The last three fields
    are history kept for the statements: every record put so far, every
    record marked done so far, and the records that had been put when
    [shutdown()] was entered. *)
Record Sys : Type := {
  world : World DB;
  output : list event;
  items : list dict;
  unfinished_tasks : nat;
  is_running : bool;
  worker : worker_pc;
  caller : shutdown_pc;
  submitted : list dict;
  processed : list dict;
  before_shutdown : list dict
}.

(** [__init__]: flag set, empty queue, worker started. *)
Definition init (w : World DB) : Sys := {|
  world := w; output := [EvPrint MsgThreadStarted];
  items := []; unfinished_tasks := 0; is_running := true;
  worker := WLoop; caller := SNotCalled;
  submitted := []; processed := []; before_shutdown := []
|}.

(** The stamping half of [log_api_call]. *)
Definition stamp (now : Z) (log_data : dict) : dict :=
  match dict_find log_data "created_at" with
  | Some _ => log_data
  | None => dict_set log_data "created_at" (PDateTime now)
  end.

(** [log_api_call(log_data)]: stamp, then [log_queue.put]. *)
Definition log_api_call (log_data : dict) (s : Sys) : Sys :=
  let r := stamp (clock (world s)) log_data in
  {| world := world s; output := output s;
     items := items s ++ [r]; unfinished_tasks := S (unfinished_tasks s);
     is_running := is_running s; worker := worker s; caller := caller s;
     submitted := submitted s ++ [r]; processed := processed s;
     before_shutdown := before_shutdown s |}.

(** One step of [_process_logs]. *)
Definition _process_logs (s : Sys) : option Sys :=
  match worker s with
  | WLoop =>
      Some {| world := world s; output := output s; items := items s;
              unfinished_tasks := unfinished_tasks s; is_running := is_running s;
              worker := if is_running s then WGet else WStopped;
              caller := caller s; submitted := submitted s;
              processed := processed s; before_shutdown := before_shutdown s |}
  | WGet =>
      match items s with
      | r :: rest =>
          Some {| world := world s; output := output s; items := rest;
                  unfinished_tasks := unfinished_tasks s; is_running := is_running s;
                  worker := WInsert r;
                  caller := caller s; submitted := submitted s;
                  processed := processed s; before_shutdown := before_shutdown s |}
      | [] =>
          (* queue.Empty after the timeout: continue *)
          Some {| world := world s; output := output s; items := [];
                  unfinished_tasks := unfinished_tasks s; is_running := is_running s;
                  worker := WLoop;
                  caller := caller s; submitted := submitted s;
                  processed := processed s; before_shutdown := before_shutdown s |}
      end
  | WInsert r =>
      let '(w, t, res) := _insert_log drv r (world s) in
      Some {| world := w;
              output := output s ++ t ++
                        match res with
                        | Return _ => []
                        | Raise e => [EvPrint (MsgProcessingError e)]
                        end;
              items := items s;
              unfinished_tasks := unfinished_tasks s; is_running := is_running s;
              worker := match res with Return _ => WTaskDone r | Raise _ => WLoop end;
              caller := caller s; submitted := submitted s;
              processed := processed s; before_shutdown := before_shutdown s |}
  | WTaskDone r =>
      match unfinished_tasks s with
      | S n =>
          Some {| world := world s; output := output s; items := items s;
                  unfinished_tasks := n; is_running := is_running s;
                  worker := WLoop;
                  caller := caller s; submitted := submitted s;
                  processed := processed s ++ [r];
                  before_shutdown := before_shutdown s |}
      | O =>
          (* ValueError: task_done() called too many times *)
          Some {| world := world s;
                  output := output s ++ [EvPrint (MsgProcessingError ValueError)];
                  items := items s;
                  unfinished_tasks := 0; is_running := is_running s;
                  worker := WLoop;
                  caller := caller s; submitted := submitted s;
                  processed := processed s; before_shutdown := before_shutdown s |}
      end
  | WStopped => None
  end.

Definition set_caller (pc : shutdown_pc) (out : list event) (running : bool)
    (before : list dict) (s : Sys) : Sys :=
  {| world := world s; output := output s ++ out; items := items s;
     unfinished_tasks := unfinished_tasks s; is_running := running;
     worker := worker s; caller := pc; submitted := submitted s;
     processed := processed s; before_shutdown := before |}.

(** One step of [shutdown()]; [None] while the call is blocked. *)
Definition shutdown (a : action) (s : Sys) : option Sys :=
  match a, caller s with
  | CallShutdown, SNotCalled =>
      Some (set_caller SQueueJoin [EvPrint MsgShuttingDown] (is_running s)
              (submitted s) s)
  | QueueJoinReturns, SQueueJoin =>
      match unfinished_tasks s with
      | O => Some (set_caller SClearFlag [] (is_running s) (before_shutdown s) s)
      | S _ => None
      end
  | ClearFlag, SClearFlag =>
      Some (set_caller (SThreadJoin 5) [] false (before_shutdown s) s)
  | ThreadJoinReturns timed_out, SThreadJoin _ =>
      if timed_out || match worker s with WStopped => true | _ => false end
      then Some (set_caller SReturned [EvPrint MsgShutdownComplete] (is_running s)
                   (before_shutdown s) s)
      else None
  | _, _ => None
  end.

Definition step (a : action) (s : Sys) : option Sys :=
  match a with
  | Submit log_data => Some (log_api_call log_data s)
  | WorkerStep => _process_logs s
  | Tick dt =>
      Some {| world := {| db := db (world s); clock := clock (world s) + Z.max 0 dt |};
              output := output s; items := items s;
              unfinished_tasks := unfinished_tasks s; is_running := is_running s;
              worker := worker s; caller := caller s; submitted := submitted s;
              processed := processed s; before_shutdown := before_shutdown s |}
  | _ => shutdown a s
  end.

(** A schedule is a list of actions; it runs while each is enabled. *)
Fixpoint run (acts : list action) (s : Sys) : option Sys :=
  match acts with
  | [] => Some s
  | a :: acts' =>
      match step a s with
      | Some s' => run acts' s'
      | None => None
      end
  end.

(** What holds in every state a schedule can reach.  The records put so
    far are, in order, those marked done, the one the worker holds, and
    those still queued; [unfinished_tasks] counts the last two groups;
    [shutdown()] gets past [log_queue.join()] only with every record put
    before the call marked done; the flag is cleared only after that. *)
Definition invariant (s : Sys) : Prop :=
  submitted s = processed s ++ in_flight (worker s) ++ items s /\
  unfinished_tasks s = (length (in_flight (worker s)) + length (items s))%nat /\
  (caller s <> SNotCalled -> exists rest, submitted s = before_shutdown s ++ rest) /\
  (past_queue_join (caller s) = true ->
     exists rest, processed s = before_shutdown s ++ rest) /\
  (is_running s = false ->
     past_queue_join (caller s) = true /\ caller s <> SClearFlag) /\
  (forall t, caller s = SThreadJoin t -> t = 5 /\ is_running s = false) /\
  (caller s = SReturned -> is_running s = false).

(** The worker leaves its loop only after reading a cleared flag. *)
Definition stops_on_cleared_flag (s : Sys) : Prop :=
  worker s = WStopped -> is_running s = false.

(** How many steps the worker needs to mark done everything that is queued
    or in its hands. *)
Definition steps_to_drain (s : Sys) : nat :=
  match worker s, items s with
  | WTaskDone _, l => 1 + 4 * length l
  | WInsert _, l => 2 + 4 * length l
  | WGet, _ :: l => 3 + 4 * length l
  | WGet, [] => 0
  | _, l => 4 * length l
  end.

End Lifecycle.
Arguments Sys : clear implicits.

End Lifecycle.
Export Lifecycle.

(* ================================================================== *)
(** * Sample inputs *)
(* ================================================================== *)

Module Samples.

Definition w0 : World MemDB.Tables := MemDB.world MemDB.seeded 1700000000.

(** A record as a call site would submit it for a successful upload: no
    [http_method], [error_source], [environment] or [exception_message]. *)
Definition upload : dict :=
  [ ("api_endpoint", PStr "/api/import/uploadfile");
    ("client_id", PStr "823842000801419");
    ("matter_id", PStr "000207");
    ("http_status_code", PInt 200);
    ("response_time", PInt 1234);
    ("is_success", PBool true);
    ("file_name", PStr "document.pdf") ].

(** A record for a failed call, with an exception message. *)
Definition failure (message : string) : dict :=
  [ ("api_endpoint", PStr "/api/import/uploadfile");
    ("http_method", PStr "GET");
    ("client_id", PStr "823842000801419");
    ("http_status_code", PInt 500);
    ("is_success", PBool false);
    ("error_source", PStr "Excalibur");
    ("exception_message", PStr message);
    ("file_type", PStr "PDF");
    ("environment", PStr "Production") ].

(** The parameters the writer binds for [upload] on the seeded tables. *)
Definition upload_params : dict :=
  insert_params upload (PInt 1) (PInt 200) (PInt 5) (PInt 1) (PInt 49) PNone
    (PDateTime 1700000000).

(** The parameters the writer binds for [failure message] on the seeded
    tables, given the message it stores. *)
Definition failure_params (message stored : string) : dict :=
  insert_params (failure message) (PInt 2) (PInt 500) (PInt 6) (PInt 2) (PInt 50)
    (PStr stored) (PDateTime 1700000000).

(** A request call with a payload, and a response call with a status, a
    payload and the [exception_thrown] argument. *)
Definition request_with (payload : PyVal) : RequestArgs := {|
  rq_api_endpoint := PStr "/api/import/uploadfile";
  rq_client_id := PStr "823842000801419";
  rq_matter_id := PNone; rq_phone_number := PNone; rq_request_payload := payload;
  rq_file_name := PNone; rq_file_type := PNone; rq_document_type := PNone;
  rq_session_id := PNone; rq_kwargs := []
|}.

Definition response_with (status payload thrown : PyVal) : ResponseArgs := {|
  rs_api_endpoint := PStr "/api/import/uploadfile";
  rs_client_id := PStr "823842000801419";
  rs_http_status_code := status; rs_response_time := PInt 1234;
  rs_response_payload := payload; rs_is_success := PNone;
  rs_exception_thrown := thrown; rs_exception_message := PNone;
  rs_error_source := PNone; rs_ssl_verified := PBool true;
  rs_retry_count := PInt 0; rs_kwargs := []
|}.

(** A response envelope that reports an exception in its footer. *)
Definition footer_envelope : PyVal :=
  PDict [ ("EnvelopeBody", PList []);
          ("EnvelopeFooter",
             PDict [ ("ResponseMessage", PStr "Import failed");
                     ("ExceptionThrown", PBool true);
                     ("ExceptionMessage", PStr "Matter not found") ]) ].

(** [json.loads] on the one document the examples parse. *)
Definition loads : string -> outcome PyVal :=
  Json.loads_from [ ("{}", PDict []) ].

(** [n] copies of a character. *)
Fixpoint copies (n : nat) (c : ascii) : string :=
  match n with
  | O => EmptyString
  | S n' => String c (copies n' c)
  end.

(** One record is submitted, [shutdown()] is called while it is still
    queued, the worker processes it, and the call returns on the join
    timeout. *)
Definition schedule : list action :=
  [ Submit upload; CallShutdown;
    WorkerStep; WorkerStep; WorkerStep; WorkerStep;
    QueueJoinReturns; ClearFlag; ThreadJoinReturns true ].

End Samples.

(* ================================================================== *)
(** * Observations on traces and records *)
(* ================================================================== *)

Module Observations.

(** The event is an INSERT into the event table [APICall]. *)
Definition is_api_insert (ev : event) : bool :=
  match ev with
  | EvExecute InsertAPICall _ _ => true
  | _ => false
  end.

Definition count_inserts (t : list event) : nat :=
  List.length (filter is_api_insert t).

(** The event touches a reference table that is auto-provisioned. *)
Definition touches_provisioned (ev : event) : bool :=
  match ev with
  | EvExecute SelectErrorSource _ _ | EvExecute InsertErrorSource _ _
  | EvExecute SelectFileType _ _ | EvExecute InsertFileType _ _ => true
  | _ => false
  end.

(** The event writes: an INSERT statement or a commit. *)
Definition writes (ev : event) : bool :=
  match ev with
  | EvExecute InsertErrorSource _ _ | EvExecute InsertFileType _ _
  | EvExecute InsertAPICall _ _ | EvCommit _ => true
  | _ => false
  end.

(** The resolvers of the strict policy: an unknown value is a miss, not a
    new row. *)
Definition strict (r : resolver) : bool :=
  match r with
  | HttpMethodID | HttpStatusCodeID | EnvironmentID => true
  | ErrorSourceID | FileTypeID => false
  end.

(** The keys [_insert_log] reads from a record. *)
Definition writer_keys : list string :=
  [ "http_method"; "http_status_code"; "error_source"; "environment"; "file_type";
    "api_endpoint"; "client_id"; "client_phone_number"; "phone_number";
    "debtor_phone_number"; "response_time"; "is_success"; "exception_message";
    "retry_count"; "matter_id"; "file_name"; "created_at" ].

(** The value of the [exception_message] entry of [params]:
    [log_data.get('exception_message', '')[:500] if
     log_data.get('exception_message') else None]. *)
Definition stored_message (log_data : dict) : outcome PyVal :=
  if truthy (dict_get log_data "exception_message")
  then py_slice_to 500 (dict_get_or log_data "exception_message" (PStr ""))
  else Return PNone.

(** A truthy payload [log_excalibur_request] cannot take the length of, or
    cannot append the marker to: a number, [True], a [datetime], a list of
    more than 100,000 elements. *)
Definition unsized_or_long (payload : PyVal) : Prop :=
  match payload with
  | PBool _ | PInt _ | PDateTime _ => True
  | PList l => 100000 < Z.of_nat (List.length l)
  | _ => False
  end.

(** A parsed envelope gives no message through [EnvelopeBody]: the key is
    missing, or its value has length zero. *)
Definition body_empty (envelope : dict) : Prop :=
  match dict_find envelope "EnvelopeBody" with
  | None => True
  | Some body => py_len body = Return 0
  end.

(** The status key [_insert_log] binds for a record's [http_status_code]. *)
Definition status_key (status_code : PyVal) : PyVal :=
  if truthy status_code then
    match py_int status_code with
    | Return z => PInt z
    | Raise _ => PNone
    end
  else PNone.

(** The line the worker prints when processing a record raised:
    [print(f"Error processing log: {e}")]. *)
Definition is_processing_error (ev : event) : bool :=
  match ev with
  | EvPrint (MsgProcessingError _) => true
  | _ => false
  end.

(** The worker stands between [_insert_log] and [task_done()]: the record
    it holds has been written and is not yet marked done. *)
Definition writes_pending (pc : worker_pc) : nat :=
  match pc with
  | WTaskDone _ => 1
  | _ => 0
  end.

(** The event opens or closes a connection. *)
Definition is_session (ev : event) : bool :=
  match ev with
  | EvConnect _ | EvClose _ => true
  | _ => false
  end.

(** All the keys of a dictionary are different, as in a Python [dict]. *)
Definition distinct_keys (d : dict) : Prop := NoDup (map fst d).

(** [log_excalibur_request(...)] from its first statement on:
    [logger = get_api_logger()], which creates the logger on first use and
    raises when that fails; then the record is built; then
    [logger.log_api_call(log_data)] takes it.  [logger] is how the call of
    [get_api_logger] ended; the value is the record handed to
    [log_api_call]. *)
Definition request_call (json_dumps : dict -> outcome string)
    (logger : outcome unit) (now : Z) (a : RequestArgs) : outcome dict :=
  obind logger (fun _ => log_excalibur_request json_dumps now a).

Section Observations.
Context {DB : Type}.
Variable drv : Driver DB.
Local Open Scope py_scope.

(** The last statements of [_insert_log], from the [params] dictionary to
    the commit, given the five resolved keys. *)
Definition write_row (log_data : dict)
    (http_method_id http_status_code_id error_source_id environment_id
     file_type_id : PyVal) : M DB unit :=
  exception_message <-
    (if truthy (dict_get log_data "exception_message")
     then lift (py_slice_to 500 (dict_get_or log_data "exception_message" (PStr "")))
     else ret PNone) ;;
  now <- datetime_now ;;
  conn_execute drv InsertAPICall
    (insert_params log_data http_method_id http_status_code_id error_source_id
       environment_id file_type_id exception_message now) ;;;
  conn_commit drv.

(** What the worker has done so far: it has printed no processing error,
    and it has issued at most one INSERT into the event table per record
    it has taken. *)
Definition worker_record (s : Sys DB) : Prop :=
  existsb is_processing_error (output s) = false /\
  (count_inserts (output s) <= length (processed s) + writes_pending (worker s))%nat.

End Observations.

End Observations.
Export Observations.

(* ================================================================== *)
(** * More inputs for concrete runs *)
(* ================================================================== *)

Module Scenarios.

(** The seeded database with the connection refused at the first call. *)
Definition offline : World MemDB.Tables :=
  MemDB.world (MemDB.set_faults MemDB.seeded [true]) 1700000000.

(** The seeded database with the connection lost at the fifth call, which
    for the upload record is the INSERT into the event table. *)
Definition insert_fails : World MemDB.Tables :=
  MemDB.world (MemDB.set_faults MemDB.seeded [false; false; false; false; true])
    1700000000.

(** A record whose exception message is a number. *)
Definition numbered : dict :=
  dict_set Samples.upload "exception_message" (PInt 7).

(** An envelope with a result in its body and an exception in its footer. *)
Definition body_envelope : dict :=
  [ ("EnvelopeBody", PList [PDict [("ResultMessage", PStr "Imported")]]);
    ("EnvelopeFooter",
       PDict [ ("ResponseMessage", PStr "Import failed");
               ("ExceptionThrown", PBool true);
               ("ExceptionMessage", PStr "Matter not found") ]) ].

(** An envelope with nothing but a message in its footer. *)
Definition bare_footer : dict :=
  [ ("EnvelopeFooter", PDict [("ResponseMessage", PStr "Queued")]) ].

(** A response call that passes [is_success=True] with status 500. *)
Definition forced_success : ResponseArgs := {|
  rs_api_endpoint := PStr "/api/import/uploadfile";
  rs_client_id := PStr "823842000801419";
  rs_http_status_code := PInt 500; rs_response_time := PInt 1234;
  rs_response_payload := PNone; rs_is_success := PBool true;
  rs_exception_thrown := PBool true; rs_exception_message := PStr "timeout";
  rs_error_source := PNone; rs_ssl_verified := PBool true;
  rs_retry_count := PInt 2; rs_kwargs := []
|}.

(** A request call for a matter and a debtor, with a file. *)
Definition import_request : RequestArgs := {|
  rq_api_endpoint := PStr "/api/import/uploadfile";
  rq_client_id := PStr "823842000801419";
  rq_matter_id := PStr "000207"; rq_phone_number := PStr "27820000000";
  rq_request_payload := PStr "hello";
  rq_file_name := PStr "document.pdf"; rq_file_type := PNone;
  rq_document_type := PNone; rq_session_id := PStr "s-1";
  rq_kwargs := [("session_tag", PStr "batch")]
|}.

(** [shutdown()] on an idle logger, up to the point where the worker has
    read the cleared flag and left its loop. *)
Definition stop : list action :=
  [ CallShutdown; QueueJoinReturns; ClearFlag; WorkerStep ].

(** What a producer that did not notice the shutdown does next. *)
Definition late : list action :=
  [ Submit Samples.upload; Tick 5; ThreadJoinReturns false ].

End Scenarios.

(* ================================================================== *)
(** * Properties *)
(* ================================================================== *)

(** ** Dictionaries and strings *)

Lemma dict_find_set_same (d : dict) (k : string) (v : PyVal) :
  dict_find (dict_set d k v) k = Some v.
Proof.
  induction d as [|[k' v'] d IH]; simpl.
  - now rewrite String.eqb_refl.
  - destruct (String.eqb k' k) eqn:E; simpl; rewrite E; auto.
Qed.

Lemma dict_find_set_other (d : dict) (k k' : string) (v : PyVal) :
  k <> k' -> dict_find (dict_set d k v) k' = dict_find d k'.
Proof.
  intros Hne. induction d as [|[k0 v0] d IH]; simpl.
  - destruct (String.eqb k k') eqn:E; auto.
    apply String.eqb_eq in E. contradiction.
  - destruct (String.eqb k0 k) eqn:E; simpl.
    + apply String.eqb_eq in E. subst k0.
      destruct (String.eqb k k') eqn:E'; auto.
      apply String.eqb_eq in E'. contradiction.
    + now rewrite IH.
Qed.

Lemma dict_find_update_absent (other d : dict) (k : string) :
  dict_find other k = None ->
  dict_find (dict_update d other) k = dict_find d k.
Proof.
  unfold dict_update. revert d.
  induction other as [|[k0 v0] other IH]; intros d H; simpl in *; auto.
  destruct (String.eqb k0 k) eqn:E; [discriminate|].
  rewrite IH by assumption.
  apply dict_find_set_other. intros ->. now rewrite String.eqb_refl in E.
Qed.

Lemma kwargs_ok_absent (names : list string) (kwargs : dict) (k : string) :
  kwargs_ok names kwargs = true -> In k names -> dict_find kwargs k = None.
Proof.
  unfold kwargs_ok. intros H Hin.
  induction kwargs as [|[k0 v0] kw IH]; simpl in *; auto.
  apply andb_true_iff in H as [H0 H1].
  destruct (String.eqb k0 k) eqn:E; auto.
  apply String.eqb_eq in E. subst k0.
  apply negb_true_iff in H0.
  assert (existsb (String.eqb k) names = true) as Hx.
  { apply existsb_exists. exists k. split; auto. apply String.eqb_refl. }
  congruence.
Qed.

Lemma substring_0_length (n : nat) (s : string) :
  String.length (String.substring 0 n s) = Nat.min n (String.length s).
Proof.
  revert s. induction n as [|n IH]; intros [|c s]; simpl; auto.
Qed.

Lemma substring_0_prefix (n : nat) (s : string) :
  exists rest, s = (String.substring 0 n s ++ rest)%string.
Proof.
  revert s. induction n as [|n IH]; intros [|c s]; simpl.
  - now exists "".
  - now exists (String c s).
  - now exists "".
  - destruct (IH s) as [rest Hr]. exists rest. now rewrite <- Hr.
Qed.

Lemma substring_0_all (n : nat) (s : string) :
  (String.length s <= n)%nat -> String.substring 0 n s = s.
Proof.
  revert s. induction n as [|n IH]; intros [|c s] H; simpl in *; auto.
  - lia.
  - f_equal. apply IH. lia.
Qed.

Lemma str_take_length (n : Z) (s : string) :
  0 <= n -> str_len (str_take n s) = Z.min n (str_len s).
Proof.
  intros Hn. unfold str_len, str_take. rewrite substring_0_length. lia.
Qed.

Lemma str_take_prefix (n : Z) (s : string) :
  exists rest, s = (str_take n s ++ rest)%string.
Proof. apply substring_0_prefix. Qed.

Lemma truthy_str (s : string) : truthy (PStr s) = true <-> s <> "".
Proof.
  simpl. rewrite negb_true_iff. split.
  - intros H ->. discriminate.
  - intros H. destruct s; [contradiction | reflexivity].
Qed.

(** Case analysis on what the driver answers, call after call. *)
Ltac run_driver :=
  repeat match goal with
  | |- context [execute ?d ?s ?p ?x] =>
      let r := fresh "r" in
      destruct (execute d s p x) as [? [[r|]|?]]; simpl
  | |- context [commit ?d ?x] =>
      destruct (commit d x) as [? [[]|?]]; simpl
  end.

(** ** The lookup resolvers *)

Section Resolvers.
Context {DB : Type}.
Variable drv : Driver DB.

(** C9.  A falsy status code ([None], [0], [False], the empty string, an
    empty container) is treated as absent: the resolver returns [None],
    prints nothing and leaves the world as it was; in particular the
    integer [0] does not come back as [0]. *)
Theorem falsy_status_code_is_absent (status_code : PyVal) (w : World DB) :
  truthy status_code = false ->
  _get_http_status_code_id status_code w = (w, [], Return PNone).
Proof.
  intros H. unfold _get_http_status_code_id. now rewrite H.
Qed.




End Resolvers.

(** ** Running the resolvers inside [_insert_log] *)

Section Runs.
Context {DB : Type}.
Variable drv : Driver DB.

Ltac ran := eexists _, _, _; split; [reflexivity | simpl; auto].

(** A resolver returns a value and issues only its own statements; given a
    falsy input, every resolver but the environment one returns [None]
    without doing anything. *)
Lemma resolver_run (r : resolver) (v : PyVal) (w : World DB) :
  exists w' t id,
    resolve drv r v w = (w', t, Return id) /\
    forallb (resolver_event r) t = true /\
    (truthy v = false -> r <> EnvironmentID -> id = PNone /\ t = []).
Proof.
  destruct r; unfold resolve.
  - unfold _get_http_method_id, try_except, bind, conn_execute, with_db, print, ret.
    destruct (truthy v); simpl; [|ran].
    run_driver; ran; split; auto; discriminate.
  - unfold _get_http_status_code_id, try_except, bind, lift, ret, print.
    destruct (truthy v); simpl; [destruct (py_int v)|]; ran; split; auto; discriminate.
  - unfold _get_error_source_id, try_except, bind, conn_execute, conn_commit,
      with_db, print, ret.
    destruct (truthy v); simpl; [|ran].
    run_driver; ran; split; auto; discriminate.
  - unfold _get_environment_id, try_except, bind, conn_execute, with_db, print, ret.
    set (environment := if negb (truthy v) then PStr "Dev" else v). clearbody environment.
    destruct (execute drv SelectEnvironment [("name", environment)] (db w))
      as [? [[id|]|?]]; simpl;
      [ran; split; auto; intros _ H; now elim H| |ran; split; auto; intros _ H; now elim H].
    destruct (eq_str environment "Dev"); simpl; run_driver; ran;
      split; auto; intros _ H; now elim H.
  - unfold _get_file_type_id, try_except, bind, conn_execute, conn_commit,
      with_db, print, ret.
    destruct (truthy v); simpl; [|ran].
    run_driver; ran; split; auto; discriminate.
Qed.

Lemma resolver_event_own (r : resolver) (t : list event) s p res :
  forallb (resolver_event r) t = true -> In (EvExecute s p res) t ->
  own_stmt r s = true.
Proof.
  intros H Hin. rewrite forallb_forall in H. exact (H _ Hin).
Qed.

(** The method lookup is made with the value given, and the value returned
    is the key of the row found. *)
Lemma http_method_run (v : PyVal) (w : World DB) :
  forall q res,
    In (EvExecute SelectHttpMethod q res) (trace_of (_get_http_method_id drv v) w) ->
    q = [("method", v)] /\
    result_of (_get_http_method_id drv v) w =
      Return (match res with Return (Some id) => id | _ => PNone end).
Proof.
  unfold trace_of, result_of, _get_http_method_id, try_except, bind, conn_execute,
    with_db, print, ret.
  destruct (truthy v); simpl; [|intros ? ? []].
  run_driver; intros q res H;
    repeat (destruct H as [H|H]; [inversion H; subst; now auto|]); now elim H.
Qed.

(** The environment lookup is made with the value given, or with ['Dev']
    when that value is falsy.  A row found gives the result; no row for
    ['Dev'] leads to the 'Development' lookup, whose row, if any, gives the
    result; every other way out gives [None]. *)
Lemma environment_run (v : PyVal) (w : World DB) :
  forall q res,
    In (EvExecute SelectEnvironment q res) (trace_of (_get_environment_id drv v) w) ->
    let environment := if truthy v then v else PStr "Dev" in
    q = [("name", environment)] /\
    match res with
    | Return (Some id) => result_of (_get_environment_id drv v) w = Return id
    | Return None =>
        if eq_str environment "Dev" then
          exists alias,
            In (EvExecute SelectEnvironmentDevelopment [] alias)
               (trace_of (_get_environment_id drv v) w) /\
            result_of (_get_environment_id drv v) w =
              Return (match alias with Return (Some id) => id | _ => PNone end)
        else result_of (_get_environment_id drv v) w = Return PNone
    | Raise _ => result_of (_get_environment_id drv v) w = Return PNone
    end.
Proof.
  unfold trace_of, result_of, _get_environment_id, try_except, bind, conn_execute,
    with_db, print, ret.
  replace (if negb (truthy v) then PStr "Dev" else v)
    with (if truthy v then v else PStr "Dev") by now destruct (truthy v).
  set (environment := if truthy v then v else PStr "Dev"). clearbody environment.
  cbv zeta.
  destruct (execute drv SelectEnvironment [("name", environment)] (db w))
    as [? [[id|]|?]]; simpl.
  - intros q res [H|[]]; inversion H; subst; auto.
  - destruct (eq_str environment "Dev") eqn:Edev; simpl.
    + destruct (execute drv SelectEnvironmentDevelopment [] d) as [? [[id|]|?]]; simpl;
        intros q res H;
        (destruct H as [H|H]; [inversion H; subst; split; auto;
                               eexists; split; [right; left; reflexivity | reflexivity]|]);
        repeat (destruct H as [H|H]; [discriminate|]); now elim H.
    + intros q res H.
      destruct H as [H|H]; [inversion H; subst; split; auto|].
      repeat (destruct H as [H|H]; [discriminate|]); now elim H.
  - intros q res [H|[H|[]]]; inversion H; subst; auto.
Qed.

End Runs.

(** ** The record writer *)

Section Writer.
Context {DB : Type}.
Variable drv : Driver DB.
Local Open Scope py_scope.

Lemma bind_returns {A B} (m : M DB A) (k : A -> M DB B) w w1 t1 a :
  m w = (w1, t1, Return a) ->
  bind m k w = (let '(w2, t2, r2) := k a w1 in (w2, t1 ++ t2, r2)).
Proof. intros E. unfold bind. now rewrite E. Qed.

(** What the last statements of [_insert_log] do once the keys are
    resolved: one INSERT with the parameters of [insert_params], where the
    message is [None] or the slice, and a commit. *)
Lemma writer_tail_run (ld : dict) (mid sid eid envid fid : PyVal) (w : World DB) :
  forall ev,
    In ev (trace_of
             (exception_message <-
                (if truthy (dict_get ld "exception_message")
                 then lift (py_slice_to 500 (dict_get_or ld "exception_message" (PStr "")))
                 else ret PNone) ;;
              now <- datetime_now ;;
              conn_execute drv InsertAPICall
                (insert_params ld mid sid eid envid fid exception_message now) ;;;
              conn_commit drv) w) ->
    match ev with
    | EvExecute s p _ =>
        s = InsertAPICall /\
        exists exception_message now,
          (if truthy (dict_get ld "exception_message")
           then py_slice_to 500 (dict_get_or ld "exception_message" (PStr ""))
                = Return exception_message
           else exception_message = PNone) /\
          p = insert_params ld mid sid eid envid fid exception_message now
    | EvCommit _ => True
    | _ => False
    end.
Proof.
  unfold trace_of, bind, conn_execute, conn_commit, with_db, datetime_now, lift, ret.
  destruct (truthy (dict_get ld "exception_message")) eqn:Tm.
  - destruct (py_slice_to 500 (dict_get_or ld "exception_message" (PStr "")))
      as [msg|e] eqn:Em; simpl; [|intros ev []].
    destruct (execute drv InsertAPICall _ (db w)) as [d [x|e]]; simpl.
    + destruct (commit drv d) as [d' rc]; simpl.
      intros ev [<-|[<-|[]]]; auto. split; auto. eexists _, _; split; eauto.
    + intros ev [<-|[]]. split; auto. eexists _, _; split; eauto.
  - simpl.
    destruct (execute drv InsertAPICall _ (db w)) as [d [x|e]]; simpl.
    + destruct (commit drv d) as [d' rc]; simpl.
      intros ev [<-|[<-|[]]]; auto. split; auto. eexists _, _; split; eauto.
    + intros ev [<-|[]]. split; auto. eexists _, _; split; eauto.
Qed.

(** And the INSERT is issued unless slicing the message raises. *)
Lemma writer_tail_inserts (ld : dict) (mid sid eid envid fid : PyVal) (w : World DB) :
  (truthy (dict_get ld "exception_message") = true ->
   exists v, py_slice_to 500 (dict_get_or ld "exception_message" (PStr "")) = Return v) ->
  exists p r,
    In (EvExecute InsertAPICall p r)
       (trace_of
          (exception_message <-
             (if truthy (dict_get ld "exception_message")
              then lift (py_slice_to 500 (dict_get_or ld "exception_message" (PStr "")))
              else ret PNone) ;;
           now <- datetime_now ;;
           conn_execute drv InsertAPICall
             (insert_params ld mid sid eid envid fid exception_message now) ;;;
           conn_commit drv) w).
Proof.
  intros Hs.
  unfold trace_of, bind, conn_execute, conn_commit, with_db, datetime_now, lift, ret.
  destruct (truthy (dict_get ld "exception_message")) eqn:Tm.
  - destruct (Hs eq_refl) as [v ->]. simpl.
    destruct (execute drv InsertAPICall _ (db w)) as [d [x|e]]; simpl.
    + destruct (commit drv d) as [d' rc]; simpl. eexists _, _. left. reflexivity.
    + eexists _, _. left. reflexivity.
  - simpl.
    destruct (execute drv InsertAPICall _ (db w)) as [d [x|e]]; simpl.
    + destruct (commit drv d) as [d' rc]; simpl. eexists _, _. left. reflexivity.
    + eexists _, _. left. reflexivity.
Qed.

Ltac trace_eq E := unfold trace_of; rewrite E; reflexivity.
Ltac foreign F H := apply (resolver_event_own _ _ _ _ _ F) in H; discriminate.

(** One run of [_insert_log]: it returns normally, the two strict lookups
    are made with the record's value or its default, the two
    auto-provisioned keys fall back to 5 and 49, and every INSERT into the
    event table binds the parameters of [insert_params]. *)
Lemma insert_log_run (ld : dict) (w : World DB) :
  exists http_method_id http_status_code_id error_source_id environment_id file_type_id,
    result_of (_insert_log drv ld) w = Return tt /\
    (forall q res,
        In (EvExecute SelectHttpMethod q res) (trace_of (_insert_log drv ld) w) ->
        q = [("method", dict_get_or ld "http_method" (PStr "POST"))] /\
        http_method_id = match res with Return (Some id) => id | _ => PNone end) /\
    (forall q res,
        In (EvExecute SelectEnvironment q res) (trace_of (_insert_log drv ld) w) ->
        let environment :=
          if truthy (dict_get_or ld "environment" (PStr "Dev"))
          then dict_get_or ld "environment" (PStr "Dev") else PStr "Dev" in
        q = [("name", environment)] /\
        match res with
        | Return (Some id) => environment_id = id
        | Return None =>
            if eq_str environment "Dev" then
              exists alias,
                In (EvExecute SelectEnvironmentDevelopment [] alias)
                   (trace_of (_insert_log drv ld) w) /\
                environment_id = match alias with Return (Some id) => id | _ => PNone end
            else environment_id = PNone
        | Raise _ => environment_id = PNone
        end) /\
    (truthy (dict_get ld "error_source") = false -> error_source_id = PInt 5) /\
    (truthy (dict_get ld "file_type") = false -> file_type_id = PInt 49) /\
    (forall p r,
        In (EvExecute InsertAPICall p r) (trace_of (_insert_log drv ld) w) ->
        exists exception_message now,
          (if truthy (dict_get ld "exception_message")
           then py_slice_to 500 (dict_get_or ld "exception_message" (PStr ""))
                = Return exception_message
           else exception_message = PNone) /\
          p = insert_params ld http_method_id http_status_code_id error_source_id
                environment_id file_type_id exception_message now) /\
    (snd (connect drv (db w)) = Return tt ->
     (truthy (dict_get ld "exception_message") = true ->
      exists v, py_slice_to 500 (dict_get_or ld "exception_message" (PStr "")) = Return v) ->
     exists p r, In (EvExecute InsertAPICall p r) (trace_of (_insert_log drv ld) w)).
Proof.
  unfold trace_of, result_of.
  destruct (_insert_log drv ld w) as [[w' t] r] eqn:E. simpl.
  unfold _insert_log, try_except, with_connection in E.
  unfold bind at 1 in E. unfold with_db at 1 in E.
  destruct (connect drv (db w)) as [d [[]|e]]; simpl in E.
  2:{ inversion E; subst. exists PNone, PNone, (PInt 5), PNone, (PInt 49).
      refine (conj eq_refl (conj _ (conj _ (conj _ (conj _ (conj _ _)))))); auto;
        try discriminate;
        intros q0 res0 HIn; destruct HIn as [HIn|[HIn|[]]]; discriminate. }
  destruct (resolver_run drv HttpMethodID (dict_get_or ld "http_method" (PStr "POST"))
              {| db := d; clock := clock w |}) as (w1 & t1 & mid & E1 & F1 & _).
  simpl in E1. rewrite (bind_returns _ _ _ _ _ _ E1) in E.
  destruct (resolver_run drv HttpStatusCodeID (dict_get ld "http_status_code") w1)
    as (w2 & t2 & sid & E2 & F2 & _).
  simpl in E2. rewrite (bind_returns _ _ _ _ _ _ E2) in E.
  destruct (resolver_run drv ErrorSourceID (dict_get ld "error_source") w2)
    as (w3 & t3 & eid & E3 & F3 & N3).
  simpl in E3. rewrite (bind_returns _ _ _ _ _ _ E3) in E.
  destruct (resolver_run drv EnvironmentID (dict_get_or ld "environment" (PStr "Dev")) w3)
    as (w4 & t4 & envid & E4 & F4 & _).
  simpl in E4. rewrite (bind_returns _ _ _ _ _ _ E4) in E.
  destruct (resolver_run drv FileTypeID (dict_get ld "file_type") w4)
    as (w5 & t5 & fid & E5 & F5 & N5).
  simpl in E5. rewrite (bind_returns _ _ _ _ _ _ E5) in E.
  match type of E with
  | context [bind ?m ?k w5] => 
      pose proof (writer_tail_run ld mid sid
                    (if is_none eid then PInt 5 else eid) envid
                    (if is_none fid then PInt 49 else fid) w5) as T;
      pose proof (writer_tail_inserts ld mid sid
                    (if is_none eid then PInt 5 else eid) envid
                    (if is_none fid then PInt 49 else fid) w5) as T';
      unfold trace_of in T, T';
      destruct (bind m k w5) as [[w6 t6] r6] eqn:E6
  end.
  simpl in T, T'. unfold with_db in E. destruct (close drv (db w6)) as [d7 rc]. simpl in E.
  assert (Hr : r = Return tt).
  { destruct rc as [[]|?], r6 as [[]|?]; inversion E; reflexivity. }
  assert (St : forall s p res, In (EvExecute s p res) t ->
            In (EvExecute s p res) t1 \/ In (EvExecute s p res) t2 \/
            In (EvExecute s p res) t3 \/ In (EvExecute s p res) t4 \/
            In (EvExecute s p res) t5 \/ In (EvExecute s p res) t6).
  { intros s p res H.
    destruct rc as [[]|?], r6 as [[]|?]; inversion E; subst; clear E;
      simpl in H; destruct H as [H|H]; try discriminate;
      rewrite !in_app_iff in H; simpl in H;
      intuition discriminate. }
  assert (Sub : forall ev, In ev t4 \/ In ev t6 -> In ev t).
  { intros ev H.
    destruct rc as [[]|?], r6 as [[]|?]; inversion E; subst; clear E;
      simpl; right; rewrite !in_app_iff; tauto. }
  assert (Sub4 : forall ev, In ev t4 -> In ev t) by (intros; apply Sub; now left).
  clear E.
  exists mid, sid, (if is_none eid then PInt 5 else eid), envid,
    (if is_none fid then PInt 49 else fid).
  refine (conj Hr (conj _ (conj _ (conj _ (conj _ (conj _ _)))))).
  6:{ intros _ Hs. destruct (T' Hs) as (p & res & H). exists p, res.
      apply Sub. now right. }
  - intros q res H. apply St in H.
    destruct H as [H|[H|[H|[H|[H|H]]]]];
      [ | foreign F2 H | foreign F3 H | foreign F4 H | foreign F5 H
        | apply T in H; destruct H; discriminate ].
    assert (Ht : trace_of (_get_http_method_id drv
                  (dict_get_or ld "http_method" (PStr "POST")))
                  {| db := d; clock := clock w |} = t1) by trace_eq E1.
    rewrite <- Ht in H. apply http_method_run in H. destruct H as [-> H].
    unfold result_of in H. rewrite E1 in H. simpl in H. split; congruence.
  - intros q res H. apply St in H.
    destruct H as [H|[H|[H|[H|[H|H]]]]];
      [ foreign F1 H | foreign F2 H | foreign F3 H | | foreign F5 H
        | apply T in H; destruct H; discriminate ].
    assert (Ht : trace_of (_get_environment_id drv
                  (dict_get_or ld "environment" (PStr "Dev"))) w3 = t4) by trace_eq E4.
    rewrite <- Ht in H. apply environment_run in H. cbv zeta in H.
    destruct H as [-> H]. split; auto.
    unfold result_of in H. rewrite E4 in H. rewrite Ht in H. simpl in H.
    destruct res as [[id|]|e]; try congruence.
    destruct (eq_str _ "Dev"); try congruence.
    destruct H as (alias & Ha & Hv). exists alias. split; [now apply Sub4 | congruence].
  - intros Hf. destruct (N3 Hf) as [-> _]; [discriminate | reflexivity].
  - intros Hf. destruct (N5 Hf) as [-> _]; [discriminate | reflexivity].
  - intros p res H. apply St in H.
    destruct H as [H|[H|[H|[H|[H|H]]]]];
      [ foreign F1 H | foreign F2 H | foreign F3 H | foreign F4 H | foreign F5 H | ].
    apply T in H. now destruct H.
Qed.


(** [_insert_log] never raises: its whole body sits in [try ... except
    Exception], and the handler only prints. *)
Lemma _insert_log_returns (ld : dict) (w : World DB) :
  result_of (_insert_log drv ld) w = Return tt.
Proof.
  destruct (insert_log_run ld w) as (? & ? & ? & ? & ? & H & _). exact H.
Qed.

(** With a connection and a message that can be sliced (a string, a list,
    or none), the INSERT is issued. *)
Lemma insert_is_issued (ld : dict) (w : World DB) :
  snd (connect drv (db w)) = Return tt ->
  (truthy (dict_get ld "exception_message") = true ->
   exists v, py_slice_to 500 (dict_get_or ld "exception_message" (PStr "")) = Return v) ->
  exists p r, In (EvExecute InsertAPICall p r) (trace_of (_insert_log drv ld) w).
Proof.
  destruct (insert_log_run ld w) as (? & ? & ? & ? & ? & _ & _ & _ & _ & _ & _ & H).
  exact H.
Qed.

Lemma dict_get_or_absent (d : dict) (k : string) (v : PyVal) :
  dict_find d k = None -> dict_get_or d k v = v.
Proof. unfold dict_get_or. now intros ->. Qed.

(** C3.  Whenever [_insert_log] inserts into the event table, the
    [exception_message] parameter it binds is the first 500 characters of
    the record's message when that message is a non-empty string (so a
    longer message is stored as exactly its first 500 characters), and
    [None] when the record has no message. *)
Theorem exception_message_first_500 (ld : dict) (w : World DB)
    (p : dict) (r : outcome (option PyVal)) :
  In (EvExecute InsertAPICall p r) (trace_of (_insert_log drv ld) w) ->
  (forall s, dict_get ld "exception_message" = PStr s -> s <> "" ->
     dict_find p "exception_message" = Some (PStr (str_take 500 s)) /\
     (500 < str_len s ->
        str_len (str_take 500 s) = 500 /\
        exists rest, s = (str_take 500 s ++ rest)%string)) /\
  (dict_get ld "exception_message" = PNone ->
     dict_find p "exception_message" = Some PNone).
Proof.
  intros Hin.
  destruct (insert_log_run ld w) as (mid & sid & eid & envid & fid & _ & _ & _ & _ & _ & Hp & _).
  destruct (Hp p r Hin) as (msg & now & Hmsg & ->). clear Hp Hin.
  split.
  - intros s Hs Hne.
    assert (Hget : dict_get_or ld "exception_message" (PStr "") = PStr s).
    { unfold dict_get, dict_get_or in *.
      destruct (dict_find ld "exception_message"); [assumption | discriminate]. }
    rewrite Hs, Hget in Hmsg.
    apply truthy_str in Hne. rewrite Hne in Hmsg. simpl in Hmsg.
    inversion Hmsg; subst msg. split; [reflexivity|].
    intros Hlong. split.
    + rewrite str_take_length by lia. lia.
    + apply str_take_prefix.
  - intros Hs. rewrite Hs in Hmsg. simpl in Hmsg. now subst msg.
Qed.



(** The method lookup for a truthy value: one SELECT with that value, and
    the value returned is the key of the row the SELECT found. *)
Lemma method_lookup_run (v : PyVal) (w : World DB) :
  truthy v = true ->
  exists w' rest,
    _get_http_method_id drv v w =
      (w',
       EvExecute SelectHttpMethod [("method", v)]
         (snd (execute drv SelectHttpMethod [("method", v)] (db w))) :: rest,
       Return (match snd (execute drv SelectHttpMethod [("method", v)] (db w)) with
               | Return (Some id) => id
               | _ => PNone
               end)).
Proof.
  intros T.
  unfold _get_http_method_id, try_except, bind, conn_execute, with_db, print, ret.
  rewrite T. simpl.
  destruct (execute drv SelectHttpMethod [("method", v)] (db w)) as [d [[id|]|e]];
    simpl; eexists _, _; reflexivity.
Qed.

(** How a run of [_insert_log] begins: when the connection opens, the
    first statement executed is the method lookup; when it does not, the
    error is printed and that is all. *)
Lemma insert_log_head (ld : dict) (w : World DB) :
  truthy (dict_get_or ld "http_method" (PStr "POST")) = true ->
  match connect drv (db w) with
  | (d, Return _) =>
      exists rest,
        trace_of (_insert_log drv ld) w =
          EvConnect (Return tt)
          :: EvExecute SelectHttpMethod
               [("method", dict_get_or ld "http_method" (PStr "POST"))]
               (snd (execute drv SelectHttpMethod
                       [("method", dict_get_or ld "http_method" (PStr "POST"))] d))
          :: rest
  | (_, Raise e) =>
      trace_of (_insert_log drv ld) w = [EvConnect (Raise e); EvPrint (MsgInsertError e)]
  end.
Proof.
  intros T. unfold trace_of.
  destruct (_insert_log drv ld w) as [[w' t] r] eqn:E. simpl.
  unfold _insert_log, try_except, with_connection in E.
  unfold bind at 1 in E. unfold with_db at 1 in E.
  destruct (connect drv (db w)) as [d [[]|e]]; simpl in E.
  2:{ now inversion E. }
  destruct (method_lookup_run (dict_get_or ld "http_method" (PStr "POST"))
              {| db := d; clock := clock w |} T) as (w1 & rest1 & E1).
  simpl in E1. rewrite (bind_returns _ _ _ _ _ _ E1) in E.
  match type of E with
  | context [bind ?m ?k w1] => destruct (bind m k w1) as [[w6 t6] r6]
  end.
  unfold with_db in E. destruct (close drv (db w6)) as [d7 rc]. simpl in E.
  destruct rc as [[]|?], r6 as [[]|?]; inversion E; subst; eexists; reflexivity.
Qed.

(** C10.  A record without [http_method] is written exactly as the same
    record with [http_method] set to ['POST']: same database, same events,
    same result.  Whenever the connection opens, the lookup is performed,
    as the first statement of the run, with ['POST']; no method lookup is
    made with anything else; and every INSERT into the event table binds
    as [http_method_id] the key of the row that lookup found ([None] when
    it found none or raised). *)
Theorem missing_method_is_post (ld : dict) (w : World DB) :
  dict_find ld "http_method" = None ->
  _insert_log drv ld w = _insert_log drv (dict_set ld "http_method" (PStr "POST")) w /\
  (forall q res,
     In (EvExecute SelectHttpMethod q res) (trace_of (_insert_log drv ld) w) ->
     q = [("method", PStr "POST")]) /\
  (forall q id p r,
     In (EvExecute SelectHttpMethod q (Return (Some id)))
        (trace_of (_insert_log drv ld) w) ->
     In (EvExecute InsertAPICall p r) (trace_of (_insert_log drv ld) w) ->
     dict_find p "http_method_id" = Some id) /\
  (forall d,
     connect drv (db w) = (d, Return tt) ->
     exists rest,
       trace_of (_insert_log drv ld) w =
         EvConnect (Return tt)
         :: EvExecute SelectHttpMethod [("method", PStr "POST")]
              (snd (execute drv SelectHttpMethod [("method", PStr "POST")] d))
         :: rest) /\
  (forall p r,
     In (EvExecute InsertAPICall p r) (trace_of (_insert_log drv ld) w) ->
     exists d,
       connect drv (db w) = (d, Return tt) /\
       dict_find p "http_method_id" =
         Some (match snd (execute drv SelectHttpMethod [("method", PStr "POST")] d) with
               | Return (Some id) => id
               | _ => PNone
               end)).
Proof.
  intros H.
  assert (Hv : dict_get_or ld "http_method" (PStr "POST") = PStr "POST")
    by exact (dict_get_or_absent _ _ _ H).
  pose proof (insert_log_head ld w) as Hhead. rewrite Hv in Hhead.
  specialize (Hhead eq_refl).
  refine (conj _ (conj _ (conj _ (conj _ _)))).
  - unfold _insert_log, insert_params, dict_get, dict_get_or.
    rewrite dict_find_set_same.
    rewrite !dict_find_set_other by discriminate.
    now rewrite H.
  - intros q res Hq.
    destruct (insert_log_run ld w) as (mid & ? & ? & ? & ? & _ & Hm & _).
    destruct (Hm q res Hq) as [-> _].
    now rewrite Hv.
  - intros q id p r Hq Hp.
    destruct (insert_log_run ld w)
      as (mid & sid & eid & envid & fid & _ & Hm & _ & _ & _ & Hi & _).
    destruct (Hm _ _ Hq) as [_ ->].
    destruct (Hi _ _ Hp) as (msg & now & _ & ->). reflexivity.
  - intros d Hc. rewrite Hc in Hhead. exact Hhead.
  - intros p r Hp.
    destruct (insert_log_run ld w)
      as (mid & sid & eid & envid & fid & _ & Hm & _ & _ & _ & Hi & _).
    destruct (connect drv (db w)) as [d [[]|e]] eqn:Hc.
    + exists d. split; [reflexivity|].
      destruct Hhead as [rest Ht].
      assert (Hq : In (EvExecute SelectHttpMethod [("method", PStr "POST")]
                         (snd (execute drv SelectHttpMethod [("method", PStr "POST")] d)))
                      (trace_of (_insert_log drv ld) w))
        by (rewrite Ht; right; left; reflexivity).
      destruct (Hm _ _ Hq) as [_ ->].
      destruct (Hi _ _ Hp) as (msg & now & _ & ->). reflexivity.
    + rewrite Hhead in Hp. destruct Hp as [Hp|[Hp|[]]]; discriminate.
Qed.

End Writer.

(** ** The record builders *)

Section BuilderProps.
Variable json_dumps : dict -> outcome string.
Variable json_loads : string -> outcome PyVal.

(** What [log_excalibur_request] stores for a payload text. *)
Lemma request_payload_of_text (now : Z) (a : RequestArgs) (text : string) :
  truthy (rq_request_payload a) = true ->
  dict_find (rq_kwargs a) "request_payload" = None ->
  (rq_request_payload a = PStr text \/
   exists d, rq_request_payload a = PDict d /\ json_dumps d = Return text) ->
  exists log_data,
    log_excalibur_request json_dumps now a = Return log_data /\
    dict_find log_data "request_payload" =
      Some (PStr (if 100000 <? str_len text
                  then (str_take 100000 text ++ "... [truncated]")%string
                  else text)).
Proof.
  intros Ht Hkw Hp. unfold log_excalibur_request. rewrite Ht.
  assert (Hs : match rq_request_payload a with
               | PDict d => obind (json_dumps d) (fun s => Return (PStr s))
               | v => Return v
               end = Return (PStr text)).
  { destruct Hp as [-> | (d & -> & ->)]; reflexivity. }
  rewrite Hs. simpl.
  destruct (100000 <? str_len text); simpl;
    (eexists; split; [reflexivity|]);
    rewrite dict_find_update_absent by assumption;
    reflexivity.
Qed.

(** C2, as amended.  A non-empty payload is stored under
    [request_payload]: a text longer than 100,000 characters as its first
    100,000 characters followed by ['... [truncated]'], a shorter one
    unmodified; a non-empty [dict] is serialized by [json.dumps] first.  An
    empty payload ([None], the empty string, the empty [dict]) is not
    stored: the record has no [request_payload] field. *)
Theorem request_payload_truncation (now : Z) (a : RequestArgs) :
  kwargs_ok request_param_names (rq_kwargs a) = true ->
  (forall text,
     truthy (rq_request_payload a) = true ->
     (rq_request_payload a = PStr text \/
      exists d, rq_request_payload a = PDict d /\ json_dumps d = Return text) ->
     exists log_data,
       log_excalibur_request json_dumps now a = Return log_data /\
       (100000 < str_len text ->
          dict_find log_data "request_payload" =
            Some (PStr (str_take 100000 text ++ "... [truncated]")%string) /\
          str_len (str_take 100000 text) = 100000) /\
       (str_len text <= 100000 ->
          dict_find log_data "request_payload" = Some (PStr text))) /\
  (truthy (rq_request_payload a) = false ->
     exists log_data,
       log_excalibur_request json_dumps now a = Return log_data /\
       dict_find log_data "request_payload" = None).
Proof.
  intros Hkw.
  assert (Hk : dict_find (rq_kwargs a) "request_payload" = None).
  { apply (kwargs_ok_absent _ _ _ Hkw). simpl. tauto. }
  split.
  - intros text Ht Hp.
    destruct (request_payload_of_text now a text Ht Hk Hp) as (ld & E & Hf).
    exists ld. split; [assumption|]. split.
    + intros Hlong. apply Z.ltb_lt in Hlong as Hb. rewrite Hb in Hf.
      split; [assumption|]. rewrite str_take_length by lia. lia.
    + intros Hshort. apply Z.ltb_ge in Hshort. now rewrite Hshort in Hf.
  - intros Hf. unfold log_excalibur_request. rewrite Hf. simpl.
    eexists. split; [reflexivity|].
    rewrite dict_find_update_absent by assumption. reflexivity.
Qed.


(** [exception_thrown] after the extraction block is the value passed,
    unless the footer branch ran, which replaces it by
    [footer.get('ExceptionThrown', False)]. *)
Lemma extract_exception_thrown (a : ResponseArgs) :
  exception_thrown (extract json_loads a) = rs_exception_thrown a \/
  exists json footer,
    parse_payload json_loads (rs_response_payload a) = Return json /\
    py_getitem_str json "EnvelopeFooter" = Return (PDict footer) /\
    exception_thrown (extract json_loads a) =
      dict_get_or footer "ExceptionThrown" (PBool false).
Proof.
  unfold extract, extract_body.
  destruct (truthy (rs_response_payload a)); auto.
  destruct (parse_payload json_loads (rs_response_payload a)) as [json|] eqn:Ej;
    simpl; auto.
  destruct (obind (py_contains "EnvelopeBody" json) _) as [[|]|]; simpl; auto.
  - destruct (obind (py_getitem_str json "EnvelopeBody") _); simpl; auto.
  - destruct (py_contains "EnvelopeFooter" json) as [[|]|]; simpl; auto.
    destruct (py_getitem_str json "EnvelopeFooter") as [footer|] eqn:Ef; simpl; auto.
    destruct footer; simpl; auto.
    right. now exists json, d.
Qed.

Ltac built H Hk :=
  unfold log_excalibur_response in H;
  destruct (truthy (rs_response_payload _)); simpl in H;
  [ match type of H with
    | context [match ?p with _ => _ end] => destruct p; simpl in H
    end;
    try match type of H with
        | context [json_dumps ?d] => destruct (json_dumps d); simpl in H
        end;
    try discriminate
  | ];
  inversion H; subst; clear H;
  rewrite dict_find_update_absent by exact Hk;
  reflexivity.

(** C4.  When [is_success] is not supplied, the record's success flag is
    [http_status_code == 200 and not exception_thrown], where
    [exception_thrown] is the value the record itself carries: the one
    passed by the caller, or the footer's when the payload has an
    [EnvelopeFooter]. *)
Theorem success_is_inferred (now : Z) (a : ResponseArgs) (log_data : dict) :
  rs_is_success a = PNone ->
  kwargs_ok response_param_names (rs_kwargs a) = true ->
  log_excalibur_response json_dumps json_loads now a = Return log_data ->
  let thrown := exception_thrown (extract json_loads a) in
  dict_find log_data "is_success" =
    Some (PBool (eq_int (rs_http_status_code a) 200 && negb (truthy thrown))) /\
  dict_find log_data "exception_thrown" = Some thrown /\
  (thrown = rs_exception_thrown a \/
   exists json footer,
     parse_payload json_loads (rs_response_payload a) = Return json /\
     py_getitem_str json "EnvelopeFooter" = Return (PDict footer) /\
     thrown = dict_get_or footer "ExceptionThrown" (PBool false)).
Proof.
  intros Hnone Hkw H thrown.
  assert (Hk1 : dict_find (rs_kwargs a) "is_success" = None).
  { apply (kwargs_ok_absent _ _ _ Hkw). simpl. tauto. }
  assert (Hk2 : dict_find (rs_kwargs a) "exception_thrown" = None).
  { apply (kwargs_ok_absent _ _ _ Hkw). simpl. tauto. }
  split; [|split].
  - assert (E : dict_find log_data "is_success" =
                Some (py_and (PBool (eq_int (rs_http_status_code a) 200))
                             (py_not thrown))).
    { unfold log_excalibur_response in H. rewrite Hnone in H.
      subst thrown. built H Hk1. }
    rewrite E. unfold py_and, py_not. simpl.
    now destruct (eq_int (rs_http_status_code a) 200).
  - subst thrown. built H Hk2.
  - apply extract_exception_thrown.
Qed.



End BuilderProps.

(** ** Queue, worker and shutdown *)

Section Shutdown.
Context {DB : Type}.
Variable drv : Driver DB.

Ltac seven := refine (conj _ (conj _ (conj _ (conj _ (conj _ (conj _ _)))))).

Lemma init_invariant (w : World DB) : invariant (init w).
Proof.
  unfold invariant, init; simpl. seven; auto; try discriminate.
  all: try (intros H; now elim H).
  all: try (intros t H; discriminate).
Qed.

Lemma submit_invariant (log_data : dict) (s : Sys DB) :
  invariant s -> invariant (log_api_call log_data s).
Proof.
  unfold invariant, log_api_call; simpl.
  intros (I1 & I2 & I3 & I4 & I5 & I6 & I7). seven; auto.
  - rewrite I1. now rewrite <- !app_assoc.
  - rewrite I2, length_app. simpl. lia.
  - intros H. destruct (I3 H) as [rest E].
    exists (rest ++ [stamp (clock (world s)) log_data]).
    rewrite E. now rewrite <- app_assoc.
Qed.

Lemma worker_invariant (s s' : Sys DB) :
  invariant s -> _process_logs drv s = Some s' -> invariant s'.
Proof.
  unfold invariant, _process_logs.
  intros (I1 & I2 & I3 & I4 & I5 & I6 & I7) H.
  destruct (worker s) as [| |r|r|] eqn:Ew; simpl in *.
  - inversion H; subst; clear H; simpl.
    assert (in_flight (if is_running s then WGet else WStopped) = []) as ->
      by now destruct (is_running s).
    seven; auto.
  - destruct (items s) as [|r rest] eqn:Ei; inversion H; subst; clear H; simpl;
      seven; auto.
  - pose proof (_insert_log_returns drv r (world s)) as Hret.
    unfold result_of in Hret.
    destruct (_insert_log drv r (world s)) as [[w t] res]. simpl in Hret. subst res.
    inversion H; subst; clear H; simpl. seven; auto.
  - destruct (unfinished_tasks s) as [|n]; [lia|].
    inversion H; subst; clear H; simpl. seven; auto; try lia.
    + rewrite I1. now rewrite <- app_assoc.
    + intros Hp. destruct (I4 Hp) as [rest E]. exists (rest ++ [r]).
      rewrite E. now rewrite <- app_assoc.
  - discriminate.
Qed.

Lemma shutdown_invariant (a : action) (s s' : Sys DB) :
  invariant s -> shutdown a s = Some s' -> invariant s'.
Proof.
  unfold invariant, shutdown, set_caller.
  intros (I1 & I2 & I3 & I4 & I5 & I6 & I7) H.
  destruct a; try discriminate; destruct (caller s) eqn:Ec; try discriminate.
  - (* CallShutdown *)
    inversion H; subst; clear H; simpl.
    seven; [exact I1 | exact I2 | | discriminate | | discriminate | discriminate].
    + intros _. exists []. now rewrite app_nil_r.
    + intros Hr. destruct (I5 Hr) as [Hp _]. discriminate Hp.
  - (* QueueJoinReturns *)
    destruct (unfinished_tasks s) eqn:Eu; [|discriminate].
    inversion H; subst; clear H; simpl.
    assert (Hi : in_flight (worker s) = [] /\ items s = []).
    { split; apply length_zero_iff_nil; lia. }
    destruct Hi as [Hi1 Hi2].
    seven; [exact I1 | exact I2 | | | | discriminate | discriminate].
    + intros _. apply I3. discriminate.
    + intros _. destruct I3 as [rest E]; [discriminate|]. exists rest.
      rewrite <- E, I1, Hi1, Hi2. now rewrite !app_nil_r.
    + intros Hr. destruct (I5 Hr) as [Hp _]. discriminate Hp.
  - (* ClearFlag *)
    inversion H; subst; clear H; simpl.
    seven; [exact I1 | exact I2 | | | | | discriminate].
    + intros _. apply I3. discriminate.
    + intros _. now apply I4.
    + intros _. split; [reflexivity | discriminate].
    + intros t Ht. now inversion Ht.
  - (* ThreadJoinReturns *)
    destruct (timed_out || _); [|discriminate].
    inversion H; subst; clear H; simpl.
    seven; [exact I1 | exact I2 | | | | discriminate | ].
    + intros _. apply I3. discriminate.
    + intros _. now apply I4.
    + intros _. split; [reflexivity | discriminate].
    + intros _. now destruct (I6 timeout eq_refl).
Qed.

Lemma step_invariant (a : action) (s s' : Sys DB) :
  invariant s -> step drv a s = Some s' -> invariant s'.
Proof.
  intros I H. unfold step in H.
  destruct a; try exact (shutdown_invariant _ _ _ I H).
  - inversion H; subst. now apply submit_invariant.
  - now apply (worker_invariant _ _ I H).
  - inversion H; subst; clear H. exact I.
Qed.

Lemma run_invariant (acts : list action) (s s' : Sys DB) :
  invariant s -> run drv acts s = Some s' -> invariant s'.
Proof.
  revert s. induction acts as [|a acts IH]; intros s I H; simpl in H.
  - now inversion H; subst.
  - destruct (step drv a s) as [s1|] eqn:E; [|discriminate].
    apply (IH s1); auto. now apply (step_invariant a s).
Qed.

Lemma run_app (a b : list action) (s : Sys DB) :
  run drv (a ++ b) s =
    match run drv a s with Some s' => run drv b s' | None => None end.
Proof.
  revert s. induction a as [|x a IH]; intros s; simpl; auto.
  destruct (step drv x s); auto.
Qed.

Lemma step_stops_on_cleared_flag (a : action) (s s' : Sys DB) :
  stops_on_cleared_flag s -> step drv a s = Some s' -> stops_on_cleared_flag s'.
Proof.
  unfold stops_on_cleared_flag. intros I H.
  destruct a; simpl in H.
  - inversion H; subst; exact I.
  - unfold _process_logs in H. destruct (worker s) eqn:Ew.
    + inversion H; subst; simpl. destruct (is_running s); [discriminate | auto].
    + destruct (items s); inversion H; subst; simpl; discriminate.
    + destruct (_insert_log drv log_data (world s)) as [[w t] [[]|e]];
        inversion H; subst; simpl; discriminate.
    + destruct (unfinished_tasks s); inversion H; subst; simpl; discriminate.
    + discriminate.
  - unfold shutdown, set_caller in H.
    destruct (caller s); inversion H; subst; exact I.
  - unfold shutdown, set_caller in H.
    destruct (caller s); try discriminate.
    destruct (unfinished_tasks s); inversion H; subst; exact I.
  - unfold shutdown, set_caller in H.
    destruct (caller s); inversion H; subst; simpl; auto.
  - unfold shutdown, set_caller in H.
    destruct (caller s); try discriminate.
    destruct (timed_out || _); inversion H; subst; exact I.
  - inversion H; subst; exact I.
Qed.

Lemma run_stops_on_cleared_flag (acts : list action) (s s' : Sys DB) :
  stops_on_cleared_flag s -> run drv acts s = Some s' -> stops_on_cleared_flag s'.
Proof.
  revert s. induction acts as [|a acts IH]; intros s I H; simpl in H.
  - now inversion H; subst.
  - destruct (step drv a s) as [s1|] eqn:E; [|discriminate].
    apply (IH s1); auto. now apply (step_stops_on_cleared_flag a s).
Qed.

(** While the flag is set, each step of the worker brings the drain one
    step closer and leaves the caller where it is. *)
Lemma worker_progress (s : Sys DB) (n : nat) :
  invariant s -> stops_on_cleared_flag s ->
  is_running s = true -> steps_to_drain s = S n ->
  exists s',
    _process_logs drv s = Some s' /\ steps_to_drain s' = n /\
    is_running s' = true /\ caller s' = caller s.
Proof.
  unfold steps_to_drain, _process_logs, stops_on_cleared_flag.
  intros (I1 & I2 & _) Hw Hr Hn.
  destruct (worker s) as [| |r|r|] eqn:Ew.
  - rewrite Hr. eexists. split; [reflexivity|]. simpl.
    destruct (items s); simpl in *; [discriminate|]. repeat split; auto; lia.
  - destruct (items s) as [|r rest]; [discriminate|].
    eexists. split; [reflexivity|]. simpl. repeat split; auto; lia.
  - pose proof (_insert_log_returns drv r (world s)) as Hret.
    unfold result_of in Hret.
    destruct (_insert_log drv r (world s)) as [[w t] res]. simpl in Hret. subst res.
    eexists. split; [reflexivity|]. simpl. repeat split; auto; lia.
  - simpl in I2. destruct (unfinished_tasks s); [lia|].
    eexists. split; [reflexivity|]. simpl. repeat split; auto; lia.
  - rewrite Hw in Hr by reflexivity. discriminate.
Qed.

(** With nothing left to do, nothing is unfinished. *)
Lemma drained_when_no_steps (s : Sys DB) :
  invariant s -> steps_to_drain s = 0%nat -> unfinished_tasks s = 0%nat.
Proof.
  unfold steps_to_drain. intros (_ & I2 & _) H. rewrite I2.
  destruct (worker s), (items s); simpl in *; try lia.
Qed.

(** The worker alone drains the queue in [steps_to_drain] steps. *)
Lemma worker_drains (n : nat) (s : Sys DB) :
  invariant s -> stops_on_cleared_flag s ->
  is_running s = true -> steps_to_drain s = n ->
  exists s',
    run drv (repeat WorkerStep n) s = Some s' /\
    unfinished_tasks s' = 0%nat /\ is_running s' = true /\ caller s' = caller s.
Proof.
  revert s. induction n as [|n IH]; intros s I Hw Hr Hn.
  - exists s. simpl. repeat split; auto. now apply drained_when_no_steps.
  - destruct (worker_progress s n I Hw Hr Hn) as (s1 & E & Hn1 & Hr1 & Hc1).
    assert (I' : invariant s1) by exact (worker_invariant _ _ I E).
    assert (Hw' : stops_on_cleared_flag s1)
      by exact (step_stops_on_cleared_flag WorkerStep _ _ Hw E).
    destruct (IH s1 I' Hw' Hr1 Hn1) as (s' & Erun & Hu & Hr' & Hc').
    exists s'. simpl. rewrite E. repeat split; auto. congruence.
Qed.

(** From every reachable state in which [shutdown()] waits in
    [log_queue.join()], the worker's steps followed by the three steps of
    [shutdown()] lead to its return: the drain cannot get stuck. *)
Lemma shutdown_can_return (w0 : World DB) (acts : list action) (s : Sys DB) :
  run drv acts (init w0) = Some s ->
  caller s = SQueueJoin ->
  exists s',
    run drv (repeat WorkerStep (steps_to_drain s) ++
             [QueueJoinReturns; ClearFlag; ThreadJoinReturns true]) s = Some s' /\
    caller s' = SReturned.
Proof.
  intros Hrun Hc.
  pose proof (run_invariant acts _ _ (init_invariant w0) Hrun) as I.
  assert (Hw : stops_on_cleared_flag s).
  { apply (run_stops_on_cleared_flag acts (init w0)); auto.
    intros H. discriminate. }
  assert (Hr : is_running s = true).
  { destruct I as (_ & _ & _ & _ & I5 & _).
    destruct (is_running s); auto.
    destruct (I5 eq_refl) as [Hp _]. rewrite Hc in Hp. discriminate. }
  destruct (worker_drains _ s I Hw Hr eq_refl) as (s1 & E & Hu & _ & Hc1).
  rewrite run_app, E. simpl. unfold shutdown.
  rewrite Hc1, Hc, Hu. simpl.
  eexists. split; reflexivity.
Qed.

(** C1.  In every state a schedule can reach: [log_queue.join()] returns
    only on a drained queue (nothing queued, nothing in the worker's hands,
    every record put so far marked done); once [shutdown()] is past it,
    the records put before the call are all marked done, in the order they
    were put; [is_running] is cleared only after that; the worker is then
    joined with the 5 second timeout, and timing out leads to the return, so
    the call returns whether or not the worker has stopped. *)
Theorem shutdown_drains_before_stopping (w0 : World DB) (acts : list action)
    (s : Sys DB) :
  run drv acts (init w0) = Some s ->
  (forall s', step drv CallShutdown s = Some s' ->
     caller s' = SQueueJoin /\ before_shutdown s' = submitted s) /\
  (forall s', step drv QueueJoinReturns s = Some s' ->
     items s = [] /\ in_flight (worker s) = [] /\ processed s = submitted s) /\
  (past_queue_join (caller s) = true ->
     exists rest, processed s = before_shutdown s ++ rest) /\
  (is_running s = false ->
     past_queue_join (caller s) = true /\ caller s <> SClearFlag) /\
  (forall t, caller s = SThreadJoin t ->
     t = 5 /\ is_running s = false /\
     exists s', step drv (ThreadJoinReturns true) s = Some s' /\
                caller s' = SReturned) /\
  (caller s = SReturned ->
     is_running s = false /\
     exists rest, processed s = before_shutdown s ++ rest).
Proof.
  intros Hrun.
  pose proof (run_invariant acts _ _ (init_invariant w0) Hrun)
    as (I1 & I2 & I3 & I4 & I5 & I6 & I7).
  refine (conj _ (conj _ (conj I4 (conj I5 (conj _ _))))).
  - intros s' H. simpl in H. unfold shutdown, set_caller in H.
    destruct (caller s); try discriminate.
    inversion H; subst; clear H. now split.
  - intros s' H. simpl in H. unfold shutdown in H.
    destruct (caller s); try discriminate.
    destruct (unfinished_tasks s) eqn:Eu; [|discriminate].
    assert (Hi : in_flight (worker s) = [] /\ items s = []).
    { split; apply length_zero_iff_nil; lia. }
    destruct Hi as [Hi1 Hi2]. repeat split; auto.
    rewrite I1, Hi1, Hi2. now rewrite !app_nil_r.
  - intros t Ht. destruct (I6 t Ht) as [-> Hr]. repeat split; auto.
    simpl. unfold shutdown. rewrite Ht. simpl.
    eexists. split; [reflexivity | reflexivity].
  - intros Hc. split; [now apply I7|]. apply I4. now rewrite Hc.
Qed.

End Shutdown.

(* ================================================================== *)
(** * The properties on concrete runs *)
(* ================================================================== *)

Ltac in_trace := unfold trace_of; vm_compute; repeat (first [left; reflexivity | right]).

(** One record submitted before [shutdown()] and still queued when it is
    called: the call returns with the record processed and the flag
    cleared. *)
Lemma shutdown_drains_sample :
  exists s,
    run MemDB.driver Samples.schedule (init Samples.w0) = Some s /\
    caller s = SReturned /\
    is_running s = false /\
    before_shutdown s = [stamp 1700000000 Samples.upload] /\
    exists rest, processed s = before_shutdown s ++ rest.
Proof.
  assert (E : exists s,
            run MemDB.driver Samples.schedule (init Samples.w0) = Some s /\
            caller s = SReturned /\
            before_shutdown s = [stamp 1700000000 Samples.upload]).
  { eexists. split; [vm_compute; reflexivity|]. split; reflexivity. }
  destruct E as (s & E & Hc & Hb). exists s.
  destruct (shutdown_drains_before_stopping MemDB.driver Samples.w0
              Samples.schedule s E) as (_ & _ & _ & _ & _ & Hret).
  destruct (Hret Hc) as [Hr Hd]. auto.
Defined.

(** While the record is still queued, [log_queue.join()] cannot return. *)
Example join_blocks_on_pending_record :
  run MemDB.driver [Submit Samples.upload; CallShutdown; QueueJoinReturns]
    (init Samples.w0) = None.
Proof. reflexivity. Qed.

(** A 600-character message is bound as its first 500 characters. *)
Lemma exception_message_sample :
  In (EvExecute InsertAPICall
        (Samples.failure_params (Samples.copies 600 "x") (Samples.copies 500 "x"))
        (Return None))
     (trace_of (_insert_log MemDB.driver (Samples.failure (Samples.copies 600 "x")))
        Samples.w0) /\
  dict_find (Samples.failure_params (Samples.copies 600 "x") (Samples.copies 500 "x"))
    "exception_message" = Some (PStr (Samples.copies 500 "x")) /\
  str_len (Samples.copies 500 "x") = 500.
Proof.
  assert (Hin : In (EvExecute InsertAPICall
                      (Samples.failure_params (Samples.copies 600 "x")
                         (Samples.copies 500 "x")) (Return None))
                   (trace_of (_insert_log MemDB.driver
                                (Samples.failure (Samples.copies 600 "x")))
                      Samples.w0)) by in_trace.
  split; [exact Hin|].
  destruct (exception_message_first_500 MemDB.driver _ _ _ _ Hin) as [Hs _].
  destruct (Hs (Samples.copies 600 "x") eq_refl) as [Hb Hl]; [discriminate|].
  split; [exact Hb|]. now vm_compute.
Defined.

(** A record without a message binds [None]. *)
Example exception_message_absent_sample :
  dict_find Samples.upload_params "exception_message" = Some PNone.
Proof. reflexivity. Qed.


Example development_key_is_bound :
  dict_find Samples.upload_params "environment_id" = Some (PInt 1).
Proof. reflexivity. Qed.

(** The upload record has no method: the lookup is made with ['POST'],
    whose key in the seeded table is 1, and that key is bound. *)
Lemma missing_method_sample :
  dict_find Samples.upload "http_method" = None /\
  _insert_log MemDB.driver Samples.upload Samples.w0 =
    _insert_log MemDB.driver (dict_set Samples.upload "http_method" (PStr "POST"))
      Samples.w0 /\
  In (EvExecute SelectHttpMethod [("method", PStr "POST")] (Return (Some (PInt 1))))
     (trace_of (_insert_log MemDB.driver Samples.upload) Samples.w0) /\
  In (EvExecute InsertAPICall Samples.upload_params (Return None))
     (trace_of (_insert_log MemDB.driver Samples.upload) Samples.w0) /\
  dict_find Samples.upload_params "http_method_id" = Some (PInt 1).
Proof.
  assert (H : dict_find Samples.upload "http_method" = None) by reflexivity.
  assert (Hin : In (EvExecute InsertAPICall Samples.upload_params (Return None))
                   (trace_of (_insert_log MemDB.driver Samples.upload) Samples.w0))
    by in_trace.
  destruct (missing_method_is_post MemDB.driver Samples.upload Samples.w0 H)
    as (Heq & _ & _ & Hlook & Hid).
  split; [exact H|]. split; [exact Heq|]. split; [|split; [exact Hin|]].
  - destruct (Hlook MemDB.seeded eq_refl) as [rest Ht].
    rewrite Ht. right. left. reflexivity.
  - destruct (Hid _ _ Hin) as (d & Hc & Hb).
    assert (Hd : d = MemDB.seeded)
      by (vm_compute in Hc; injection Hc as <-; reflexivity).
    subst d. exact Hb.
Defined.

(** [0], [False] and the empty string as status codes. *)
Lemma falsy_status_code_sample :
  truthy (PInt 0) = false /\
  _get_http_status_code_id (PInt 0) Samples.w0 = (Samples.w0, [], Return PNone) /\
  _get_http_status_code_id (PBool false) Samples.w0 = (Samples.w0, [], Return PNone) /\
  _get_http_status_code_id (PStr "") Samples.w0 = (Samples.w0, [], Return PNone).
Proof.
  split; [reflexivity|].
  split; [|split]; apply falsy_status_code_is_absent; reflexivity.
Defined.


Example status_code_parsed :
  result_of (_get_http_status_code_id (PStr " 404 ")) Samples.w0 = Return (PInt 404) /\
  result_of (_get_http_status_code_id (PInt 200)) Samples.w0 = Return (PInt 200).
Proof. split; reflexivity. Qed.

Example status_code_unparseable :
  _get_http_status_code_id (PStr "OK") Samples.w0 =
    (Samples.w0, [EvPrint (MsgStatusCodeError (PStr "OK") ValueError)], Return PNone).
Proof. reflexivity. Qed.

(** [int] does not skip the separator with code 28 (nor 29, 30, 31): the
    text is unparseable, although [str.isspace] accepts the character.  It
    does skip a no-break space (code 160). *)
Example status_code_separator :
  _get_http_status_code_id (PStr (String (ascii_of_N 28) "7")) Samples.w0 =
    (Samples.w0,
     [EvPrint (MsgStatusCodeError (PStr (String (ascii_of_N 28) "7")) ValueError)],
     Return PNone) /\
  py_int (PStr (String (ascii_of_N 31) "200")) = Raise ValueError /\
  py_int (PStr ("200" ++ String (ascii_of_N 29) EmptyString)%string) = Raise ValueError /\
  py_int (PStr (String (ascii_of_N 160) "7")) = Return 7.
Proof. repeat split. Qed.

(** A literal of 4300 digits is converted, one of 4301 digits is not. *)
Example status_code_digit_limit :
  (exists z, py_int (PStr (Samples.copies 4300 "7")) = Return z) /\
  py_int (PStr (Samples.copies 4301 "7")) = Raise ValueError /\
  result_of (_get_http_status_code_id (PStr (Samples.copies 4301 "7"))) Samples.w0
    = Return PNone.
Proof.
  split; [eexists; vm_compute; reflexivity|].
  split; vm_compute; reflexivity.
Qed.

(** A connection lost at the commit of an auto-provisioned error source:
    the resolver prints and returns [None]. *)
Example resolver_failure_sample :
  let w := MemDB.world (MemDB.set_faults MemDB.seeded [false; false; true]) 0 in
  result_of (resolve MemDB.driver ErrorSourceID (PStr "Gateway")) w = Return PNone /\
  existsb failed (trace_of (resolve MemDB.driver ErrorSourceID (PStr "Gateway")) w) = true /\
  existsb is_print (trace_of (resolve MemDB.driver ErrorSourceID (PStr "Gateway")) w) = true.
Proof. repeat split. Qed.

(** C2 as stated fails on an empty payload: the empty string has at most
    100,000 characters and the empty [dict] serializes to ['{}'], yet the
    record gets no [request_payload] field for either. *)
Lemma empty_request_payload_is_dropped :
  str_len "" <= 100000 /\
  (exists log_data,
     log_excalibur_request Json.dumps 1700000000 (Samples.request_with (PStr ""))
       = Return log_data /\
     dict_find log_data "request_payload" = None) /\
  Json.dumps [] = Return "{}" /\
  (exists log_data,
     log_excalibur_request Json.dumps 1700000000 (Samples.request_with (PDict []))
       = Return log_data /\
     dict_find log_data "request_payload" = None).
Proof.
  split; [unfold str_len; simpl; lia|].
  split; [eexists; split; reflexivity|].
  split; [reflexivity|].
  eexists; split; reflexivity.
Qed.

(** A short text is stored as it is, and a [dict] as its JSON text. *)
Lemma request_payload_sample :
  kwargs_ok request_param_names [] = true /\
  (exists log_data,
     log_excalibur_request Json.dumps 1700000000 (Samples.request_with (PStr "hello"))
       = Return log_data /\
     dict_find log_data "request_payload" = Some (PStr "hello")) /\
  (exists log_data,
     log_excalibur_request Json.dumps 1700000000
       (Samples.request_with (PDict [("MatterID", PInt 207)])) = Return log_data /\
     dict_find log_data "request_payload" =
       Some (PStr ("{" ++ Json.quote "MatterID" ++ ": 207}")%string)).
Proof.
  assert (Hk : kwargs_ok request_param_names [] = true) by reflexivity.
  split; [exact Hk|]. split.
  - destruct (request_payload_truncation Json.dumps 1700000000
                (Samples.request_with (PStr "hello")) Hk) as [H _].
    destruct (H "hello" eq_refl (or_introl eq_refl)) as (ld & E & _ & Hshort).
    exists ld. split; [exact E|]. apply Hshort. unfold str_len. simpl. lia.
  - destruct (request_payload_truncation Json.dumps 1700000000
                (Samples.request_with (PDict [("MatterID", PInt 207)])) Hk) as [H _].
    destruct (H ("{" ++ Json.quote "MatterID" ++ ": 207}")%string eq_refl
                (or_intror (ex_intro _ [("MatterID", PInt 207)] (conj eq_refl eq_refl))))
      as (ld & E & _ & Hshort).
    exists ld. split; [exact E|]. apply Hshort. unfold str_len. simpl. lia.
Defined.

(** Status 200 with no exception gives success [True]; status 500 with
    [exception_thrown=True] gives [False]. *)
Lemma success_inferred_sample :
  rs_is_success (Samples.response_with (PInt 200) PNone (PBool false)) = PNone /\
  (exists log_data,
     log_excalibur_response Json.dumps Samples.loads 1700000000
       (Samples.response_with (PInt 200) PNone (PBool false)) = Return log_data /\
     dict_find log_data "is_success" = Some (PBool true)) /\
  (exists log_data,
     log_excalibur_response Json.dumps Samples.loads 1700000000
       (Samples.response_with (PInt 500) PNone (PBool true)) = Return log_data /\
     dict_find log_data "is_success" = Some (PBool false)).
Proof.
  split; [reflexivity|]. split.
  - assert (E : exists ld,
              log_excalibur_response Json.dumps Samples.loads 1700000000
                (Samples.response_with (PInt 200) PNone (PBool false)) = Return ld)
      by (eexists; reflexivity).
    destruct E as [ld E]. exists ld. split; [exact E|].
    exact (proj1 (success_is_inferred Json.dumps Samples.loads 1700000000
                    (Samples.response_with (PInt 200) PNone (PBool false))
                    ld eq_refl eq_refl E)).
  - assert (E : exists ld,
              log_excalibur_response Json.dumps Samples.loads 1700000000
                (Samples.response_with (PInt 500) PNone (PBool true)) = Return ld)
      by (eexists; reflexivity).
    destruct E as [ld E]. exists ld. split; [exact E|].
    exact (proj1 (success_is_inferred Json.dumps Samples.loads 1700000000
                    (Samples.response_with (PInt 500) PNone (PBool true))
                    ld eq_refl eq_refl E)).
Defined.

(** The footer of the payload overrides the argument: status 200 with a
    footer that reports an exception is not a success. *)
Example footer_overrides_exception_thrown :
  extract Samples.loads
    (Samples.response_with (PInt 200) Samples.footer_envelope (PBool false)) =
    {| response_message := PStr "Import failed";
       exception_thrown := PBool true;
       exception_message := PStr "Matter not found" |} /\
  exists log_data,
    log_excalibur_response Json.dumps Samples.loads 1700000000
      (Samples.response_with (PInt 200) Samples.footer_envelope (PBool false))
      = Return log_data /\
    dict_find log_data "is_success" = Some (PBool false).
Proof. split; [reflexivity|]. eexists. split; reflexivity. Qed.

(** A status code given as text is not equal to 200. *)
Example text_status_is_not_success :
  exists log_data,
    log_excalibur_response Json.dumps Samples.loads 1700000000
      (Samples.response_with (PStr "200") PNone (PBool false)) = Return log_data /\
    dict_find log_data "is_success" = Some (PBool false).
Proof. eexists. split; reflexivity. Qed.



(** Other failures inside the block: a payload that parses to a text
    containing the key, a list, a number. *)
Example extraction_type_errors :
  snd (extract_body Samples.loads (PList [PStr "EnvelopeBody"])
         (locals_before (Samples.response_with (PInt 200) PNone (PBool false))))
    = Raise TypeError /\
  snd (extract_body Samples.loads (PInt 7)
         (locals_before (Samples.response_with (PInt 200) PNone (PBool false))))
    = Raise TypeError /\
  snd (extract_body Samples.loads (PDict [("EnvelopeBody", PList [PStr "x"])])
         (locals_before (Samples.response_with (PInt 200) PNone (PBool false))))
    = Raise AttributeError.
Proof. repeat split. Qed.

Lemma copies_length (n : nat) (c : ascii) : String.length (Samples.copies n c) = n.
Proof. induction n; simpl; auto. Qed.

Lemma copies_take (k n : nat) (c : ascii) :
  (k <= n)%nat -> String.substring 0 k (Samples.copies n c) = Samples.copies k c.
Proof.
  revert n. induction k as [|k IH]; intros [|n] H; simpl; auto; try lia.
  f_equal. apply IH. lia.
Qed.

(** A payload of [n] > 100,000 characters is stored as 100,000 of them and
    the marker. *)
Lemma long_payload_is_truncated (n : nat) :
  100000 < Z.of_nat n ->
  exists log_data,
    log_excalibur_request Json.dumps 1700000000
      (Samples.request_with (PStr (Samples.copies n "x"))) = Return log_data /\
    dict_find log_data "request_payload" =
      Some (PStr (Samples.copies (Z.to_nat 100000) "x" ++ "... [truncated]")%string).
Proof.
  intros Hn.
  assert (Ht : truthy (PStr (Samples.copies n "x")) = true).
  { apply truthy_str. intros H. apply (f_equal String.length) in H.
    rewrite copies_length in H. change (String.length "") with 0%nat in H. lia. }
  destruct (request_payload_of_text Json.dumps 1700000000
              (Samples.request_with (PStr (Samples.copies n "x")))
              (Samples.copies n "x") Ht eq_refl (or_introl eq_refl)) as (ld & E & Hs).
  exists ld. split; [exact E|].
  assert (Hlong : (100000 <? str_len (Samples.copies n "x")) = true).
  { apply Z.ltb_lt. unfold str_len. rewrite copies_length. lia. }
  rewrite Hlong in Hs. rewrite Hs.
  unfold str_take. rewrite copies_take by lia. reflexivity.
Qed.

(** The scenario of 150,000 characters. *)
Example payload_of_150000_characters :
  exists log_data,
    log_excalibur_request Json.dumps 1700000000
      (Samples.request_with (PStr (Samples.copies (Z.to_nat 150000) "x")))
      = Return log_data /\
    dict_find log_data "request_payload" =
      Some (PStr (Samples.copies (Z.to_nat 100000) "x" ++ "... [truncated]")%string).
Proof. apply long_payload_is_truncated. lia. Qed.

(** End to end: a response with status 200 and no exception is persisted
    with success flag 1 and the sentinel error source; one with status 500
    and [exception_thrown=True] with success flag 0. *)
Example response_is_persisted :
  exists log_data p,
    log_excalibur_response Json.dumps Samples.loads 1700000000
      (Samples.response_with (PInt 200) PNone (PBool false)) = Return log_data /\
    MemDB.APICall (db (fst (fst (_insert_log MemDB.driver log_data Samples.w0)))) = [p] /\
    dict_find p "is_success" = Some (PInt 1) /\
    dict_find p "error_source_id" = Some (PInt 5) /\
    dict_find p "http_status_code_id" = Some (PInt 200).
Proof. eexists _, _. repeat split; reflexivity. Qed.

Example failed_response_is_persisted :
  exists log_data p,
    log_excalibur_response Json.dumps Samples.loads 1700000000
      (Samples.response_with (PInt 500) PNone (PBool true)) = Return log_data /\
    MemDB.APICall (db (fst (fst (_insert_log MemDB.driver log_data Samples.w0)))) = [p] /\
    dict_find p "is_success" = Some (PInt 0) /\
    dict_find p "error_source_id" = Some (PInt 5).
Proof. eexists _, _. repeat split; reflexivity. Qed.


(* ================================================================== *)
(** * Further properties of the writer *)
(* ================================================================== *)

Section WriterShape.
Context {DB : Type}.
Variable drv : Driver DB.

(** The three ways [write_row] can go: slicing the message raises and
    nothing is executed; the INSERT raises; the INSERT returns and the
    commit decides the outcome. *)
Lemma write_row_shape (ld : dict) (mid sid eid envid fid : PyVal) (w : World DB) :
  match stored_message ld with
  | Raise e => write_row drv ld mid sid eid envid fid w = (w, [], Raise e)
  | Return msg =>
      let p := insert_params ld mid sid eid envid fid msg (PDateTime (clock w)) in
      match execute drv InsertAPICall p (db w) with
      | (d, Raise e) =>
          write_row drv ld mid sid eid envid fid w =
            ({| db := d; clock := clock w |}, [EvExecute InsertAPICall p (Raise e)], Raise e)
      | (d, Return x) =>
          write_row drv ld mid sid eid envid fid w =
            ({| db := fst (commit drv d); clock := clock w |},
             [EvExecute InsertAPICall p (Return x); EvCommit (snd (commit drv d))],
             snd (commit drv d))
      end
  end.
Proof.
  unfold stored_message, write_row, bind, conn_execute, conn_commit, with_db,
    datetime_now, lift, ret.
  destruct (truthy (dict_get ld "exception_message")).
  - destruct (py_slice_to 500 (dict_get_or ld "exception_message" (PStr "")))
      as [msg|e]; simpl; auto.
    destruct (execute drv InsertAPICall _ (db w)) as [d [x|e]]; simpl; auto.
    destruct (commit drv d) as [d' rc]; reflexivity.
  - simpl.
    destruct (execute drv InsertAPICall _ (db w)) as [d [x|e]]; simpl; auto.
    destruct (commit drv d) as [d' rc]; reflexivity.
Qed.

(** One run of [_insert_log], piece by piece. *)
Lemma insert_log_shape (ld : dict) (w : World DB) :
  (exists d e,
     connect drv (db w) = (d, Raise e) /\
     _insert_log drv ld w =
       ({| db := d; clock := clock w |},
        [EvConnect (Raise e); EvPrint (MsgInsertError e)], Return tt)) \/
  (exists d w1 t1 mid w2 t2 sid w3 t3 eid w4 t4 envid w5 t5 fid w6 t6 r6 d7 rc,
     connect drv (db w) = (d, Return tt) /\
     _get_http_method_id drv (dict_get_or ld "http_method" (PStr "POST"))
       {| db := d; clock := clock w |} = (w1, t1, Return mid) /\
     _get_http_status_code_id (dict_get ld "http_status_code") w1 = (w2, t2, Return sid) /\
     _get_error_source_id drv (dict_get ld "error_source") w2 = (w3, t3, Return eid) /\
     _get_environment_id drv (dict_get_or ld "environment" (PStr "Dev")) w3
       = (w4, t4, Return envid) /\
     _get_file_type_id drv (dict_get ld "file_type") w4 = (w5, t5, Return fid) /\
     write_row drv ld mid sid (if is_none eid then PInt 5 else eid) envid
       (if is_none fid then PInt 49 else fid) w5 = (w6, t6, r6) /\
     close drv (db w6) = (d7, rc) /\
     _insert_log drv ld w =
       ({| db := d7; clock := clock w6 |},
        (EvConnect (Return tt) :: (t1 ++ t2 ++ t3 ++ t4 ++ t5 ++ t6) ++ [EvClose rc]) ++
        match (match rc with Return _ => r6 | Raise e => Raise e end) with
        | Return _ => []
        | Raise e => [EvPrint (MsgInsertError e)]
        end,
        Return tt)).
Proof.
  destruct (_insert_log drv ld w) as [[w' t] r] eqn:E.
  unfold _insert_log, try_except, with_connection in E.
  unfold bind at 1 in E. unfold with_db at 1 in E.
  destruct (connect drv (db w)) as [d [[]|e]] eqn:Ec; simpl in E.
  2:{ left. exists d, e. split; [reflexivity|]. now inversion E. }
  right.
  destruct (resolver_run drv HttpMethodID (dict_get_or ld "http_method" (PStr "POST"))
              {| db := d; clock := clock w |}) as (w1 & t1 & mid & E1 & _).
  simpl in E1. rewrite (bind_returns _ _ _ _ _ _ E1) in E.
  destruct (resolver_run drv HttpStatusCodeID (dict_get ld "http_status_code") w1)
    as (w2 & t2 & sid & E2 & _).
  simpl in E2. rewrite (bind_returns _ _ _ _ _ _ E2) in E.
  destruct (resolver_run drv ErrorSourceID (dict_get ld "error_source") w2)
    as (w3 & t3 & eid & E3 & _).
  simpl in E3. rewrite (bind_returns _ _ _ _ _ _ E3) in E.
  destruct (resolver_run drv EnvironmentID (dict_get_or ld "environment" (PStr "Dev")) w3)
    as (w4 & t4 & envid & E4 & _).
  simpl in E4. rewrite (bind_returns _ _ _ _ _ _ E4) in E.
  destruct (resolver_run drv FileTypeID (dict_get ld "file_type") w4)
    as (w5 & t5 & fid & E5 & _).
  simpl in E5. rewrite (bind_returns _ _ _ _ _ _ E5) in E.
  change (bind _ _ w5) with
    (write_row drv ld mid sid (if is_none eid then PInt 5 else eid) envid
       (if is_none fid then PInt 49 else fid) w5) in E.
  destruct (write_row drv ld mid sid (if is_none eid then PInt 5 else eid) envid
              (if is_none fid then PInt 49 else fid) w5) as [[w6 t6] r6] eqn:E6.
  unfold with_db in E. destruct (close drv (db w6)) as [d7 rc] eqn:E7. simpl in E.
  exists d, w1, t1, mid, w2, t2, sid, w3, t3, eid, w4, t4, envid, w5, t5, fid,
    w6, t6, r6, d7, rc.
  repeat (split; [assumption || reflexivity|]).
  destruct rc as [[]|?], r6 as [[]|?]; inversion E; subst;
    rewrite ?app_nil_r; reflexivity.
Qed.

End WriterShape.


Section WriterFacts.
Context {DB : Type}.
Variable drv : Driver DB.

Lemma count_inserts_app (a b : list event) :
  count_inserts (a ++ b) = (count_inserts a + count_inserts b)%nat.
Proof. unfold count_inserts. now rewrite filter_app, length_app. Qed.

(** What a resolver's run is known to emit, read off its equation. *)
Lemma resolver_facts (r : resolver) (v : PyVal) (w w' : World DB) t id :
  resolve drv r v w = (w', t, Return id) ->
  forallb (resolver_event r) t = true /\
  (truthy v = false -> r <> EnvironmentID -> id = PNone /\ t = []).
Proof.
  intros E. destruct (resolver_run drv r v w) as (w1 & t1 & id1 & E1 & F & N).
  rewrite E in E1. inversion E1; subst. auto.
Qed.

Lemma resolver_no_insert (r : resolver) (t : list event) :
  forallb (resolver_event r) t = true -> count_inserts t = 0%nat.
Proof.
  unfold count_inserts. induction t as [|ev t IH]; simpl; auto.
  intros H. apply andb_true_iff in H as [H1 H2].
  destruct ev as [| s p res | | |]; simpl in *; auto.
  destruct s; simpl in *; auto. destruct r; discriminate.
Qed.

(** [write_row] issues the INSERT once, or not at all when the message
    cannot be sliced. *)
Lemma write_row_count (ld : dict) (mid sid eid envid fid : PyVal) (w : World DB) :
  count_inserts (trace_of (write_row drv ld mid sid eid envid fid) w) =
    match stored_message ld with Return _ => 1%nat | Raise _ => 0%nat end.
Proof.
  pose proof (write_row_shape drv ld mid sid eid envid fid w) as H.
  unfold trace_of. destruct (stored_message ld) as [msg|e].
  - cbv zeta in H.
    destruct (execute drv InsertAPICall _ (db w)) as [d [x|e]]; rewrite H; reflexivity.
  - rewrite H. reflexivity.
Qed.

(** The number of INSERTs into the event table one call issues. *)
Lemma insert_log_count (ld : dict) (w : World DB) :
  count_inserts (trace_of (_insert_log drv ld) w) =
    match snd (connect drv (db w)), stored_message ld with
    | Return _, Return _ => 1%nat
    | _, _ => 0%nat
    end.
Proof.
  unfold trace_of.
  destruct (insert_log_shape drv ld w)
    as [(d & e & Ec & E) |
        (d & w1 & t1 & mid & w2 & t2 & sid & w3 & t3 & eid & w4 & t4 & envid &
         w5 & t5 & fid & w6 & t6 & r6 & d7 & rc & Ec & E1 & E2 & E3 & E4 & E5 &
         E6 & E7 & E)];
    rewrite E, Ec; simpl; [reflexivity|].
  change (count_inserts (((t1 ++ t2 ++ t3 ++ t4 ++ t5 ++ t6) ++ [EvClose rc]) ++
            match (match rc with Return _ => r6 | Raise e => Raise e end) with
            | Return _ => []
            | Raise e => [EvPrint (MsgInsertError e)]
            end) =
          match stored_message ld with Return _ => 1%nat | Raise _ => 0%nat end).
  rewrite !count_inserts_app.
  rewrite (resolver_no_insert HttpMethodID t1)
    by exact (proj1 (resolver_facts HttpMethodID _ _ _ _ _ E1)).
  rewrite (resolver_no_insert HttpStatusCodeID t2)
    by exact (proj1 (resolver_facts HttpStatusCodeID _ _ _ _ _ E2)).
  rewrite (resolver_no_insert ErrorSourceID t3)
    by exact (proj1 (resolver_facts ErrorSourceID _ _ _ _ _ E3)).
  rewrite (resolver_no_insert EnvironmentID t4)
    by exact (proj1 (resolver_facts EnvironmentID _ _ _ _ _ E4)).
  rewrite (resolver_no_insert FileTypeID t5)
    by exact (proj1 (resolver_facts FileTypeID _ _ _ _ _ E5)).
  pose proof (write_row_count ld mid sid (if is_none eid then PInt 5 else eid) envid
                (if is_none fid then PInt 49 else fid) w5) as Hc.
  unfold trace_of in Hc. rewrite E6 in Hc. simpl in Hc. rewrite Hc.
  assert (Hz : count_inserts
                 match (match rc with Return _ => r6 | Raise e => Raise e end) with
                 | Return _ => []
                 | Raise e => [EvPrint (MsgInsertError e)]
                 end = 0%nat).
  { destruct rc as [[]|?], r6 as [[]|?]; reflexivity. }
  rewrite Hz. change (count_inserts [EvClose rc]) with 0%nat.
  destruct (stored_message ld); reflexivity.
Qed.

Lemma insert_log_count_le (ld : dict) (w : World DB) :
  (count_inserts (trace_of (_insert_log drv ld) w) <= 1)%nat.
Proof.
  rewrite insert_log_count.
  destruct (snd (connect drv (db w))), (stored_message ld); lia.
Qed.


(** X2.  When [engine.connect()] raises, [_insert_log] executes no
    statement at all, prints the error once and returns: the record is
    dropped. *)
Theorem connection_failure_drops_record (ld : dict) (w : World DB) (d : DB) (e : exn) :
  connect drv (db w) = (d, Raise e) ->
  _insert_log drv ld w =
    ({| db := d; clock := clock w |},
     [EvConnect (Raise e); EvPrint (MsgInsertError e)], Return tt).
Proof.
  intros Hc.
  destruct (insert_log_shape drv ld w) as [(d' & e' & Ec & E) | (d' & H)].
  - rewrite Hc in Ec. inversion Ec; subst. exact E.
  - destruct H as (? & ? & ? & ? & ? & ? & ? & ? & ? & ? & ? & ? & ? & ? & ? & ? &
                   ? & ? & ? & ? & Ec & _).
    rewrite Hc in Ec. discriminate.
Qed.

Lemma unsliceable_message (ld : dict) (m : PyVal) :
  dict_get ld "exception_message" = m -> truthy m = true ->
  match m with PStr _ | PList _ => False | _ => True end ->
  stored_message ld = Raise TypeError.
Proof.
  intros Hm Ht Hk. unfold stored_message. rewrite Hm, Ht.
  assert (Hg : dict_get_or ld "exception_message" (PStr "") = m).
  { unfold dict_get, dict_get_or in *.
    destruct (dict_find ld "exception_message"); [assumption|].
    subst m. discriminate. }
  rewrite Hg. destruct m; simpl in *; try reflexivity; contradiction.
Qed.

(** X3.  A record whose exception message is a truthy value that cannot be
    sliced (a number, [True], a [dict], a [datetime]) is never inserted:
    the exception the slice raises is caught by [_insert_log], which issues
    no INSERT into the event table and prints a database insert error. *)
Theorem unsliceable_message_drops_record (ld : dict) (w : World DB) (m : PyVal) :
  dict_get ld "exception_message" = m -> truthy m = true ->
  match m with PStr _ | PList _ => False | _ => True end ->
  result_of (_insert_log drv ld) w = Return tt /\
  count_inserts (trace_of (_insert_log drv ld) w) = 0%nat /\
  exists e, In (EvPrint (MsgInsertError e)) (trace_of (_insert_log drv ld) w).
Proof.
  intros Hm Ht Hk.
  pose proof (unsliceable_message ld m Hm Ht Hk) as Hs.
  split; [apply _insert_log_returns|]. split.
  - rewrite insert_log_count, Hs. now destruct (snd (connect drv (db w))).
  - unfold trace_of.
    destruct (insert_log_shape drv ld w)
      as [(d & e & Ec & E) |
          (d & w1 & t1 & mid & w2 & t2 & sid & w3 & t3 & eid & w4 & t4 & envid &
           w5 & t5 & fid & w6 & t6 & r6 & d7 & rc & Ec & E1 & E2 & E3 & E4 & E5 &
           E6 & E7 & E)]; rewrite E; simpl.
    + exists e. right. now left.
    + pose proof (write_row_shape drv ld mid sid (if is_none eid then PInt 5 else eid)
                    envid (if is_none fid then PInt 49 else fid) w5) as Hw.
      rewrite Hs, E6 in Hw. inversion Hw; subst.
      destruct rc as [[]|e'].
      * exists TypeError. right. apply in_or_app. right. now left.
      * exists e'. right. apply in_or_app. right. now left.
Qed.

(** X4.  [log_api_call] stamps a record that has no [created_at] with the
    clock at submission, and keeps a [created_at] the record already has;
    every INSERT issued for the stamped record binds that value as
    [date_created], whatever the clock reads when the worker writes it. *)
Theorem date_created_is_submission_time (ld : dict) (submitted_at : Z) (w : World DB)
    (p : dict) (r : outcome (option PyVal)) :
  In (EvExecute InsertAPICall p r)
     (trace_of (_insert_log drv (stamp submitted_at ld)) w) ->
  dict_find p "date_created" =
    Some (match dict_find ld "created_at" with
          | Some v => v
          | None => PDateTime submitted_at
          end).
Proof.
  intros Hin.
  destruct (insert_log_run drv (stamp submitted_at ld) w)
    as (mid & sid & eid & envid & fid & _ & _ & _ & _ & _ & Hp & _).
  destruct (Hp p r Hin) as (msg & now & _ & ->).
  unfold insert_params. simpl. f_equal.
  unfold stamp, dict_get_or.
  destruct (dict_find ld "created_at") as [v|] eqn:E.
  - now rewrite E.
  - now rewrite dict_find_set_same.
Qed.

(** X5.  [_insert_log] reads seventeen keys of a record and nothing else:
    setting any other key (a payload, a session id, a response message)
    changes neither what is executed nor what is written. *)
Theorem writer_ignores_other_keys (ld : dict) (k : string) (v : PyVal) (w : World DB) :
  ~ In k writer_keys ->
  _insert_log drv (dict_set ld k v) w = _insert_log drv ld w.
Proof.
  intros H.
  assert (Hne : forall k', In k' writer_keys -> k <> k').
  { intros k' Hin ->. contradiction. }
  unfold _insert_log, insert_params, dict_get, dict_get_or.
  rewrite !dict_find_set_other
    by (apply Hne; unfold writer_keys; simpl;
        repeat (first [left; reflexivity | right]); fail).
  reflexivity.
Qed.

Lemma write_row_statement (ld : dict) (mid sid eid envid fid : PyVal) (w : World DB)
    s p r :
  In (EvExecute s p r) (trace_of (write_row drv ld mid sid eid envid fid) w) ->
  s = InsertAPICall.
Proof.
  intros H. apply (writer_tail_run drv ld mid sid eid envid fid w) in H. tauto.
Qed.

(** X6.  For a record with no error source and no file type the
    auto-provisioned reference tables are never touched: the only
    statements [_insert_log] executes are the method lookup, the
    environment lookup with its alias, and the INSERT into the event
    table. *)
Theorem plain_record_touches_no_reference_table (ld : dict) (w : World DB)
    (s : stmt) (p : dict) (r : outcome (option PyVal)) :
  truthy (dict_get ld "error_source") = false ->
  truthy (dict_get ld "file_type") = false ->
  In (EvExecute s p r) (trace_of (_insert_log drv ld) w) ->
  s = SelectHttpMethod \/ s = SelectEnvironment \/
  s = SelectEnvironmentDevelopment \/ s = InsertAPICall.
Proof.
  intros Hes Hft. unfold trace_of.
  destruct (insert_log_shape drv ld w)
    as [(d & e & Ec & E) |
        (d & w1 & t1 & mid & w2 & t2 & sid & w3 & t3 & eid & w4 & t4 & envid &
         w5 & t5 & fid & w6 & t6 & r6 & d7 & rc & Ec & E1 & E2 & E3 & E4 & E5 &
         E6 & E7 & E)]; rewrite E; simpl.
  - intros [H|[H|[]]]; discriminate.
  - destruct (resolver_facts HttpMethodID _ _ _ _ _ E1) as [F1 _].
    destruct (resolver_facts HttpStatusCodeID _ _ _ _ _ E2) as [F2 _].
    destruct (resolver_facts ErrorSourceID _ _ _ _ _ E3) as [_ N3].
    destruct (resolver_facts EnvironmentID _ _ _ _ _ E4) as [F4 _].
    destruct (resolver_facts FileTypeID _ _ _ _ _ E5) as [_ N5].
    destruct (N3 Hes) as [_ ->]; [discriminate|].
    destruct (N5 Hft) as [_ ->]; [discriminate|].
    intros [H|H]; [discriminate|].
    rewrite !in_app_iff in H. simpl in H.
    destruct H as [[[H|[H|[H|[H|[H|H]]]]]|[H|[]]]|H]; try discriminate;
      try contradiction.
    + apply (resolver_event_own _ _ _ _ _ F1) in H. destruct s; try discriminate; auto.
    + apply (resolver_event_own _ _ _ _ _ F2) in H. destruct s; discriminate.
    + apply (resolver_event_own _ _ _ _ _ F4) in H. destruct s; try discriminate; auto.
    + assert (Ht : trace_of (write_row drv ld mid sid (if is_none eid then PInt 5 else eid)
                               envid (if is_none fid then PInt 49 else fid)) w5 = t6)
        by (unfold trace_of; now rewrite E6).
      rewrite <- Ht in H. apply write_row_statement in H. auto.
    + destruct rc as [[]|?], r6 as [[]|?]; simpl in H;
        try contradiction; destruct H as [H|[]]; discriminate.
Qed.

Lemma resolver_no_session (r : resolver) (t : list event) :
  forallb (resolver_event r) t = true -> existsb is_session t = false.
Proof.
  induction t as [|ev t IH]; simpl; auto.
  intros H. apply andb_true_iff in H as [H1 H2].
  rewrite (IH H2). destruct ev; simpl in *; auto; discriminate.
Qed.

(** X23.  Whenever the connection opens it is closed exactly once, after
    everything else the call does on it, also when a lookup, the INSERT or
    the commit raises: between the connect and the close no connection is
    opened or closed, and after the close the call only prints. *)
Theorem connection_is_closed_once (ld : dict) (w : World DB) (d : DB) :
  connect drv (db w) = (d, Return tt) ->
  exists body rc tail,
    trace_of (_insert_log drv ld) w =
      EvConnect (Return tt) :: body ++ EvClose rc :: tail /\
    existsb is_session body = false /\
    forallb is_print tail = true.
Proof.
  intros Hc. unfold trace_of.
  destruct (insert_log_shape drv ld w)
    as [(d' & e & Ec & E) |
        (d' & w1 & t1 & mid & w2 & t2 & sid & w3 & t3 & eid & w4 & t4 & envid &
         w5 & t5 & fid & w6 & t6 & r6 & d7 & rc & Ec & E1 & E2 & E3 & E4 & E5 &
         E6 & E7 & E)].
  - rewrite Hc in Ec. discriminate.
  - rewrite E. simpl.
    exists (t1 ++ t2 ++ t3 ++ t4 ++ t5 ++ t6), rc,
      (match (match rc with Return _ => r6 | Raise e => Raise e end) with
       | Return _ => []
       | Raise e => [EvPrint (MsgInsertError e)]
       end).
    split; [now rewrite <- app_assoc|]. split.
    + rewrite !existsb_app.
      rewrite (resolver_no_session HttpMethodID t1)
        by exact (proj1 (resolver_facts HttpMethodID _ _ _ _ _ E1)).
      rewrite (resolver_no_session HttpStatusCodeID t2)
        by exact (proj1 (resolver_facts HttpStatusCodeID _ _ _ _ _ E2)).
      rewrite (resolver_no_session ErrorSourceID t3)
        by exact (proj1 (resolver_facts ErrorSourceID _ _ _ _ _ E3)).
      rewrite (resolver_no_session EnvironmentID t4)
        by exact (proj1 (resolver_facts EnvironmentID _ _ _ _ _ E4)).
      rewrite (resolver_no_session FileTypeID t5)
        by exact (proj1 (resolver_facts FileTypeID _ _ _ _ _ E5)).
      simpl.
      pose proof (write_row_shape drv ld mid sid (if is_none eid then PInt 5 else eid)
                    envid (if is_none fid then PInt 49 else fid) w5) as Hw.
      destruct (stored_message ld); cbv zeta in Hw.
      * destruct (execute drv InsertAPICall _ (db w5)) as [? [?|?]];
          rewrite Hw in E6; inversion E6; reflexivity.
      * rewrite Hw in E6; inversion E6; reflexivity.
    + destruct rc as [[]|?], r6 as [[]|?]; reflexivity.
Qed.

End WriterFacts.


(* ================================================================== *)
(** * Further properties of the resolvers *)
(* ================================================================== *)

Section ResolverFacts.
Context {DB : Type}.
Variable drv : Driver DB.

Ltac events :=
  repeat split; intros;
  repeat match goal with
  | H : _ \/ _ |- _ => destruct H as [H|H]
  | H : False |- _ => contradiction
  | H : In _ _ |- _ => simpl in H
  | H : @eq event _ _ |- _ => first [discriminate H | inversion H; subst; clear H]
  end;
  try congruence;
  repeat split; simpl; try tauto;
  try (eexists; simpl; tauto).

(** X7.  The strict resolvers (http method, status code, environment)
    never write: whatever the value and whatever the driver answers, they
    execute no INSERT and no commit, so a value missing from the method or
    environment table stays missing. *)
Theorem strict_resolvers_never_write (r : resolver) (v : PyVal) (w : World DB) :
  strict r = true ->
  existsb writes (trace_of (resolve drv r v) w) = false.
Proof.
  intros Hs. destruct r; try discriminate; unfold resolve, trace_of.
  - unfold _get_http_method_id, try_except, bind, conn_execute, with_db, print, ret.
    destruct (truthy v); simpl; auto. run_driver; reflexivity.
  - unfold _get_http_status_code_id, try_except, bind, lift, ret, print.
    destruct (truthy v); simpl; auto. destruct (py_int v); reflexivity.
  - unfold _get_environment_id, try_except, bind, conn_execute, with_db, print, ret.
    set (environment := if negb (truthy v) then PStr "Dev" else v). clearbody environment.
    destruct (execute drv SelectEnvironment [("name", environment)] (db w))
      as [? [[id|]|?]]; simpl; auto.
    destruct (eq_str environment "Dev"); simpl; run_driver; reflexivity.
Qed.

(** X8.  The auto-provisioning resolvers (error source, file type) insert
    only after a lookup of the same value found no row, commit only after
    that INSERT returned, and return the key of the row a lookup found:
    a value already in the table is never inserted again. *)
Theorem provision_only_on_miss (v : PyVal) (w : World DB) :
  ((forall p res,
      In (EvExecute InsertErrorSource p res) (trace_of (_get_error_source_id drv v) w) ->
      p = [("source", v)] /\
      In (EvExecute SelectErrorSource [("source", v)] (Return None))
         (trace_of (_get_error_source_id drv v) w)) /\
   (forall rc,
      In (EvCommit rc) (trace_of (_get_error_source_id drv v) w) ->
      exists x, In (EvExecute InsertErrorSource [("source", v)] (Return x))
                   (trace_of (_get_error_source_id drv v) w)) /\
   (forall q id,
      In (EvExecute SelectErrorSource q (Return (Some id)))
         (trace_of (_get_error_source_id drv v) w) ->
      result_of (_get_error_source_id drv v) w = Return id)) /\
  ((forall p res,
      In (EvExecute InsertFileType p res) (trace_of (_get_file_type_id drv v) w) ->
      p = [("type", v)] /\
      In (EvExecute SelectFileType [("type", v)] (Return None))
         (trace_of (_get_file_type_id drv v) w)) /\
   (forall rc,
      In (EvCommit rc) (trace_of (_get_file_type_id drv v) w) ->
      exists x, In (EvExecute InsertFileType [("type", v)] (Return x))
                   (trace_of (_get_file_type_id drv v) w)) /\
   (forall q id,
      In (EvExecute SelectFileType q (Return (Some id)))
         (trace_of (_get_file_type_id drv v) w) ->
      result_of (_get_file_type_id drv v) w = Return id)).
Proof.
  split.
  - unfold trace_of, result_of, _get_error_source_id, try_except, bind, conn_execute,
      conn_commit, with_db, print, ret.
    destruct (truthy v); simpl; [|events].
    run_driver; events.
  - unfold trace_of, result_of, _get_file_type_id, try_except, bind, conn_execute,
      conn_commit, with_db, print, ret.
    destruct (truthy v); simpl; [|events].
    run_driver; events.
Qed.


End ResolverFacts.


(* ================================================================== *)
(** * Further properties of the record builders *)
(* ================================================================== *)


Lemma dict_find_not_key (d : dict) (k : string) :
  ~ In k (map fst d) -> dict_find d k = None.
Proof.
  induction d as [|[k0 v0] d IH]; simpl; auto.
  intros H. destruct (String.eqb k0 k) eqn:E.
  - apply String.eqb_eq in E. subst. tauto.
  - apply IH. tauto.
Qed.

(** [d.update(other)]: the keys of [other] take its values, the rest keep
    theirs. *)
Lemma dict_find_update (other d : dict) (k : string) :
  distinct_keys other ->
  dict_find (dict_update d other) k =
    match dict_find other k with Some v => Some v | None => dict_find d k end.
Proof.
  unfold dict_update, distinct_keys. revert d.
  induction other as [|[k0 v0] other IH]; intros d H; simpl in *; auto.
  inversion H as [|? ? Hnot Hrest]; subst.
  rewrite IH by assumption.
  destruct (String.eqb k0 k) eqn:E.
  - apply String.eqb_eq in E. subst k0.
    rewrite (dict_find_not_key _ _ Hnot). apply dict_find_set_same.
  - destruct (dict_find other k); auto.
    apply dict_find_set_other. intros ->. now rewrite String.eqb_refl in E.
Qed.

Section BuilderFacts.
Variable json_dumps : dict -> outcome string.
Variable json_loads : string -> outcome PyVal.

(** [log_excalibur_request] ends with [log_data.update(kwargs)]. *)
Lemma request_record_is_updated (now : Z) (a : RequestArgs) (ld : dict) :
  log_excalibur_request json_dumps now a = Return ld ->
  exists built, ld = dict_update built (rq_kwargs a) /\
    dict_find built "http_method" =
      Some (dict_get_or (rq_kwargs a) "http_method" (PStr "POST")) /\
    dict_find built "client_id" = Some (rq_client_id a) /\
    dict_find built "phone_number" = Some (rq_phone_number a) /\
    dict_find built "is_success" = None /\
    dict_find built "http_status_code" = None /\
    dict_find built "error_source" = None /\
    dict_find built "exception_message" = None /\
    dict_find built "client_phone_number" = None /\
    dict_find built "debtor_phone_number" = None.
Proof.
  unfold log_excalibur_request. intros H.
  destruct (truthy (rq_request_payload a)); simpl in H.
  - destruct (match rq_request_payload a with
              | PDict d => obind (json_dumps d) (fun s => Return (PStr s))
              | v => Return v
              end) as [payload|]; simpl in H; [|discriminate].
    destruct (py_len payload) as [size|]; simpl in H; [|discriminate].
    destruct (100000 <? size).
    + destruct (py_slice_to 100000 payload) as [head|]; simpl in H; [|discriminate].
      destruct (py_add_str head "... [truncated]") as [stored|]; simpl in H;
        [|discriminate].
      inversion H; subst. eexists. split; [reflexivity|]. repeat split.
    + inversion H; subst. eexists. split; [reflexivity|]. repeat split.
  - inversion H; subst. eexists. split; [reflexivity|]. repeat split.
Qed.

(** [log_excalibur_response] ends with [log_data.update(kwargs)]. *)
Lemma response_record_is_updated (now : Z) (a : ResponseArgs) (ld : dict) :
  log_excalibur_response json_dumps json_loads now a = Return ld ->
  exists built, ld = dict_update built (rs_kwargs a) /\
    dict_find built "http_method" = None /\
    dict_find built "is_success" =
      Some (if is_none (rs_is_success a)
            then py_and (PBool (eq_int (rs_http_status_code a) 200))
                        (py_not (exception_thrown (extract json_loads a)))
            else rs_is_success a) /\
    dict_find built "response_payload" =
      (if truthy (rs_response_payload a)
       then match rs_response_payload a with
            | PDict d => match json_dumps d with
                         | Return s => Some (PStr s)
                         | Raise _ => None
                         end
            | v => Some v
            end
       else None).
Proof.
  unfold log_excalibur_response. intros H.
  destruct (truthy (rs_response_payload a)); simpl in H.
  - destruct (rs_response_payload a); simpl in H;
      try (inversion H; subst; eexists; split; [reflexivity|]; repeat split; fail).
    destruct (json_dumps d); simpl in H; [|discriminate].
    inversion H; subst. eexists. split; [reflexivity|]. repeat split.
  - inversion H; subst. eexists. split; [reflexivity|]. repeat split.
Qed.


(** X11.  Both builders end with [log_data.update(kwargs)]: every extra
    keyword reaches the record with the value passed, replacing the
    builder's own field of that name when there is one. *)
Theorem kwargs_reach_the_record (now : Z) (k : string) (v : PyVal) :
  (forall a log_data,
     distinct_keys (rq_kwargs a) -> dict_find (rq_kwargs a) k = Some v ->
     log_excalibur_request json_dumps now a = Return log_data ->
     dict_find log_data k = Some v) /\
  (forall a log_data,
     distinct_keys (rs_kwargs a) -> dict_find (rs_kwargs a) k = Some v ->
     log_excalibur_response json_dumps json_loads now a = Return log_data ->
     dict_find log_data k = Some v).
Proof.
  split; intros a ld Hd Hk H.
  - destruct (request_record_is_updated now a ld H) as (built & -> & _).
    rewrite dict_find_update by assumption. now rewrite Hk.
  - destruct (response_record_is_updated now a ld H) as (built & -> & _).
    rewrite dict_find_update by assumption. now rewrite Hk.
Qed.

(** X12.  [log_excalibur_request] raises into its caller, with nothing
    handed to the queue: when [get_api_logger()] raises, whatever the
    arguments; and, with the logger there, when the payload is a truthy
    value that has no length (a number, [True], a [datetime]) or a list of
    more than 100,000 elements ([TypeError]), or a non-empty [dict] on
    which [json.dumps] raises. *)
Theorem request_builder_raises (logger : outcome unit) (now : Z) (a : RequestArgs) :
  (forall e, logger = Raise e -> request_call json_dumps logger now a = Raise e) /\
  (logger = Return tt ->
   truthy (rq_request_payload a) = true -> unsized_or_long (rq_request_payload a) ->
   request_call json_dumps logger now a = Raise TypeError) /\
  (forall d e,
     logger = Return tt ->
     rq_request_payload a = PDict d -> d <> [] -> json_dumps d = Raise e ->
     request_call json_dumps logger now a = Raise e).
Proof.
  unfold request_call. split; [|split].
  - intros e ->. reflexivity.
  - intros -> Ht Hu. simpl. unfold log_excalibur_request, unsized_or_long in *.
    rewrite Ht.
    destruct (rq_request_payload a) as [|b|z|s|l|d|t];
      cbv beta iota delta [truthy py_len obind py_slice_to py_add_str] in *;
      try contradiction; try reflexivity.
    apply Z.ltb_lt in Hu. now rewrite Hu.
  - intros d e -> Hp Hd He. simpl. unfold log_excalibur_request.
    rewrite Hp. destruct d as [|x d]; [now elim Hd|].
    simpl. now rewrite He.
Qed.

(** X13.  A non-empty [EnvelopeBody] wins over the footer: the message is
    the [ResultMessage] of its first element, and [exception_thrown] and
    [exception_message] stay as the caller passed them even when the
    envelope also has an [EnvelopeFooter] that reports an exception. *)
Theorem envelope_body_wins (a : ResponseArgs) (envelope first : dict)
    (rest : list PyVal) :
  truthy (rs_response_payload a) = true ->
  parse_payload json_loads (rs_response_payload a) = Return (PDict envelope) ->
  dict_find envelope "EnvelopeBody" = Some (PList (PDict first :: rest)) ->
  extract json_loads a =
    {| response_message := dict_get first "ResultMessage";
       exception_thrown := rs_exception_thrown a;
       exception_message := rs_exception_message a |}.
Proof.
  intros Ht Hp Hb. unfold extract, extract_body. rewrite Ht, Hp.
  cbv beta iota delta [py_contains py_getitem_str obind py_len py_getitem_0 py_dot_get].
  rewrite Hb. cbv beta iota.
  replace (0 <? Z.of_nat (List.length (PDict first :: rest))) with true
    by (symmetry; apply Z.ltb_lt; simpl; lia).
  reflexivity.
Qed.

(** X14.  With no usable [EnvelopeBody], an [EnvelopeFooter] replaces all
    three values: the message, and also [exception_thrown] and
    [exception_message] as passed by the caller, which become [False] and
    [None] when the footer does not carry them. *)
Theorem footer_replaces_arguments (a : ResponseArgs) (envelope footer : dict) :
  truthy (rs_response_payload a) = true ->
  parse_payload json_loads (rs_response_payload a) = Return (PDict envelope) ->
  body_empty envelope ->
  dict_find envelope "EnvelopeFooter" = Some (PDict footer) ->
  extract json_loads a =
    {| response_message := dict_get footer "ResponseMessage";
       exception_thrown := dict_get_or footer "ExceptionThrown" (PBool false);
       exception_message := dict_get footer "ExceptionMessage" |}.
Proof.
  intros Ht Hp Hb Hf. unfold extract, extract_body, body_empty in *. rewrite Ht, Hp.
  cbv beta iota delta [py_contains py_getitem_str obind py_dot_get].
  rewrite Hf.
  destruct (dict_find envelope "EnvelopeBody") as [body|]; cbv beta iota.
  - rewrite Hb. reflexivity.
  - reflexivity.
Qed.

(** X15.  An [is_success] the caller passes is recorded as it is, whatever
    the status code and the envelope say. *)
Theorem explicit_success_is_kept (now : Z) (a : ResponseArgs) (log_data : dict) :
  rs_is_success a <> PNone ->
  kwargs_ok response_param_names (rs_kwargs a) = true ->
  log_excalibur_response json_dumps json_loads now a = Return log_data ->
  dict_find log_data "is_success" = Some (rs_is_success a).
Proof.
  intros Hs Hkw H.
  destruct (response_record_is_updated now a log_data H) as (built & -> & _ & Hi & _).
  rewrite dict_find_update_absent
    by (apply (kwargs_ok_absent _ _ _ Hkw); simpl; tauto).
  rewrite Hi. destruct (rs_is_success a); try reflexivity. now elim Hs.
Qed.

(** X16.  Unlike the request payload, a response payload is never
    truncated: a text of any length is recorded whole, and an empty payload
    leaves the record without a [response_payload] field. *)
Theorem response_payload_is_whole (now : Z) (a : ResponseArgs) :
  kwargs_ok response_param_names (rs_kwargs a) = true ->
  (forall s,
     rs_response_payload a = PStr s -> s <> "" ->
     exists log_data,
       log_excalibur_response json_dumps json_loads now a = Return log_data /\
       dict_find log_data "response_payload" = Some (PStr s)) /\
  (truthy (rs_response_payload a) = false ->
   exists log_data,
     log_excalibur_response json_dumps json_loads now a = Return log_data /\
     dict_find log_data "response_payload" = None).
Proof.
  intros Hkw.
  assert (Hk : dict_find (rs_kwargs a) "response_payload" = None).
  { apply (kwargs_ok_absent _ _ _ Hkw). simpl. tauto. }
  split.
  - intros s Hp Hne. apply truthy_str in Hne.
    unfold log_excalibur_response. rewrite Hp, Hne. simpl.
    eexists. split; [reflexivity|].
    rewrite dict_find_update_absent by assumption. reflexivity.
  - intros Hf. unfold log_excalibur_response. rewrite Hf. simpl.
    eexists. split; [reflexivity|].
    rewrite dict_find_update_absent by assumption. reflexivity.
Qed.

End BuilderFacts.

(* ================================================================== *)
(** * From the builders to the row *)
(* ================================================================== *)

Lemma dict_find_stamp (now : Z) (ld : dict) (k : string) :
  k <> "created_at" -> dict_find (stamp now ld) k = dict_find ld k.
Proof.
  intros H. unfold stamp. destruct (dict_find ld "created_at"); auto.
  apply dict_find_set_other. congruence.
Qed.

Lemma dict_find_stamp_created_at (now : Z) (ld : dict) :
  dict_find ld "created_at" = None ->
  dict_find (stamp now ld) "created_at" = Some (PDateTime now).
Proof.
  intros H. unfold stamp. rewrite H. apply dict_find_set_same.
Qed.

Section RowFacts.
Context {DB : Type}.
Variable drv : Driver DB.
Variable json_dumps : dict -> outcome string.
Variable json_loads : string -> outcome PyVal.

Lemma status_key_bound (v : PyVal) (w w' : World DB) (t : list event) (sid : PyVal) :
  _get_http_status_code_id v w = (w', t, Return sid) -> sid = status_key v.
Proof.
  unfold _get_http_status_code_id, status_key, try_except, bind, lift, ret, print.
  destruct (truthy v); simpl.
  - destruct (py_int v); simpl; intros H; inversion H; reflexivity.
  - intros H; inversion H; reflexivity.
Qed.

(** The parameters of an INSERT into the event table that a run of
    [_insert_log] issues. *)
Lemma row_of_run (ld : dict) (w : World DB) (p : dict) (r : outcome (option PyVal)) :
  In (EvExecute InsertAPICall p r) (trace_of (_insert_log drv ld) w) ->
  exists mid eid envid fid msg now,
    p = insert_params ld mid (status_key (dict_get ld "http_status_code")) eid envid
          fid msg now /\
    stored_message ld = Return msg /\
    (truthy (dict_get ld "error_source") = false -> eid = PInt 5) /\
    (truthy (dict_get ld "file_type") = false -> fid = PInt 49).
Proof.
  unfold trace_of.
  destruct (insert_log_shape drv ld w)
    as [(d & e & Ec & E) |
        (d & w1 & t1 & mid & w2 & t2 & sid & w3 & t3 & eid & w4 & t4 & envid &
         w5 & t5 & fid & w6 & t6 & r6 & d7 & rc & Ec & E1 & E2 & E3 & E4 & E5 &
         E6 & E7 & E)]; rewrite E; simpl.
  - intros [H|[H|[]]]; discriminate.
  - destruct (resolver_facts drv HttpMethodID _ _ _ _ _ E1) as [F1 _].
    destruct (resolver_facts drv HttpStatusCodeID _ _ _ _ _ E2) as [F2 _].
    destruct (resolver_facts drv ErrorSourceID _ _ _ _ _ E3) as [F3 N3].
    destruct (resolver_facts drv EnvironmentID _ _ _ _ _ E4) as [F4 _].
    destruct (resolver_facts drv FileTypeID _ _ _ _ _ E5) as [F5 N5].
    apply status_key_bound in E2. subst sid.
    intros [H|H]; [discriminate|].
    rewrite !in_app_iff in H. simpl in H.
    destruct H as [[[H|[H|[H|[H|[H|H]]]]]|[H|[]]]|H]; try discriminate.
    + apply (resolver_event_own _ _ _ _ _ F1) in H. discriminate.
    + apply (resolver_event_own _ _ _ _ _ F2) in H. discriminate.
    + apply (resolver_event_own _ _ _ _ _ F3) in H. discriminate.
    + apply (resolver_event_own _ _ _ _ _ F4) in H. discriminate.
    + apply (resolver_event_own _ _ _ _ _ F5) in H. discriminate.
    + pose proof (write_row_shape drv ld mid (status_key (dict_get ld "http_status_code"))
                    (if is_none eid then PInt 5 else eid) envid
                    (if is_none fid then PInt 49 else fid) w5) as Hw.
      destruct (stored_message ld) as [msg|e'] eqn:Es.
      * cbv zeta in Hw.
        exists mid, (if is_none eid then PInt 5 else eid), envid,
          (if is_none fid then PInt 49 else fid), msg, (PDateTime (clock w5)).
        assert (Hp : p = insert_params ld mid (status_key (dict_get ld "http_status_code"))
                           (if is_none eid then PInt 5 else eid) envid
                           (if is_none fid then PInt 49 else fid) msg
                           (PDateTime (clock w5))).
        { destruct (execute drv InsertAPICall _ (db w5)) as [d' [x|e']];
            rewrite Hw in E6; inversion E6; subst t6; simpl in H.
          - destruct H as [H|[H|[]]]; [|discriminate]. now inversion H.
          - destruct H as [H|[]]. now inversion H. }
        refine (conj Hp (conj eq_refl (conj _ _))).
        -- intros Hf. destruct (N3 Hf) as [-> _]; [discriminate|]. reflexivity.
        -- intros Hf. destruct (N5 Hf) as [-> _]; [discriminate|]. reflexivity.
      * rewrite Hw in E6. inversion E6; subst t6. contradiction.
    + destruct rc as [[]|?], r6 as [[]|?]; simpl in H;
        try contradiction; destruct H as [H|[]]; discriminate.
Qed.

Ltac absent Hk := apply Hk; unfold writer_keys; simpl; tauto.

(** What [log_excalibur_request] puts under the keys the writer reads. *)
Lemma request_record_fields (now : Z) (a : RequestArgs) (ld : dict) :
  (forall k, In k writer_keys -> dict_find (rq_kwargs a) k = None) ->
  log_excalibur_request json_dumps now a = Return ld ->
  dict_find ld "api_endpoint" = Some (rq_api_endpoint a) /\
  dict_find ld "client_id" = Some (rq_client_id a) /\
  dict_find ld "phone_number" = Some (rq_phone_number a) /\
  dict_find ld "matter_id" = Some (rq_matter_id a) /\
  dict_find ld "file_name" = Some (rq_file_name a) /\
  dict_find ld "client_phone_number" = None /\
  dict_find ld "debtor_phone_number" = None /\
  dict_find ld "is_success" = None /\
  dict_find ld "http_status_code" = None /\
  dict_find ld "response_time" = None /\
  dict_find ld "exception_message" = None /\
  dict_find ld "error_source" = None /\
  dict_find ld "retry_count" = None /\
  dict_find ld "created_at" = None.
Proof.
  intros Hk H. unfold log_excalibur_request in H.
  destruct (truthy (rq_request_payload a)); simpl in H.
  - destruct (match rq_request_payload a with
              | PDict d => obind (json_dumps d) (fun s => Return (PStr s))
              | v => Return v
              end) as [payload|]; simpl in H; [|discriminate].
    destruct (py_len payload) as [size|]; simpl in H; [|discriminate].
    destruct (100000 <? size).
    + destruct (py_slice_to 100000 payload) as [head|]; simpl in H; [|discriminate].
      destruct (py_add_str head "... [truncated]") as [stored|]; simpl in H;
        [|discriminate].
      inversion H; subst.
      repeat split; (rewrite dict_find_update_absent by absent Hk); reflexivity.
    + inversion H; subst.
      repeat split; (rewrite dict_find_update_absent by absent Hk); reflexivity.
  - inversion H; subst.
    repeat split; (rewrite dict_find_update_absent by absent Hk); reflexivity.
Qed.

(** What [log_excalibur_response] puts under the keys the writer reads. *)
Lemma response_record_fields (now : Z) (a : ResponseArgs) (ld : dict) :
  (forall k, In k writer_keys -> dict_find (rs_kwargs a) k = None) ->
  log_excalibur_response json_dumps json_loads now a = Return ld ->
  dict_find ld "api_endpoint" = Some (rs_api_endpoint a) /\
  dict_find ld "client_id" = Some (rs_client_id a) /\
  dict_find ld "http_status_code" = Some (rs_http_status_code a) /\
  dict_find ld "response_time" = Some (rs_response_time a) /\
  dict_find ld "retry_count" = Some (rs_retry_count a) /\
  dict_find ld "is_success" =
    Some (if is_none (rs_is_success a)
          then py_and (PBool (eq_int (rs_http_status_code a) 200))
                      (py_not (exception_thrown (extract json_loads a)))
          else rs_is_success a) /\
  dict_find ld "phone_number" = None /\
  dict_find ld "client_phone_number" = None /\
  dict_find ld "debtor_phone_number" = None /\
  dict_find ld "matter_id" = None /\
  dict_find ld "file_name" = None /\
  dict_find ld "file_type" = None /\
  dict_find ld "created_at" = None.
Proof.
  intros Hk H. unfold log_excalibur_response in H.
  destruct (truthy (rs_response_payload a)); simpl in H.
  - destruct (match rs_response_payload a with
              | PDict d => obind (json_dumps d) (fun s => Return (PStr s))
              | v => Return v
              end) as [payload|]; simpl in H; [|discriminate].
    inversion H; subst.
    repeat split; (rewrite dict_find_update_absent by absent Hk); reflexivity.
  - inversion H; subst.
    repeat split; (rewrite dict_find_update_absent by absent Hk); reflexivity.
Qed.

(** X17.  The row written for a request record (built by
    [log_excalibur_request], stamped by [log_api_call], inserted by
    [_insert_log]; no extra keyword names a key the writer reads): it
    carries the endpoint, the client id as [client_phone_number], the phone
    number as [debtor_phone_number], the matter id and the file name, and
    it is marked as not successful, with no status code, no response time
    and no exception message, error source 5, retry count 0, and the
    submission time as [date_created]. *)
Theorem request_row (now submitted_at : Z) (a : RequestArgs) (ld : dict)
    (w : World DB) (p : dict) (r : outcome (option PyVal)) :
  (forall k, In k writer_keys -> dict_find (rq_kwargs a) k = None) ->
  log_excalibur_request json_dumps now a = Return ld ->
  In (EvExecute InsertAPICall p r)
     (trace_of (_insert_log drv (stamp submitted_at ld)) w) ->
  dict_find p "endpoint" = Some (rq_api_endpoint a) /\
  dict_find p "client_phone_number" = Some (py_or (rq_client_id a) PNone) /\
  dict_find p "debtor_phone_number" = Some (py_or (rq_phone_number a) PNone) /\
  dict_find p "matter_id" = Some (rq_matter_id a) /\
  dict_find p "file_name" = Some (rq_file_name a) /\
  dict_find p "is_success" = Some (PInt 0) /\
  dict_find p "http_status_code_id" = Some PNone /\
  dict_find p "response_time" = Some PNone /\
  dict_find p "exception_message" = Some PNone /\
  dict_find p "error_source_id" = Some (PInt 5) /\
  dict_find p "retry_count" = Some (PInt 0) /\
  dict_find p "date_created" = Some (PDateTime submitted_at).
Proof.
  intros Hk Hb Hin.
  destruct (request_record_fields now a ld Hk Hb)
    as (Eep & Ecl & Eph & Emt & Efn & Ecp & Edp & Eis & Esc & Ert & Eem & Ees & Erc & Eca).
  destruct (row_of_run _ _ _ _ Hin)
    as (mid & eid & envid & fid & msg & now' & -> & Hmsg & Hes & _).
  assert (Hg : forall k v, k <> "created_at" ->
                 dict_find ld k = v -> dict_find (stamp submitted_at ld) k = v).
  { intros k v Hne <-. now apply dict_find_stamp. }
  apply Hg in Eep, Ecl, Eph, Emt, Efn, Ecp, Edp, Eis, Esc, Ert, Eem, Ees, Erc;
    try discriminate.
  apply (dict_find_stamp_created_at submitted_at) in Eca.
  unfold stored_message, dict_get, dict_get_or in Hmsg.
  rewrite Eem in Hmsg. simpl in Hmsg. inversion Hmsg; subst msg.
  rewrite Hes by (unfold dict_get, dict_get_or; now rewrite Ees).
  unfold insert_params, dict_get, dict_get_or.
  rewrite Eep, Ecl, Eph, Emt, Efn, Ecp, Edp, Eis, Esc, Ert, Erc, Eca.
  repeat split.
Qed.

(** X18.  The row written for a response record under the same
    conditions: it carries the endpoint, the client id, the status code
    converted by [int], the response time and the retry count as passed,
    [is_success] as 1 or 0, and it has no debtor phone number, no matter id
    and no file name, with file type 49: a response row cannot be tied to
    its request through these columns. *)
Theorem response_row (now submitted_at : Z) (a : ResponseArgs) (ld : dict)
    (w : World DB) (p : dict) (r : outcome (option PyVal)) :
  (forall k, In k writer_keys -> dict_find (rs_kwargs a) k = None) ->
  log_excalibur_response json_dumps json_loads now a = Return ld ->
  In (EvExecute InsertAPICall p r)
     (trace_of (_insert_log drv (stamp submitted_at ld)) w) ->
  dict_find p "endpoint" = Some (rs_api_endpoint a) /\
  dict_find p "client_phone_number" = Some (py_or (rs_client_id a) PNone) /\
  dict_find p "http_status_code_id" = Some (status_key (rs_http_status_code a)) /\
  dict_find p "response_time" = Some (rs_response_time a) /\
  dict_find p "retry_count" = Some (rs_retry_count a) /\
  dict_find p "is_success" =
    Some (PInt (if truthy (if is_none (rs_is_success a)
                           then py_and (PBool (eq_int (rs_http_status_code a) 200))
                                  (py_not (exception_thrown (extract json_loads a)))
                           else rs_is_success a)
                then 1 else 0)) /\
  dict_find p "debtor_phone_number" = Some PNone /\
  dict_find p "matter_id" = Some PNone /\
  dict_find p "file_name" = Some PNone /\
  dict_find p "file_type_id" = Some (PInt 49) /\
  dict_find p "date_created" = Some (PDateTime submitted_at).
Proof.
  intros Hk Hb Hin.
  destruct (response_record_fields now a ld Hk Hb)
    as (Eep & Ecl & Esc & Ert & Erc & Eis & Eph & Ecp & Edp & Emt & Efn & Eft & Eca).
  destruct (row_of_run _ _ _ _ Hin)
    as (mid & eid & envid & fid & msg & now' & -> & _ & _ & Hft).
  assert (Hg : forall k v, k <> "created_at" ->
                 dict_find ld k = v -> dict_find (stamp submitted_at ld) k = v).
  { intros k v Hne <-. now apply dict_find_stamp. }
  apply Hg in Eep, Ecl, Esc, Ert, Erc, Eis, Eph, Ecp, Edp, Emt, Efn, Eft;
    try discriminate.
  apply (dict_find_stamp_created_at submitted_at) in Eca.
  rewrite Hft by (unfold dict_get, dict_get_or; now rewrite Eft).
  unfold insert_params, dict_get, dict_get_or.
  rewrite Eep, Ecl, Esc, Ert, Erc, Eis, Eph, Ecp, Edp, Emt, Efn, Eca.
  repeat split.
Qed.

End RowFacts.

(* ================================================================== *)
(** * Further properties of the queue and the worker *)
(* ================================================================== *)

Section WorkerFacts.
Context {DB : Type}.
Variable drv : Driver DB.

Lemma processing_error_app (a b : list event) :
  existsb is_processing_error (a ++ b) =
    existsb is_processing_error a || existsb is_processing_error b.
Proof. apply existsb_app. Qed.

(** No resolver prints the worker's line. *)
Lemma resolver_quiet (r : resolver) (v : PyVal) (w w' : World DB) t res :
  resolve drv r v w = (w', t, res) -> existsb is_processing_error t = false.
Proof.
  destruct r; unfold resolve.
  - unfold _get_http_method_id, try_except, bind, conn_execute, with_db, print, ret.
    destruct (truthy v); simpl.
    + destruct (execute drv SelectHttpMethod _ (db w)) as [? [[?|]|?]]; simpl;
        intros H; inversion H; reflexivity.
    + intros H; inversion H; reflexivity.
  - unfold _get_http_status_code_id, try_except, bind, lift, ret, print.
    destruct (truthy v); simpl; [destruct (py_int v)|]; simpl;
      intros H; inversion H; reflexivity.
  - unfold _get_error_source_id, try_except, bind, conn_execute, conn_commit,
      with_db, print, ret.
    destruct (truthy v); simpl; [|intros H; inversion H; reflexivity].
    destruct (execute drv SelectErrorSource _ (db w)) as [d1 [[?|]|?]]; simpl;
      try (intros H; inversion H; reflexivity).
    destruct (execute drv InsertErrorSource _ d1) as [d2 [?|?]]; simpl;
      try (intros H; inversion H; reflexivity).
    destruct (commit drv d2) as [d3 [[]|?]]; simpl;
      try (intros H; inversion H; reflexivity).
    destruct (execute drv SelectErrorSource _ d3) as [d4 [[?|]|?]]; simpl;
      intros H; inversion H; reflexivity.
  - unfold _get_environment_id, try_except, bind, conn_execute, with_db, print, ret.
    set (environment := if negb (truthy v) then PStr "Dev" else v).
    clearbody environment.
    destruct (execute drv SelectEnvironment _ (db w)) as [d1 [[?|]|?]]; simpl;
      try (intros H; inversion H; reflexivity).
    destruct (eq_str environment "Dev"); simpl.
    + destruct (execute drv SelectEnvironmentDevelopment _ d1) as [d2 [[?|]|?]]; simpl;
        intros H; inversion H; reflexivity.
    + intros H; inversion H; reflexivity.
  - unfold _get_file_type_id, try_except, bind, conn_execute, conn_commit,
      with_db, print, ret.
    destruct (truthy v); simpl; [|intros H; inversion H; reflexivity].
    destruct (execute drv SelectFileType _ (db w)) as [d1 [[?|]|?]]; simpl;
      try (intros H; inversion H; reflexivity).
    destruct (execute drv InsertFileType _ d1) as [d2 [?|?]]; simpl;
      try (intros H; inversion H; reflexivity).
    destruct (commit drv d2) as [d3 [[]|?]]; simpl;
      try (intros H; inversion H; reflexivity).
    destruct (execute drv SelectFileType _ d3) as [d4 [[?|]|?]]; simpl;
      intros H; inversion H; reflexivity.
Qed.

(** Nor does [_insert_log]. *)
Lemma insert_log_quiet (ld : dict) (w : World DB) :
  existsb is_processing_error (trace_of (_insert_log drv ld) w) = false.
Proof.
  unfold trace_of.
  destruct (insert_log_shape drv ld w)
    as [(d & e & Ec & E) |
        (d & w1 & t1 & mid & w2 & t2 & sid & w3 & t3 & eid & w4 & t4 & envid &
         w5 & t5 & fid & w6 & t6 & r6 & d7 & rc & Ec & E1 & E2 & E3 & E4 & E5 &
         E6 & E7 & E)]; rewrite E; simpl; [reflexivity|].
  rewrite !processing_error_app.
  rewrite (resolver_quiet HttpMethodID _ _ _ _ _ E1).
  rewrite (resolver_quiet HttpStatusCodeID _ _ _ _ _ E2).
  rewrite (resolver_quiet ErrorSourceID _ _ _ _ _ E3).
  rewrite (resolver_quiet EnvironmentID _ _ _ _ _ E4).
  rewrite (resolver_quiet FileTypeID _ _ _ _ _ E5).
  assert (H6 : existsb is_processing_error t6 = false).
  { pose proof (write_row_shape drv ld mid sid (if is_none eid then PInt 5 else eid)
                  envid (if is_none fid then PInt 49 else fid) w5) as Hw.
    destruct (stored_message ld); cbv zeta in Hw.
    - destruct (execute drv InsertAPICall _ (db w5)) as [? [?|?]];
        rewrite Hw in E6; inversion E6; reflexivity.
    - rewrite Hw in E6; inversion E6; reflexivity. }
  rewrite H6. simpl.
  destruct rc as [[]|?], r6 as [[]|?]; reflexivity.
Qed.

(** ** What holds of the worker in every reachable state *)

Lemma init_worker_record (w : World DB) : worker_record (init w).
Proof. split; simpl; auto. Qed.

Lemma step_worker_record (a : action) (s s' : Sys DB) :
  invariant s -> worker_record s -> step drv a s = Some s' -> worker_record s'.
Proof.
  unfold worker_record. intros (_ & I2 & _) [Q C] H.
  destruct a; simpl in H.
  - inversion H; subst; simpl. auto.
  - unfold _process_logs in H. destruct (worker s) as [| |r|r|] eqn:Ew.
    + inversion H; subst; simpl. split; auto.
      simpl in C. destruct (is_running s); simpl; lia.
    + destruct (items s); inversion H; subst; simpl; split; auto.
    + pose proof (_insert_log_returns drv r (world s)) as Hret.
      pose proof (insert_log_quiet r (world s)) as Hq.
      pose proof (insert_log_count_le drv r (world s)) as Hc.
      unfold result_of, trace_of in *.
      destruct (_insert_log drv r (world s)) as [[w t] res]. simpl in *. subst res.
      inversion H; subst; simpl. rewrite app_nil_r. split.
      * now rewrite processing_error_app, Q, Hq.
      * rewrite count_inserts_app. lia.
    + simpl in I2. destruct (unfinished_tasks s); [discriminate|].
      inversion H; subst; simpl. split; auto.
      rewrite length_app. simpl in *. lia.
    + discriminate.
  - unfold shutdown in H. destruct (caller s); try discriminate.
    inversion H; subst; simpl. split.
    + now rewrite processing_error_app, Q.
    + rewrite count_inserts_app. simpl. change (count_inserts [_]) with 0%nat. lia.
  - unfold shutdown in H. destruct (caller s); try discriminate.
    destruct (unfinished_tasks s); [|discriminate].
    inversion H; subst; simpl. rewrite app_nil_r. auto.
  - unfold shutdown in H. destruct (caller s); try discriminate.
    inversion H; subst; simpl. rewrite app_nil_r. auto.
  - unfold shutdown in H. destruct (caller s); try discriminate.
    destruct (timed_out || _); [|discriminate].
    inversion H; subst; simpl. split.
    + now rewrite processing_error_app, Q.
    + rewrite count_inserts_app. change (count_inserts [_]) with 0%nat. lia.
  - inversion H; subst; simpl. auto.
Qed.

Lemma run_worker_record (acts : list action) (s s' : Sys DB) :
  invariant s -> worker_record s -> run drv acts s = Some s' -> worker_record s'.
Proof.
  revert s. induction acts as [|a acts IH]; intros s I W H; simpl in H.
  - now inversion H; subst.
  - destruct (step drv a s) as [s1|] eqn:E; [|discriminate].
    apply (IH s1); auto.
    + exact (step_invariant drv a s s1 I E).
    + exact (step_worker_record a s s1 I W E).
Qed.

(** X19.  In every state the logger can reach, the records put on the
    queue are, in the order they were put, those marked done, then the one
    the worker holds, then those still queued: none is lost, duplicated or
    overtaken, and [unfinished_tasks] counts exactly the records not yet
    marked done. *)
Theorem no_record_lost_or_reordered (w0 : World DB) (acts : list action) (s : Sys DB) :
  run drv acts (init w0) = Some s ->
  submitted s = processed s ++ in_flight (worker s) ++ items s /\
  unfinished_tasks s = (length (in_flight (worker s)) + length (items s))%nat.
Proof.
  intros H.
  destruct (run_invariant drv acts _ _ (init_invariant w0) H) as (I1 & I2 & _).
  auto.
Qed.

(** X20.  The [except Exception] branch of the worker loop never runs:
    [_insert_log] catches what it raises and [task_done()] is called once
    per [get()], so in no reachable state has the worker printed a
    processing error. *)
Theorem processing_error_is_never_printed (w0 : World DB) (acts : list action)
    (s : Sys DB) (e : exn) :
  run drv acts (init w0) = Some s ->
  ~ In (EvPrint (MsgProcessingError e)) (output s).
Proof.
  intros H Hin.
  destruct (run_worker_record acts _ _ (init_invariant w0) (init_worker_record w0) H)
    as [Q _].
  assert (Ht : existsb is_processing_error (output s) = true).
  { apply existsb_exists. eexists. split; [exact Hin|reflexivity]. }
  congruence.
Qed.

(** X21.  No record is written twice: in every reachable state the INSERTs
    issued into the event table are at most the records marked done, plus
    one while the worker stands between [_insert_log] and [task_done()]. *)
Theorem at_most_one_insert_per_record (w0 : World DB) (acts : list action)
    (s : Sys DB) :
  run drv acts (init w0) = Some s ->
  (count_inserts (output s) <= length (processed s) + writes_pending (worker s))%nat.
Proof.
  intros H.
  exact (proj2 (run_worker_record acts _ _ (init_invariant w0)
                  (init_worker_record w0) H)).
Qed.

Lemma step_after_stop (a : action) (s s' : Sys DB) :
  worker s = WStopped -> step drv a s = Some s' ->
  worker s' = WStopped /\ processed s' = processed s /\
  db (world s') = db (world s) /\
  count_inserts (output s') = count_inserts (output s) /\
  exists more, items s' = items s ++ more /\ submitted s' = submitted s ++ more.
Proof.
  intros Hw H.
  destruct a; simpl in H.
  - inversion H; subst; simpl. repeat split; auto. eexists. split; reflexivity.
  - unfold _process_logs in H. rewrite Hw in H. discriminate.
  - unfold shutdown in H. destruct (caller s); try discriminate.
    inversion H; subst; simpl. rewrite count_inserts_app.
    change (count_inserts [_]) with 0%nat.
    repeat split; auto. exists []. now rewrite !app_nil_r.
  - unfold shutdown in H. destruct (caller s); try discriminate.
    destruct (unfinished_tasks s); [|discriminate].
    inversion H; subst; simpl. rewrite app_nil_r.
    repeat split; auto. exists []. now rewrite !app_nil_r.
  - unfold shutdown in H. destruct (caller s); try discriminate.
    inversion H; subst; simpl. rewrite app_nil_r.
    repeat split; auto. exists []. now rewrite !app_nil_r.
  - unfold shutdown in H. destruct (caller s); try discriminate.
    destruct (timed_out || _); [|discriminate].
    inversion H; subst; simpl. rewrite count_inserts_app.
    change (count_inserts [_]) with 0%nat.
    repeat split; auto. exists []. now rewrite !app_nil_r.
  - inversion H; subst; simpl. repeat split; auto. exists []. now rewrite !app_nil_r.
Qed.

(** X22.  Once the worker has left its loop nothing is written any more:
    [log_api_call] still accepts records and puts them on the queue, but
    whatever runs afterwards, no record is marked done, the database is
    not touched, no INSERT is issued, and the records put since then stay
    queued. *)
Theorem stopped_worker_writes_nothing (acts : list action) (s s' : Sys DB) :
  worker s = WStopped ->
  run drv acts s = Some s' ->
  worker s' = WStopped /\ processed s' = processed s /\
  db (world s') = db (world s) /\
  count_inserts (output s') = count_inserts (output s) /\
  exists more, items s' = items s ++ more /\ submitted s' = submitted s ++ more.
Proof.
  revert s. induction acts as [|a acts IH]; intros s Hw H; simpl in H.
  - inversion H; subst. repeat split; auto. exists []. now rewrite !app_nil_r.
  - destruct (step drv a s) as [s1|] eqn:E; [|discriminate].
    destruct (step_after_stop a s s1 Hw E) as (Hw1 & Hp1 & Hd1 & Hc1 & m1 & Hi1 & Hs1).
    destruct (IH s1 Hw1 H) as (Hw2 & Hp2 & Hd2 & Hc2 & m2 & Hi2 & Hs2).
    repeat split; try congruence.
    exists (m1 ++ m2). rewrite Hi2, Hs2, Hi1, Hs1. now rewrite <- !app_assoc.
Qed.

End WorkerFacts.

(* ================================================================== *)
(** * The further properties on concrete runs *)
(* ================================================================== *)

(** The connection is refused: two events, nothing executed. *)
Lemma connection_failure_sample :
  connect MemDB.driver (db Scenarios.offline) =
    (MemDB.seeded, Raise (DBAPIError "connection lost")) /\
  _insert_log MemDB.driver Samples.upload Scenarios.offline =
    ({| db := MemDB.seeded; clock := 1700000000 |},
     [EvConnect (Raise (DBAPIError "connection lost"));
      EvPrint (MsgInsertError (DBAPIError "connection lost"))],
     Return tt).
Proof.
  assert (H : connect MemDB.driver (db Scenarios.offline) =
                (MemDB.seeded, Raise (DBAPIError "connection lost"))) by reflexivity.
  split; [exact H|].
  exact (connection_failure_drops_record MemDB.driver Samples.upload
           Scenarios.offline _ _ H).
Defined.

(** The upload record with the number 7 as its exception message. *)
Lemma unsliceable_message_sample :
  dict_get Scenarios.numbered "exception_message" = PInt 7 /\
  truthy (PInt 7) = true /\
  count_inserts (trace_of (_insert_log MemDB.driver Scenarios.numbered) Samples.w0)
    = 0%nat /\
  exists e,
    In (EvPrint (MsgInsertError e))
       (trace_of (_insert_log MemDB.driver Scenarios.numbered) Samples.w0).
Proof.
  destruct (unsliceable_message_drops_record MemDB.driver Scenarios.numbered Samples.w0
              (PInt 7) eq_refl eq_refl I) as (_ & Hc & He).
  split; [reflexivity|]. split; [reflexivity|]. split; [exact Hc|exact He].
Defined.

(** The upload record submitted at 1690000000 and written at 1700000000. *)
Lemma date_created_sample :
  In (EvExecute InsertAPICall
        (insert_params (stamp 1690000000 Samples.upload) (PInt 1) (PInt 200) (PInt 5)
           (PInt 1) (PInt 49) PNone (PDateTime 1700000000))
        (Return None))
     (trace_of (_insert_log MemDB.driver (stamp 1690000000 Samples.upload)) Samples.w0) /\
  dict_find
    (insert_params (stamp 1690000000 Samples.upload) (PInt 1) (PInt 200) (PInt 5)
       (PInt 1) (PInt 49) PNone (PDateTime 1700000000))
    "date_created" = Some (PDateTime 1690000000).
Proof.
  assert (Hin : In (EvExecute InsertAPICall
                      (insert_params (stamp 1690000000 Samples.upload) (PInt 1)
                         (PInt 200) (PInt 5) (PInt 1) (PInt 49) PNone
                         (PDateTime 1700000000))
                      (Return None))
                   (trace_of (_insert_log MemDB.driver
                                (stamp 1690000000 Samples.upload)) Samples.w0))
    by in_trace.
  split; [exact Hin|].
  exact (date_created_is_submission_time MemDB.driver Samples.upload 1690000000
           Samples.w0 _ _ Hin).
Defined.

(** A payload added to the upload record changes nothing in its run. *)
Lemma other_key_sample :
  ~ In "request_payload" writer_keys /\
  _insert_log MemDB.driver (dict_set Samples.upload "request_payload" (PStr "hello"))
    Samples.w0 =
  _insert_log MemDB.driver Samples.upload Samples.w0.
Proof.
  assert (H : ~ In "request_payload" writer_keys).
  { unfold writer_keys. simpl. intros H.
    repeat (destruct H as [H|H]; [discriminate H|]). exact H. }
  split; [exact H|].
  exact (writer_ignores_other_keys MemDB.driver Samples.upload "request_payload"
           (PStr "hello") Samples.w0 H).
Defined.

(** The statements executed for the upload record. *)
Lemma plain_record_sample :
  truthy (dict_get Samples.upload "error_source") = false /\
  truthy (dict_get Samples.upload "file_type") = false /\
  In (EvExecute SelectEnvironmentDevelopment [] (Return (Some (PInt 1))))
     (trace_of (_insert_log MemDB.driver Samples.upload) Samples.w0) /\
  (SelectEnvironmentDevelopment = SelectHttpMethod \/
   SelectEnvironmentDevelopment = SelectEnvironment \/
   SelectEnvironmentDevelopment = SelectEnvironmentDevelopment \/
   SelectEnvironmentDevelopment = InsertAPICall).
Proof.
  assert (Hin : In (EvExecute SelectEnvironmentDevelopment [] (Return (Some (PInt 1))))
                   (trace_of (_insert_log MemDB.driver Samples.upload) Samples.w0))
    by in_trace.
  split; [reflexivity|]. split; [reflexivity|]. split; [exact Hin|].
  exact (plain_record_touches_no_reference_table MemDB.driver Samples.upload Samples.w0
           _ _ _ eq_refl eq_refl Hin).
Defined.

(** An environment that is not in the table: looked up, not inserted. *)
Lemma strict_resolver_sample :
  strict EnvironmentID = true /\
  existsb writes (trace_of (resolve MemDB.driver EnvironmentID (PStr "Staging"))
                    Samples.w0) = false /\
  result_of (resolve MemDB.driver EnvironmentID (PStr "Staging")) Samples.w0
    = Return PNone.
Proof.
  split; [reflexivity|]. split; [|reflexivity].
  exact (strict_resolvers_never_write MemDB.driver EnvironmentID (PStr "Staging")
           Samples.w0 eq_refl).
Defined.


(** A body with a result and a footer with an exception: the result is
    the message, and the caller's [exception_thrown=False] stands. *)
Lemma envelope_body_sample :
  dict_find Scenarios.body_envelope "EnvelopeBody" =
    Some (PList [PDict [("ResultMessage", PStr "Imported")]]) /\
  extract Samples.loads
    (Samples.response_with (PInt 200) (PDict Scenarios.body_envelope) (PBool false)) =
    {| response_message := PStr "Imported";
       exception_thrown := PBool false;
       exception_message := PNone |}.
Proof.
  split; [reflexivity|].
  exact (envelope_body_wins Samples.loads
           (Samples.response_with (PInt 200) (PDict Scenarios.body_envelope) (PBool false))
           Scenarios.body_envelope [("ResultMessage", PStr "Imported")] []
           eq_refl eq_refl eq_refl).
Defined.

(** A footer with a message only: the caller's [exception_thrown=True] is
    replaced by [False]. *)
Lemma footer_replaces_sample :
  body_empty Scenarios.bare_footer /\
  extract Samples.loads
    (Samples.response_with (PInt 200) (PDict Scenarios.bare_footer) (PBool true)) =
    {| response_message := PStr "Queued";
       exception_thrown := PBool false;
       exception_message := PNone |}.
Proof.
  split; [exact I|].
  exact (footer_replaces_arguments Samples.loads
           (Samples.response_with (PInt 200) (PDict Scenarios.bare_footer) (PBool true))
           Scenarios.bare_footer [("ResponseMessage", PStr "Queued")]
           eq_refl eq_refl I eq_refl).
Defined.

(** Status 500 with an exception, passed with [is_success=True]. *)
Lemma explicit_success_sample :
  rs_is_success Scenarios.forced_success <> PNone /\
  exists log_data,
    log_excalibur_response Json.dumps Samples.loads 1700000000 Scenarios.forced_success
      = Return log_data /\
    dict_find log_data "is_success" = Some (PBool true).
Proof.
  assert (Hs : rs_is_success Scenarios.forced_success <> PNone) by discriminate.
  split; [exact Hs|].
  assert (E : exists ld,
            log_excalibur_response Json.dumps Samples.loads 1700000000
              Scenarios.forced_success = Return ld) by (eexists; reflexivity).
  destruct E as [ld E]. exists ld. split; [exact E|].
  exact (explicit_success_is_kept Json.dumps Samples.loads 1700000000
           Scenarios.forced_success ld Hs eq_refl E).
Defined.

(** A response text is recorded whole. *)
Lemma response_payload_sample :
  kwargs_ok response_param_names [] = true /\
  exists log_data,
    log_excalibur_response Json.dumps Samples.loads 1700000000
      (Samples.response_with (PInt 200) (PStr "{not json") (PBool false))
      = Return log_data /\
    dict_find log_data "response_payload" = Some (PStr "{not json").
Proof.
  split; [reflexivity|].
  destruct (response_payload_is_whole Json.dumps Samples.loads 1700000000
              (Samples.response_with (PInt 200) (PStr "{not json") (PBool false))
              eq_refl) as [H _].
  apply (H "{not json" eq_refl). discriminate.
Defined.

(** The row of a request for matter 000207. *)
Lemma request_row_sample :
  exists log_data p,
    log_excalibur_request Json.dumps 1700000000 Scenarios.import_request
      = Return log_data /\
    In (EvExecute InsertAPICall p (Return None))
       (trace_of (_insert_log MemDB.driver (stamp 1700000001 log_data)) Samples.w0) /\
    dict_find p "is_success" = Some (PInt 0) /\
    dict_find p "http_status_code_id" = Some PNone /\
    dict_find p "matter_id" = Some (PStr "000207") /\
    dict_find p "debtor_phone_number" = Some (PStr "27820000000") /\
    dict_find p "date_created" = Some (PDateTime 1700000001).
Proof.
  assert (E : exists ld p,
            log_excalibur_request Json.dumps 1700000000 Scenarios.import_request
              = Return ld /\
            In (EvExecute InsertAPICall p (Return None))
               (trace_of (_insert_log MemDB.driver (stamp 1700000001 ld)) Samples.w0)).
  { eexists _, _. split; [reflexivity|].
    unfold trace_of. simpl. repeat (first [left; reflexivity | right]). }
  destruct E as (ld & p & E & Hin). exists ld, p.
  assert (Hk : forall k, In k writer_keys ->
                 dict_find (rq_kwargs Scenarios.import_request) k = None).
  { intros k Hin'. unfold writer_keys in Hin'. simpl in Hin'.
    repeat (destruct Hin' as [<-|Hin']; [reflexivity|]). contradiction. }
  destruct (request_row MemDB.driver Json.dumps 1700000000 1700000001
              Scenarios.import_request ld Samples.w0 p (Return None) Hk E Hin)
    as (_ & _ & Hd & Hm & _ & Hs & Hc & _ & _ & _ & _ & Hdc).
  split; [exact E|]. split; [exact Hin|]. split; [exact Hs|]. split; [exact Hc|].
  split; [exact Hm|]. split; [exact Hd|exact Hdc].
Defined.

(** The row of a response with status 500 and [exception_thrown=True]. *)
Lemma response_row_sample :
  exists log_data p,
    log_excalibur_response Json.dumps Samples.loads 1700000000
      (Samples.response_with (PInt 500) PNone (PBool true)) = Return log_data /\
    In (EvExecute InsertAPICall p (Return None))
       (trace_of (_insert_log MemDB.driver (stamp 1700000001 log_data)) Samples.w0) /\
    dict_find p "is_success" = Some (PInt 0) /\
    dict_find p "http_status_code_id" = Some (PInt 500) /\
    dict_find p "matter_id" = Some PNone /\
    dict_find p "debtor_phone_number" = Some PNone /\
    dict_find p "file_type_id" = Some (PInt 49).
Proof.
  assert (E : exists ld p,
            log_excalibur_response Json.dumps Samples.loads 1700000000
              (Samples.response_with (PInt 500) PNone (PBool true)) = Return ld /\
            In (EvExecute InsertAPICall p (Return None))
               (trace_of (_insert_log MemDB.driver (stamp 1700000001 ld)) Samples.w0)).
  { eexists _, _. split; [reflexivity|].
    unfold trace_of. simpl. repeat (first [left; reflexivity | right]). }
  destruct E as (ld & p & E & Hin). exists ld, p.
  destruct (response_row MemDB.driver Json.dumps Samples.loads 1700000000 1700000001
              (Samples.response_with (PInt 500) PNone (PBool true)) ld Samples.w0 p
              (Return None) (fun _ _ => eq_refl) E Hin)
    as (_ & _ & Hc & _ & _ & Hs & Hd & Hm & _ & Hft & _).
  split; [exact E|]. split; [exact Hin|]. split; [exact Hs|]. split; [exact Hc|].
  split; [exact Hm|]. split; [exact Hd|exact Hft].
Defined.

(** The sample schedule: one record put, one record done, nothing left. *)
Lemma queue_order_sample :
  exists s,
    run MemDB.driver Samples.schedule (init Samples.w0) = Some s /\
    submitted s = processed s ++ in_flight (worker s) ++ items s /\
    unfinished_tasks s = (length (in_flight (worker s)) + length (items s))%nat.
Proof.
  assert (E : exists s, run MemDB.driver Samples.schedule (init Samples.w0) = Some s)
    by (eexists; vm_compute; reflexivity).
  destruct E as [s E]. exists s. split; [exact E|].
  exact (no_record_lost_or_reordered MemDB.driver Samples.w0 Samples.schedule s E).
Defined.

(** The sample schedule prints no processing error. *)
Lemma processing_error_sample :
  exists s,
    run MemDB.driver Samples.schedule (init Samples.w0) = Some s /\
    ~ In (EvPrint (MsgProcessingError ValueError)) (output s).
Proof.
  assert (E : exists s, run MemDB.driver Samples.schedule (init Samples.w0) = Some s)
    by (eexists; vm_compute; reflexivity).
  destruct E as [s E]. exists s. split; [exact E|].
  exact (processing_error_is_never_printed MemDB.driver Samples.w0 Samples.schedule s
           ValueError E).
Defined.

(** The sample schedule issues one INSERT for its one record. *)
Lemma one_insert_sample :
  exists s,
    run MemDB.driver Samples.schedule (init Samples.w0) = Some s /\
    (count_inserts (output s) <= length (processed s) + writes_pending (worker s))%nat.
Proof.
  assert (E : exists s, run MemDB.driver Samples.schedule (init Samples.w0) = Some s)
    by (eexists; vm_compute; reflexivity).
  destruct E as [s E]. exists s. split; [exact E|].
  exact (at_most_one_insert_per_record MemDB.driver Samples.w0 Samples.schedule s E).
Defined.

(** A record put after the worker has stopped stays on the queue. *)
Lemma stopped_worker_sample :
  exists s s',
    run MemDB.driver Scenarios.stop (init Samples.w0) = Some s /\
    worker s = WStopped /\
    run MemDB.driver Scenarios.late s = Some s' /\
    items s' = [stamp 1700000000 Samples.upload] /\
    processed s' = processed s /\
    db (world s') = db (world s) /\
    count_inserts (output s') = count_inserts (output s).
Proof.
  assert (E : exists s s',
            run MemDB.driver Scenarios.stop (init Samples.w0) = Some s /\
            worker s = WStopped /\
            run MemDB.driver Scenarios.late s = Some s' /\
            items s' = [stamp 1700000000 Samples.upload]).
  { eexists _, _. split; [vm_compute; reflexivity|].
    split; [reflexivity|]. split; [vm_compute; reflexivity|]. reflexivity. }
  destruct E as (s & s' & E & Hw & E' & Hi). exists s, s'.
  destruct (stopped_worker_writes_nothing MemDB.driver Scenarios.late s s' Hw E')
    as (_ & Hp & Hd & Hc & _).
  split; [exact E|]. split; [exact Hw|]. split; [exact E'|]. split; [exact Hi|].
  split; [exact Hp|]. split; [exact Hd|exact Hc].
Defined.

(** The connection is lost at the INSERT: the connection is still closed,
    and the error is printed after the close. *)
Lemma connection_closed_sample :
  connect MemDB.driver (db Scenarios.insert_fails) =
    (MemDB.set_faults MemDB.seeded [false; false; false; true], Return tt) /\
  In (EvExecute InsertAPICall Samples.upload_params (Raise (DBAPIError "connection lost")))
     (trace_of (_insert_log MemDB.driver Samples.upload) Scenarios.insert_fails) /\
  exists body rc tail,
    trace_of (_insert_log MemDB.driver Samples.upload) Scenarios.insert_fails =
      EvConnect (Return tt) :: body ++ EvClose rc :: tail /\
    existsb is_session body = false /\
    forallb is_print tail = true.
Proof.
  split; [reflexivity|]. split; [in_trace|].
  exact (connection_is_closed_once MemDB.driver Samples.upload Scenarios.insert_fails
           _ eq_refl).
Defined.


(** An error source that is not in the table is inserted after the miss. *)
Lemma provision_sample :
  In (EvExecute InsertErrorSource [("source", PStr "Gateway")] (Return None))
     (trace_of (_get_error_source_id MemDB.driver (PStr "Gateway")) Samples.w0) /\
  In (EvExecute SelectErrorSource [("source", PStr "Gateway")] (Return None))
     (trace_of (_get_error_source_id MemDB.driver (PStr "Gateway")) Samples.w0).
Proof.
  assert (Hin : In (EvExecute InsertErrorSource [("source", PStr "Gateway")] (Return None))
                   (trace_of (_get_error_source_id MemDB.driver (PStr "Gateway"))
                      Samples.w0)) by in_trace.
  split; [exact Hin|].
  destruct (provision_only_on_miss MemDB.driver (PStr "Gateway") Samples.w0)
    as [(H & _) _].
  exact (proj2 (H _ _ Hin)).
Defined.


(** An extra keyword of the request reaches its record. *)
Lemma kwargs_sample :
  distinct_keys (rq_kwargs Scenarios.import_request) /\
  exists log_data,
    log_excalibur_request Json.dumps 1700000000 Scenarios.import_request
      = Return log_data /\
    dict_find log_data "session_tag" = Some (PStr "batch").
Proof.
  assert (Hd : distinct_keys (rq_kwargs Scenarios.import_request)).
  { unfold distinct_keys. simpl. constructor; [intros []|constructor]. }
  split; [exact Hd|].
  assert (E : exists ld,
            log_excalibur_request Json.dumps 1700000000 Scenarios.import_request
              = Return ld) by (eexists; reflexivity).
  destruct E as [ld E]. exists ld. split; [exact E|].
  destruct (kwargs_reach_the_record Json.dumps Samples.loads 1700000000 "session_tag"
              (PStr "batch")) as [H _].
  exact (H Scenarios.import_request ld Hd eq_refl E).
Defined.

(** A number as request payload: [len] raises into the caller; and a
    logger that cannot be created. *)
Lemma request_raises_sample :
  truthy (rq_request_payload (Samples.request_with (PInt 7))) = true /\
  request_call Json.dumps (Return tt) 1700000000 (Samples.request_with (PInt 7))
    = Raise TypeError /\
  request_call Json.dumps (Raise (DBAPIError "no database")) 1700000000
    (Samples.request_with (PStr "hello")) = Raise (DBAPIError "no database").
Proof.
  split; [reflexivity|]. split.
  - destruct (request_builder_raises Json.dumps (Return tt) 1700000000
                (Samples.request_with (PInt 7))) as (_ & H & _).
    exact (H eq_refl eq_refl I).
  - destruct (request_builder_raises Json.dumps (Raise (DBAPIError "no database"))
                1700000000 (Samples.request_with (PStr "hello"))) as (H & _).
    exact (H _ eq_refl).
Defined.
